(** * PC814 zero-crossing library: capture processor and three-phase analysis

    A shallow embedding of [PC814.c] and [PC814_ThreePhase.c] together with the
    properties of the timing and phase-relationship engine.

    Conventions of the embedding.
    - [uint32_t] values are integers of [Z]; every arithmetic operation of the
      source is written with its reduction modulo [2^32].
    - [float] values are IEEE-754 binary32 numbers, computed with the
      executable specification [SpecFloat] of the Standard Library at
      precision 24 and maximal exponent 128 (round to nearest, ties to even);
      every operation of the source rounds to single precision, as it does
      with [FLT_EVAL_METHOD] 0 (Cortex-M FPU or soft float, SSE). The
      formulas of the specification are read in the same arithmetic.
    - the type [unsigned long] of the literal [1000000UL] is 32 bits wide on
      the Cortex-M targets of the library and 64 bits wide on an LP64 host;
      the width is a parameter ([data_model]) of the functions that use it.
    - a function takes the structure its pointer argument designates and
      returns the structure it leaves behind; the pointer itself is not
      NULL (for a NULL handle every function returns before it reads or
      writes anything).
    - a function pointer of [pc814_port_t] is represented by a flag telling
      whether it is non-NULL; the values the hardware returns during a call
      are an argument of that call ([port_readings]).
    - an integer division by zero is undefined behaviour in C; the embedding
      makes it an outcome of its own ([DivisionByZero]). *)

From Stdlib Require Import String.
From Stdlib Require Import ZArith Lia Bool List.
From Stdlib Require Import QArith Qpower Qround Lqa.
From Stdlib Require Import Floats.SpecFloat.
Import ListNotations.
Local Open Scope Z_scope.

(** ** Machine integers *)

Module U32.
Definition modulus : Z := 4294967296.
Definition max : Z := 0xFFFFFFFF.
Definition wrap (z : Z) : Z := z mod modulus.
Definition add (a b : Z) : Z := wrap (a + b).
Definition sub (a b : Z) : Z := wrap (a - b).
Definition incr (a : Z) : Z := add a 1.
Definition in_range (z : Z) : Prop := 0 <= z < modulus.
End U32.

Module I32.
Definition half : Z := 2147483648.
(** conversion of a [uint32_t] to [int32_t] (two's complement) *)
Definition of_u32 (z : Z) : Z :=
  let w := U32.wrap z in if w <? half then w else w - U32.modulus.
Definition wrap (z : Z) : Z := of_u32 z.
Definition sub (a b : Z) : Z := wrap (a - b).
(** [abs] of <stdlib.h>; the result for [INT_MIN] is the wrapped one *)
Definition abs (a : Z) : Z := wrap (Z.abs a).
End I32.

(** The width of [unsigned long]. *)
Inductive data_model : Type := ILP32 | LP64.

Definition ulong_modulus (dm : data_model) : Z :=
  match dm with
  | ILP32 => 4294967296
  | LP64 => 18446744073709551616
  end.

(** ** Single-precision floating point *)

Module F32.
Definition prec : Z := 24.
Definition emax : Z := 128.
Definition float : Type := spec_float.

Definition of_Z (z : Z) : float := binary_normalize prec emax z 0 false.
Definition add : float -> float -> float := SFadd prec emax.
Definition sub : float -> float -> float := SFsub prec emax.
Definition mul : float -> float -> float := SFmul prec emax.
Definition div : float -> float -> float := SFdiv prec emax.
Definition abs : float -> float := SFabs.
Definition eqb : float -> float -> bool := SFeqb.
Definition ltb : float -> float -> bool := SFltb.
Definition leb : float -> float -> bool := SFleb.
Definition gtb (x y : float) : bool := SFltb y x.
Definition geb (x y : float) : bool := SFleb y x.
Definition zero : float := S754_zero false.

(** [fmodf]: the exact remainder of the magnitudes, with the sign of [x] *)
Definition fmod (x y : float) : float :=
  match x, y with
  | S754_nan, _ | _, S754_nan => S754_nan
  | S754_infinity _, _ => S754_nan
  | _, S754_zero _ => S754_nan
  | _, S754_infinity _ => x
  | S754_zero _, _ => x
  | S754_finite sx mx ex, S754_finite _ my ey =>
      let e := Z.min ex ey in
      let X := Z.pos mx * 2 ^ (ex - e) in
      let Y := Z.pos my * 2 ^ (ey - e) in
      binary_normalize prec emax (cond_Zopp sx (X mod Y)) e sx
  end.
(** The integral part of [x], rounded toward zero; none for a NaN or an
    infinity. *)
Definition truncate (x : float) : option Z :=
  match x with
  | S754_zero _ => Some 0
  | S754_finite s m e =>
      Some (cond_Zopp s (if 0 <=? e then Z.pos m * 2 ^ e else Z.pos m / 2 ^ (- e)))
  | _ => None
  end.

(** The rational number a finite [x] stands for. *)
Definition value (x : float) : Q :=
  match x with
  | S754_finite s m e => (inject_Z (cond_Zopp s (Z.pos m)) * 2 ^ e)%Q
  | _ => 0%Q
  end.

(** A positive normal number: 24 significant digits. *)
Definition normal (x : float) : Prop :=
  exists (m : positive) (e : Z),
    x = S754_finite false m e
    /\ 8388608 <= Z.pos m < 16777216 /\ -149 <= e <= 104.

(** The relative error bound of one rounding. *)
Definition eps : Q := 1 # 8388608.

(** [x] is a positive normal number within [eps] of the rational [exact]. *)
Definition approximates (exact : Q) (x : float) : Prop :=
  normal x /\ (exact * (1 - eps) <= value x <= exact * (1 + eps))%Q.

(** The cast [(uint32_t) x]: defined when the integral part fits 32 bits. *)
Definition to_u32 (x : float) : option Z :=
  match truncate x with
  | Some z => if (0 <=? z) && (z <? 4294967296) then Some z else None
  | None => None
  end.
End F32.

(** Exponent of the last place of a single-precision number of magnitude
    [2 ^ (d - 1) <= |x| < 2 ^ d]. *)
Definition fexp32 (d : Z) : Z := Z.max (d - 24) (-149).

(** Non-negative values of the format: mantissa and exponent canonical. *)
Definition nonneg_binary32 (d : spec_float) : Prop :=
  match d with
  | S754_finite s m e => s = false /\ bounded F32.prec F32.emax m e = true
  | S754_infinity s => s = false
  | _ => True
  end.

(** ** PC814.h: the data model *)

Module PC814.

Inductive pc814_status_t : Type :=
| PC814_OK
| PC814_ERROR
| PC814_NOT_INITIALIZED
| PC814_INVALID_PARAM.

Inductive pc814_pull_t : Type := PC814_PULL_UP | PC814_PULL_DOWN.

Inductive pc814_edge_t : Type := PC814_EDGE_RISING | PC814_EDGE_FALLING.

Record pc814_data_t : Type := mk_data {
  period_us : Z;
  frequency_hz : Z;
  timestamp_us : Z;
  count : Z;
  valid : bool
}.

Record pc814_statistics_t : Type := mk_statistics {
  total_zc_count : Z;
  valid_zc_count : Z;
  invalid_zc_count : Z;
  min_period_us : Z;
  max_period_us : Z;
  avg_period_us : Z;
  min_frequency_hz : F32.float;
  max_frequency_hz : F32.float;
  avg_frequency_hz : F32.float
}.

(** The table of port functions: [true] where the pointer is non-NULL. *)
Record pc814_port_t : Type := mk_port {
  timer_get_capture_value : bool;
  timer_get_frequency : bool;
  timer_reset_capture : bool;
  timer_start_capture : bool;
  timer_stop_capture : bool;
  gpio_set_pull_up : bool;
  gpio_set_pull_down : bool;
  get_time_us : bool;
  delay_us : bool;
  delay_ms : bool
}.

(** What the hardware answers during one call. *)
Record port_readings : Type := mk_readings {
  capture_value : Z;
  timer_frequency : Z;
  time_us : Z
}.

(** [port] is [None] for a NULL pointer; [callback] tells whether a listener
    is registered (the listener observes the sample it is given). *)
Record pc814_handle_t : Type := mk_handle {
  port : option pc814_port_t;
  pull_config : pc814_pull_t;
  edge_type : pc814_edge_t;
  data : pc814_data_t;
  last_capture_time : Z;
  last_capture_value : Z;
  initialized : bool;
  expected_frequency : Z;
  frequency_tolerance : F32.float;
  callback : bool;
  statistics : pc814_statistics_t;
  period_sum : Z;
  period_count : Z
}.

(** Outcome of a call that may divide. *)
Inductive outcome (A : Type) : Type :=
| Returns (a : A)
| DivisionByZero.
Arguments Returns {A} a.
Arguments DivisionByZero {A}.

(** Result of [pc814_process_capture]: the status, the handle after the call
    and the sample handed to the listener, if it was invoked. *)
Record capture_result : Type := mk_result {
  status : pc814_status_t;
  handle : pc814_handle_t;
  notified : option pc814_data_t
}.

(** ** PC814.c: the channel capture processor *)

Definition PC814_DEFAULT_FREQ : Z := 50.
Definition PC814_DEFAULT_TOLERANCE : F32.float := F32.of_Z 5.

Definition validate_frequency (freq expected : Z) (tolerance : F32.float) : bool :=
  if (freq =? 0) || (expected =? 0) then false
  else
    let diff := F32.of_Z (I32.abs (I32.sub (I32.of_u32 freq) (I32.of_u32 expected))) in
    let percent := F32.mul (F32.div diff (F32.of_Z expected)) (F32.of_Z 100) in
    F32.leb percent tolerance.

Definition zero_data : pc814_data_t := mk_data 0 0 0 0 false.

Definition zero_statistics : pc814_statistics_t :=
  mk_statistics 0 0 0 0 0 0 F32.zero F32.zero F32.zero.

(** [handle] and [port] non-NULL is [port = Some _]; the handle written by
    the call does not depend on its previous content ([memset]). *)
Definition pc814_init (h : pc814_handle_t) (p : option pc814_port_t)
    (pull : pc814_pull_t) (edge : pc814_edge_t) : pc814_status_t * pc814_handle_t :=
  match p with
  | None => (PC814_ERROR, h)
  | Some _ =>
      (PC814_OK,
       mk_handle p pull edge zero_data 0 0 true
                 PC814_DEFAULT_FREQ PC814_DEFAULT_TOLERANCE false
                 zero_statistics 0 0)
  end.

(** Lines 102-107: the tick delta between two raw counter values. *)
Definition period_ticks_of (last_capture current_capture : Z) : Z :=
  if current_capture >? last_capture
  then U32.sub current_capture last_capture
  else U32.add (U32.sub U32.max last_capture) current_capture.

(** Line 110: [(period_ticks * 1000000UL) / timer_freq], stored in a
    [uint32_t]. *)
Definition period_us_of (dm : data_model) (period_ticks timer_freq : Z) : Z :=
  U32.wrap (((period_ticks * 1000000) mod ulong_modulus dm) / timer_freq).

(** Lines 126-158: the statistics after a sample. *)
Definition update_statistics (h : pc814_handle_t) (p_us freq_hz : Z)
    (freq_valid : bool) : pc814_statistics_t * Z * Z :=
  let st := statistics h in
  if freq_valid then
    let total := U32.incr (total_zc_count st) in
    let nvalid := U32.incr (valid_zc_count st) in
    let minp :=
      if (min_period_us st =? 0) || (p_us <? min_period_us st)
      then p_us else min_period_us st in
    let maxp :=
      if p_us >? max_period_us st then p_us else max_period_us st in
    let freq_float := F32.of_Z freq_hz in
    let minf :=
      if F32.eqb (min_frequency_hz st) F32.zero
         || F32.ltb freq_float (min_frequency_hz st)
      then freq_float else min_frequency_hz st in
    let maxf :=
      if F32.gtb freq_float (max_frequency_hz st)
      then freq_float else max_frequency_hz st in
    let psum := U32.add (period_sum h) p_us in
    let pcount := U32.incr (period_count h) in
    if pcount >? 0 then
      let avgp := psum / pcount in
      let avgf := F32.div (F32.of_Z 1000000) (F32.of_Z avgp) in
      (mk_statistics total nvalid (invalid_zc_count st) minp maxp avgp
                     minf maxf avgf, psum, pcount)
    else
      (mk_statistics total nvalid (invalid_zc_count st) minp maxp
                     (avg_period_us st) minf maxf (avg_frequency_hz st),
       psum, pcount)
  else
    (mk_statistics (U32.incr (total_zc_count st)) (valid_zc_count st)
                   (U32.incr (invalid_zc_count st))
                   (min_period_us st) (max_period_us st) (avg_period_us st)
                   (min_frequency_hz st) (max_frequency_hz st)
                   (avg_frequency_hz st),
     period_sum h, period_count h).

Definition pc814_process_capture (dm : data_model) (h : pc814_handle_t)
    (hw : port_readings) : outcome capture_result :=
  match initialized h, port h with
  | false, _ | _, None => Returns (mk_result PC814_NOT_INITIALIZED h None)
  | true, Some p =>
    if negb (timer_get_capture_value p) || negb (timer_get_frequency p)
    then Returns (mk_result PC814_ERROR h None)
    else
      let current_capture := capture_value hw in
      let timer_freq := timer_frequency hw in
      if (current_capture =? 0) || (timer_freq =? 0)
      then Returns (mk_result PC814_ERROR h None)
      else
        let current_time := if get_time_us p then time_us hw else 0 in
        if negb (last_capture_value h =? 0) then
          let period_ticks := period_ticks_of (last_capture_value h) current_capture in
          let p_us := period_us_of dm period_ticks timer_freq in
          if p_us =? 0 then DivisionByZero
          else
            let freq_hz := 1000000 / p_us in
            let freq_valid :=
              validate_frequency freq_hz (expected_frequency h)
                                 (frequency_tolerance h) in
            let d := mk_data p_us freq_hz current_time
                             (U32.incr (count (data h))) freq_valid in
            let '(st, psum, pcount) := update_statistics h p_us freq_hz freq_valid in
            Returns
              (mk_result PC814_OK
                 (mk_handle (port h) (pull_config h) (edge_type h) d
                            current_time current_capture (initialized h)
                            (expected_frequency h) (frequency_tolerance h)
                            (callback h) st psum pcount)
                 (if callback h && freq_valid then Some d else None))
        else
          Returns
            (mk_result PC814_OK
               (mk_handle (port h) (pull_config h) (edge_type h) (data h)
                          current_time current_capture (initialized h)
                          (expected_frequency h) (frequency_tolerance h)
                          (callback h) (statistics h) (period_sum h)
                          (period_count h))
               None)
  end.

Definition pc814_set_expected_frequency (h : pc814_handle_t) (freq : Z)
    : pc814_handle_t :=
  if (freq =? 50) || (freq =? 60) then
    mk_handle (port h) (pull_config h) (edge_type h) (data h)
              (last_capture_time h) (last_capture_value h) (initialized h)
              freq (frequency_tolerance h) (callback h) (statistics h)
              (period_sum h) (period_count h)
  else h.

Definition pc814_set_frequency_tolerance (h : pc814_handle_t)
    (tolerance : F32.float) : pc814_handle_t :=
  if F32.gtb tolerance F32.zero && F32.leb tolerance (F32.of_Z 50) then
    mk_handle (port h) (pull_config h) (edge_type h) (data h)
              (last_capture_time h) (last_capture_value h) (initialized h)
              (expected_frequency h) tolerance (callback h) (statistics h)
              (period_sum h) (period_count h)
  else h.

Definition pc814_reset (h : pc814_handle_t) : pc814_handle_t :=
  mk_handle (port h) (pull_config h) (edge_type h)
            (mk_data (period_us (data h)) (frequency_hz (data h))
                     (timestamp_us (data h)) 0 false)
            0 0 (initialized h)
            (expected_frequency h) (frequency_tolerance h) (callback h)
            (statistics h) (period_sum h) (period_count h).

Definition pc814_set_callback (h : pc814_handle_t) (cb : bool) : pc814_handle_t :=
  mk_handle (port h) (pull_config h) (edge_type h) (data h)
            (last_capture_time h) (last_capture_value h) (initialized h)
            (expected_frequency h) (frequency_tolerance h) cb (statistics h)
            (period_sum h) (period_count h).

Definition pc814_reset_statistics (h : pc814_handle_t) : pc814_handle_t :=
  mk_handle (port h) (pull_config h) (edge_type h) (data h)
            (last_capture_time h) (last_capture_value h) (initialized h)
            (expected_frequency h) (frequency_tolerance h) (callback h)
            zero_statistics 0 0.

Definition pc814_read_data (h : pc814_handle_t) : pc814_status_t * option pc814_data_t :=
  if negb (initialized h) then (PC814_ERROR, None) else (PC814_OK, Some (data h)).

(** *** The queries and utilities of PC814.c *)

Definition pc814_get_frequency (h : pc814_handle_t) : Z :=
  if negb (initialized h) || negb (valid (data h)) then 0
  else frequency_hz (data h).

Definition pc814_get_period_us (h : pc814_handle_t) : Z :=
  if negb (initialized h) || negb (valid (data h)) then 0
  else period_us (data h).

Definition pc814_get_count (h : pc814_handle_t) : Z :=
  if negb (initialized h) then 0 else count (data h).

(** [now] is what [get_time_us] returns during the call. *)
Definition pc814_get_time_since_zc (h : pc814_handle_t) (now : Z) : Z :=
  match initialized h, port h with
  | false, _ | _, None => 0
  | true, Some p =>
      if negb (get_time_us p) then 0
      else if now <? timestamp_us (data h) then 0
      else U32.sub now (timestamp_us (data h))
  end.

Definition pc814_is_data_valid (h : pc814_handle_t) : bool :=
  if negb (initialized h) then false else valid (data h).

Definition pc814_start (h : pc814_handle_t) : pc814_status_t :=
  match initialized h, port h with
  | false, _ | _, None => PC814_ERROR
  | true, Some _ => PC814_OK
  end.

Definition pc814_get_statistics (h : pc814_handle_t)
    : pc814_status_t * option pc814_statistics_t :=
  if negb (initialized h) then (PC814_ERROR, None)
  else (PC814_OK, Some (statistics h)).

Definition pc814_is_new_zc (h : pc814_handle_t) (last_count : Z) : bool :=
  if negb (initialized h) then false else count (data h) >? last_count.

Definition pc814_get_half_period_us (h : pc814_handle_t) : Z :=
  if negb (initialized h) || negb (valid (data h)) then 0
  else period_us (data h) / 2.

Definition pc814_get_quarter_period_us (h : pc814_handle_t) : Z :=
  if negb (initialized h) || negb (valid (data h)) then 0
  else period_us (data h) / 4.

(** *** Phase angle and time offset (PC814.c lines 306-356)

    The two [while] loops that bring a phase into the range 0-360 run on
    fuel: [None] when the fuel does not suffice. *)

(** [while (phase >= 360.0f) phase -= 360.0f;] *)
Fixpoint reduce_phase (fuel : nat) (phase : F32.float) : option F32.float :=
  match fuel with
  | O => None
  | S fuel' =>
      if F32.geb phase (F32.of_Z 360)
      then reduce_phase fuel' (F32.sub phase (F32.of_Z 360))
      else Some phase
  end.

(** [while (phase < 0.0f) phase += 360.0f;] *)
Fixpoint raise_phase (fuel : nat) (phase : F32.float) : option F32.float :=
  match fuel with
  | O => None
  | S fuel' =>
      if F32.ltb phase F32.zero
      then raise_phase fuel' (F32.add phase (F32.of_Z 360))
      else Some phase
  end.

Definition normalize_phase (fuel : nat) (phase : F32.float) : option F32.float :=
  match reduce_phase fuel phase with
  | Some phase' => raise_phase fuel phase'
  | None => None
  end.

Definition pc814_calc_phase_angle (fuel : nat) (time_offset_us line_freq : Z)
    : option F32.float :=
  if line_freq =? 0 then Some F32.zero
  else
    let period_us := 1000000 / line_freq in
    if period_us =? 0 then Some F32.zero
    else
      normalize_phase fuel
        (F32.mul (F32.div (F32.of_Z time_offset_us) (F32.of_Z period_us))
                 (F32.of_Z 360)).

(** The result is [Some None] where the final cast to [uint32_t] is not
    defined. *)
Definition pc814_calc_time_for_phase (fuel : nat) (phase_deg : F32.float)
    (line_freq : Z) : option (option Z) :=
  if line_freq =? 0 then Some (Some 0)
  else
    match normalize_phase fuel phase_deg with
    | None => None
    | Some phase =>
        let period_us := 1000000 / line_freq in
        Some (F32.to_u32 (F32.mul (F32.div phase (F32.of_Z 360))
                                  (F32.of_Z period_us)))
    end.

End PC814.

(** ** PC814_ThreePhase.h and PC814_ThreePhase.c *)

Module ThreePhase.
Import PC814.

Inductive pc814_sequence_t : Type :=
| PC814_SEQUENCE_ABC
| PC814_SEQUENCE_ACB
| PC814_SEQUENCE_UNKNOWN
| PC814_SEQUENCE_ERROR.

Inductive pc814_phase_id_t : Type := PC814_PHASE_A | PC814_PHASE_B | PC814_PHASE_C.

Record pc814_phase_relationship_t : Type := mk_relationship {
  phase_a_zc_time : Z;
  phase_b_zc_time : Z;
  phase_c_zc_time : Z;
  phase_ab_angle : F32.float;
  phase_bc_angle : F32.float;
  phase_ca_angle : F32.float;
  phase_a_freq : Z;
  phase_b_freq : Z;
  phase_c_freq : Z;
  valid : bool
}.

(** The three channel handles are pointers in the source; the functions that
    read them take the handles as arguments. *)
Record pc814_threephase_t : Type := mk_threephase {
  sequence : pc814_sequence_t;
  relationship : pc814_phase_relationship_t;
  last_update_time : Z;
  sequence_tolerance : F32.float;
  initialized : bool
}.

Definition PC814_DEFAULT_SEQUENCE_TOLERANCE : F32.float := F32.of_Z 10.

(** Lines 31-39 of [calculate_phase_angle]: the time difference before it is
    reduced modulo the period. *)
Definition time_diff_of (time1 time2 : Z) : Z :=
  if time2 >=? time1
  then U32.sub time2 time1
  else U32.add (U32.add (U32.sub U32.max time1) time2) 1.

Definition calculate_phase_angle (time1 time2 period : Z) : F32.float :=
  if period =? 0 then F32.zero
  else
    let time_diff := (time_diff_of time1 time2) mod period in
    let angle :=
      F32.mul (F32.div (F32.of_Z time_diff) (F32.of_Z period)) (F32.of_Z 360) in
    let angle :=
      if F32.geb angle (F32.of_Z 360) then F32.fmod angle (F32.of_Z 360) else angle in
    if F32.ltb angle F32.zero then F32.add angle (F32.of_Z 360) else angle.

Definition is_angle_120 (angle tolerance : F32.float) : bool :=
  let diff_120 := F32.abs (F32.sub angle (F32.of_Z 120)) in
  let diff_240 := F32.abs (F32.sub angle (F32.of_Z 240)) in
  let diff_240 :=
    if F32.gtb diff_240 (F32.of_Z 180)
    then F32.sub (F32.of_Z 360) diff_240 else diff_240 in
  F32.leb diff_120 tolerance || F32.leb diff_240 tolerance.

Definition is_angle_240 (angle tolerance : F32.float) : bool :=
  let diff_240 := F32.abs (F32.sub angle (F32.of_Z 240)) in
  let diff_240 :=
    if F32.gtb diff_240 (F32.of_Z 180)
    then F32.sub (F32.of_Z 360) diff_240 else diff_240 in
  let diff_120 := F32.abs (F32.sub angle (F32.of_Z 120)) in
  F32.leb diff_240 tolerance && F32.gtb diff_120 tolerance.

Definition zero_relationship : pc814_phase_relationship_t :=
  mk_relationship 0 0 0 F32.zero F32.zero F32.zero 0 0 0 false.

Definition pc814_threephase_init : pc814_status_t * pc814_threephase_t :=
  (PC814_OK,
   mk_threephase PC814_SEQUENCE_UNKNOWN zero_relationship 0
                 PC814_DEFAULT_SEQUENCE_TOLERANCE true).

Definition pc814_threephase_detect_sequence (tp : pc814_threephase_t)
    : pc814_sequence_t :=
  if negb (valid (relationship tp)) then PC814_SEQUENCE_ERROR
  else
    let ab_angle := phase_ab_angle (relationship tp) in
    let bc_angle := phase_bc_angle (relationship tp) in
    let ca_angle := phase_ca_angle (relationship tp) in
    let tolerance := sequence_tolerance tp in
    let ab_120 := is_angle_120 ab_angle tolerance in
    let bc_120 := is_angle_120 bc_angle tolerance in
    let ca_120 := is_angle_120 ca_angle tolerance in
    if ab_120 && bc_120 && ca_120 then PC814_SEQUENCE_ABC
    else
      let ab_240 := is_angle_240 ab_angle tolerance in
      let bc_240 := is_angle_240 bc_angle tolerance in
      if (ab_240 || bc_240) && ca_120 then PC814_SEQUENCE_ACB
      else if ab_240 && bc_240 then PC814_SEQUENCE_ACB
      else PC814_SEQUENCE_ERROR.

Definition pc814_threephase_process (tp : pc814_threephase_t)
    (phase_a phase_b phase_c : pc814_handle_t)
    : pc814_status_t * pc814_threephase_t :=
  if negb (initialized tp) then (PC814_ERROR, tp)
  else
    match pc814_read_data phase_a, pc814_read_data phase_b, pc814_read_data phase_c with
    | (PC814_OK, Some data_a), (PC814_OK, Some data_b), (PC814_OK, Some data_c) =>
        if negb (PC814.valid data_a) then (PC814_ERROR, tp)
        else if negb (PC814.valid data_b) then (PC814_ERROR, tp)
        else if negb (PC814.valid data_c) then (PC814_ERROR, tp)
        else
          let avg_period :=
            U32.add (U32.add (period_us data_a) (period_us data_b)) (period_us data_c) / 3 in
          let rel :=
            mk_relationship
              (timestamp_us data_a) (timestamp_us data_b) (timestamp_us data_c)
              (calculate_phase_angle (timestamp_us data_a) (timestamp_us data_b) avg_period)
              (calculate_phase_angle (timestamp_us data_b) (timestamp_us data_c) avg_period)
              (calculate_phase_angle (timestamp_us data_c) (timestamp_us data_a) avg_period)
              (frequency_hz data_a) (frequency_hz data_b) (frequency_hz data_c)
              (valid (relationship tp)) in
          let seq :=
            pc814_threephase_detect_sequence
              (mk_threephase (sequence tp) rel (last_update_time tp)
                             (sequence_tolerance tp) (initialized tp)) in
          (PC814_OK,
           mk_threephase seq
             (mk_relationship
                (phase_a_zc_time rel) (phase_b_zc_time rel) (phase_c_zc_time rel)
                (phase_ab_angle rel) (phase_bc_angle rel) (phase_ca_angle rel)
                (phase_a_freq rel) (phase_b_freq rel) (phase_c_freq rel) true)
             (timestamp_us data_a) (sequence_tolerance tp) (initialized tp))
    | _, _, _ => (PC814_ERROR, tp)
    end.

(** The three flags are the values written through [swap_ab], [swap_bc] and
    [swap_ca]. *)
Record swap_flags : Type := mk_swap {
  swap_ab : bool;
  swap_bc : bool;
  swap_ca : bool
}.

Definition pc814_threephase_get_swap_recommendation (tp : pc814_threephase_t)
    : pc814_status_t * swap_flags :=
  if negb (valid (relationship tp)) then (PC814_ERROR, mk_swap false false false)
  else
    match sequence tp with
    | PC814_SEQUENCE_ACB => (PC814_OK, mk_swap false true false)
    | PC814_SEQUENCE_ERROR =>
        let ab_angle := phase_ab_angle (relationship tp) in
        let bc_angle := phase_bc_angle (relationship tp) in
        let ca_angle := phase_ca_angle (relationship tp) in
        let tolerance := sequence_tolerance tp in
        if is_angle_120 ab_angle tolerance && is_angle_120 ca_angle tolerance
        then (PC814_OK, mk_swap false true false)
        else if is_angle_120 bc_angle tolerance && is_angle_120 ca_angle tolerance
        then (PC814_OK, mk_swap true false false)
        else if is_angle_120 ab_angle tolerance && is_angle_120 bc_angle tolerance
        then (PC814_OK, mk_swap false false true)
        else (PC814_OK, mk_swap false false false)
    | _ => (PC814_OK, mk_swap false false false)
    end.

Definition pc814_threephase_set_tolerance (tp : pc814_threephase_t)
    (tolerance : F32.float) : pc814_threephase_t :=
  if F32.gtb tolerance F32.zero && F32.leb tolerance (F32.of_Z 30) then
    mk_threephase (sequence tp) (relationship tp) (last_update_time tp)
                  tolerance (initialized tp)
  else tp.

Definition pc814_threephase_get_imbalance (tp : pc814_threephase_t) : F32.float :=
  if negb (valid (relationship tp)) then F32.of_Z (-1)
  else
    let ab_dev := F32.abs (F32.sub (phase_ab_angle (relationship tp)) (F32.of_Z 120)) in
    let bc_dev := F32.abs (F32.sub (phase_bc_angle (relationship tp)) (F32.of_Z 120)) in
    let ca_dev := F32.abs (F32.sub (phase_ca_angle (relationship tp)) (F32.of_Z 120)) in
    let avg_dev := F32.div (F32.add (F32.add ab_dev bc_dev) ca_dev) (F32.of_Z 3) in
    F32.mul (F32.div avg_dev (F32.of_Z 120)) (F32.of_Z 100).

(** *** The queries of PC814_ThreePhase.c *)

Definition pc814_threephase_get_sequence (tp : pc814_threephase_t)
    : pc814_sequence_t := sequence tp.

Definition pc814_threephase_is_sequence_correct (tp : pc814_threephase_t) : bool :=
  match sequence tp with
  | PC814_SEQUENCE_ABC => true
  | _ => false
  end.

(** The angle read in the direction opposite to the stored one. *)
Definition reverse_angle (angle : F32.float) : F32.float :=
  if F32.gtb angle F32.zero then F32.sub (F32.of_Z 360) angle else F32.zero.

Definition pc814_threephase_get_phase_angle (tp : pc814_threephase_t)
    (phase1 phase2 : pc814_phase_id_t) : F32.float :=
  if negb (valid (relationship tp)) then F32.zero
  else
    match phase1, phase2 with
    | PC814_PHASE_A, PC814_PHASE_A
    | PC814_PHASE_B, PC814_PHASE_B
    | PC814_PHASE_C, PC814_PHASE_C => F32.zero
    | PC814_PHASE_A, PC814_PHASE_B => phase_ab_angle (relationship tp)
    | PC814_PHASE_B, PC814_PHASE_C => phase_bc_angle (relationship tp)
    | PC814_PHASE_C, PC814_PHASE_A => phase_ca_angle (relationship tp)
    | PC814_PHASE_B, PC814_PHASE_A => reverse_angle (phase_ab_angle (relationship tp))
    | PC814_PHASE_C, PC814_PHASE_B => reverse_angle (phase_bc_angle (relationship tp))
    | PC814_PHASE_A, PC814_PHASE_C => reverse_angle (phase_ca_angle (relationship tp))
    end.

Definition pc814_threephase_get_phase_frequency (tp : pc814_threephase_t)
    (phase : pc814_phase_id_t) : Z :=
  if negb (valid (relationship tp)) then 0
  else
    match phase with
    | PC814_PHASE_A => phase_a_freq (relationship tp)
    | PC814_PHASE_B => phase_b_freq (relationship tp)
    | PC814_PHASE_C => phase_c_freq (relationship tp)
    end.

(** [strncpy (message, text, max_len - 1)] followed by
    [message[max_len - 1] = 0]: the C string left in the buffer. *)
Definition copy_message (text : string) (max_len : Z) : string :=
  String.substring 0 (Z.to_nat (max_len - 1)) text.

(** The status and the C string left in [message]; [None] where the buffer
    is not written. *)
Definition pc814_threephase_get_correction_message (tp : pc814_threephase_t)
    (max_len : Z) : pc814_status_t * option string :=
  if max_len <? 64 then (PC814_ERROR, None)
  else
    match pc814_threephase_get_swap_recommendation tp with
    | (PC814_OK, flags) =>
        match sequence tp with
        | PC814_SEQUENCE_ABC =>
            (PC814_OK, Some (copy_message "Phase sequence is CORRECT (ABC)" max_len))
        | _ =>
            (PC814_OK,
             Some (copy_message
                     (if swap_ab flags && swap_bc flags && swap_ca flags
                      then "Error: All phases need correction - check connections"
                      else if swap_ab flags
                      then "SWAP phases A and B to correct sequence"
                      else if swap_bc flags
                      then "SWAP phases B and C to correct sequence"
                      else if swap_ca flags
                      then "SWAP phases C and A to correct sequence"
                      else "Phase sequence error - check all connections")
                     max_len))
        end
    | (_, _) =>
        (PC814_ERROR,
         Some (copy_message "Error: Cannot determine phase correction" max_len))
    end.

Definition pc814_threephase_is_synchronized (tp : pc814_threephase_t) : bool :=
  if negb (valid (relationship tp)) then false
  else
    let freq_a := phase_a_freq (relationship tp) in
    let freq_b := phase_b_freq (relationship tp) in
    let freq_c := phase_c_freq (relationship tp) in
    let max_freq := if freq_a >? freq_b then freq_a else freq_b in
    let max_freq := if max_freq >? freq_c then max_freq else freq_c in
    let min_freq := if freq_a <? freq_b then freq_a else freq_b in
    let min_freq := if min_freq <? freq_c then min_freq else freq_c in
    U32.sub max_freq min_freq <=? 1.

Definition pc814_threephase_reset (tp : pc814_threephase_t) : pc814_threephase_t :=
  mk_threephase PC814_SEQUENCE_UNKNOWN zero_relationship (last_update_time tp)
                (sequence_tolerance tp) (initialized tp).

End ThreePhase.

(** ** Reference definitions, written from the specification *)

Module Spec.
Import PC814 ThreePhase.

(** Wraparound-safe subtraction over the 32-bit counter width. *)
Definition modular_delta (previous current : Z) : Z := (current - previous) mod 2 ^ 32.

(** Section 4.1: [valid = |frequency - expected| / expected * 100 <= tolerance],
    both frequencies non-zero. *)
Definition deviation_percent (frequency expected : Z) : F32.float :=
  F32.mul (F32.div (F32.of_Z (Z.abs (frequency - expected))) (F32.of_Z expected))
          (F32.of_Z 100).

Definition sample_valid (frequency expected : Z) (tolerance : F32.float) : bool :=
  negb (frequency =? 0) && negb (expected =? 0)
  && F32.leb (deviation_percent frequency expected) tolerance.

(** The same formula read in exact rational arithmetic. *)
Definition deviation_percent_exact (frequency expected : Z) : Q :=
  (inject_Z (Z.abs (frequency - expected)) / inject_Z expected * 100)%Q.

Definition sample_valid_exact (frequency expected : Z) (tolerance : Q) : bool :=
  negb (frequency =? 0) && negb (expected =? 0)
  && Qle_bool (deviation_percent_exact frequency expected) tolerance.

(** Section 4.3: the smaller of two numbers, and the wrapped distance to 240. *)
Definition fmin (x y : F32.float) : F32.float := if F32.ltb y x then y else x.

Definition wrapped_distance_240 (angle : F32.float) : F32.float :=
  let d := F32.abs (F32.sub angle (F32.of_Z 240)) in
  fmin d (F32.sub (F32.of_Z 360) d).

Definition near_120 (angle tolerance : F32.float) : bool :=
  F32.leb (F32.abs (F32.sub angle (F32.of_Z 120))) tolerance
  || F32.leb (wrapped_distance_240 angle) tolerance.

Definition near_240 (angle tolerance : F32.float) : bool :=
  F32.leb (wrapped_distance_240 angle) tolerance
  && F32.gtb (F32.abs (F32.sub angle (F32.of_Z 120))) tolerance.

Definition classify (ab bc ca tolerance : F32.float) : pc814_sequence_t :=
  if near_120 ab tolerance && near_120 bc tolerance && near_120 ca tolerance
  then PC814_SEQUENCE_ABC
  else if (near_240 ab tolerance || near_240 bc tolerance) && near_120 ca tolerance
  then PC814_SEQUENCE_ACB
  else if near_240 ab tolerance && near_240 bc tolerance
  then PC814_SEQUENCE_ACB
  else PC814_SEQUENCE_ERROR.

(** Section 4.5: [mean(|ab-120|, |bc-120|, |ca-120|) / 120 * 100]. *)
Definition mean3 (x y z : F32.float) : F32.float :=
  F32.div (F32.add (F32.add x y) z) (F32.of_Z 3).

Definition deviation_120 (angle : F32.float) : F32.float :=
  F32.abs (F32.sub angle (F32.of_Z 120)).

Definition imbalance (ab bc ca : F32.float) : F32.float :=
  F32.mul (F32.div (mean3 (deviation_120 ab) (deviation_120 bc) (deviation_120 ca))
                   (F32.of_Z 120))
          (F32.of_Z 100).

(** Truncated arithmetic mean of a list of periods. *)
Definition total (periods : list Z) : Z := fold_right Z.add 0 periods.

Definition truncated_mean (periods : list Z) : Z :=
  total periods / Z.of_nat (length periods).

End Spec.

(** ** Runs of the channel API *)

Module Run.
Import PC814.

(** The calls that write to a handle; the other functions of PC814.h read it
    or drive the port. *)
Inductive api_call : Type :=
| Init (p : pc814_port_t) (pull : pc814_pull_t) (edge : pc814_edge_t)
| ProcessCapture (hw : port_readings)
| SetExpectedFrequency (freq : Z)
| SetFrequencyTolerance (tolerance : F32.float)
| Reset
| SetCallback (cb : bool)
| ResetStatistics.

Definition apply_call (dm : data_model) (c : api_call) (h : pc814_handle_t)
    : outcome pc814_handle_t :=
  match c with
  | Init p pull edge => Returns (snd (pc814_init h (Some p) pull edge))
  | ProcessCapture hw =>
      match pc814_process_capture dm h hw with
      | Returns r => Returns (handle r)
      | DivisionByZero => DivisionByZero
      end
  | SetExpectedFrequency freq => Returns (pc814_set_expected_frequency h freq)
  | SetFrequencyTolerance tolerance => Returns (pc814_set_frequency_tolerance h tolerance)
  | Reset => Returns (pc814_reset h)
  | SetCallback cb => Returns (pc814_set_callback h cb)
  | ResetStatistics => Returns (pc814_reset_statistics h)
  end.

Fixpoint run (dm : data_model) (calls : list api_call) (h : pc814_handle_t)
    : outcome pc814_handle_t :=
  match calls with
  | [] => Returns h
  | c :: rest =>
      match apply_call dm c h with
      | Returns h' => run dm rest h'
      | DivisionByZero => DivisionByZero
      end
  end.

(** A sequence of capture calls, given by the readings of each call. *)
Definition captures (dm : data_model) (readings : list port_readings)
    (h : pc814_handle_t) : outcome pc814_handle_t :=
  run dm (map ProcessCapture readings) h.

(** The period of the sample a capture call produces, when the sample is
    marked valid. *)
Definition valid_period (dm : data_model) (h : pc814_handle_t)
    (hw : port_readings) : list Z :=
  match pc814_process_capture dm h hw with
  | Returns r =>
      match status r with
      | PC814_OK =>
          if negb (last_capture_value h =? 0) && valid (data (handle r))
          then [period_us (data (handle r))] else []
      | _ => []
      end
  | DivisionByZero => []
  end.

(** The periods of the valid samples of a sequence of capture calls, in the
    order of the calls. *)
Fixpoint valid_periods (dm : data_model) (readings : list port_readings)
    (h : pc814_handle_t) : list Z :=
  match readings with
  | [] => []
  | hw :: rest =>
      match pc814_process_capture dm h hw with
      | Returns r => valid_period dm h hw ++ valid_periods dm rest (handle r)
      | DivisionByZero => []
      end
  end.

(** The statistics of [h] account for the valid periods [ps]. *)
Definition stats_track (h : pc814_handle_t) (ps : list Z) : Prop :=
  Forall (fun p => 0 < p) ps
  /\ period_sum h = Spec.total ps
  /\ period_count h = Z.of_nat (length ps)
  /\ (ps = [] ->
      min_period_us (statistics h) = 0 /\ max_period_us (statistics h) = 0)
  /\ (ps <> [] ->
      In (min_period_us (statistics h)) ps
      /\ In (max_period_us (statistics h)) ps
      /\ Forall (fun p => min_period_us (statistics h) <= p
                          <= max_period_us (statistics h)) ps
      /\ avg_period_us (statistics h) = Spec.truncated_mean ps).

(** The configuration invariant of a handle. *)
Definition config_ok (h : pc814_handle_t) : Prop :=
  (expected_frequency h = 50 \/ expected_frequency h = 60)
  /\ F32.gtb (frequency_tolerance h) F32.zero = true
  /\ F32.leb (frequency_tolerance h) (F32.of_Z 50) = true.

(** A port table with every function present, and a handle as the caller's
    memory holds it before [pc814_init]. *)
Definition full_port : pc814_port_t :=
  mk_port true true true true true true true true true true.

Definition blank_handle : pc814_handle_t :=
  mk_handle None PC814_PULL_UP PC814_EDGE_RISING zero_data 0 0 false 0
            F32.zero false zero_statistics 0 0.

Definition fresh_handle : pc814_handle_t :=
  snd (pc814_init blank_handle (Some full_port) PC814_PULL_UP PC814_EDGE_RISING).

(** Capture number [k] of a 50 Hz line whose full periods are timed by a
    100 kHz counter: 2000 ticks, that is 20000 microseconds, per period. *)
Definition mains_reading (k : Z) : port_readings :=
  mk_readings (2000 * k) 100000 (U32.wrap (20000 * k)).

(** The readings of the captures [start], [start + 1], ... *)
Fixpoint mains_trace (start : Z) (n : nat) : list port_readings :=
  match n with
  | O => []
  | S n' => mains_reading start :: mains_trace (start + 1) n'
  end.

(** The handle after the captures 1 .. k of that line (k >= 2), in closed
    form. *)
Definition mains_state (k : Z) : pc814_handle_t :=
  let psum := U32.wrap (20000 * (k - 1)) in
  let avg := psum / (k - 1) in
  mk_handle (Some full_port) PC814_PULL_UP PC814_EDGE_RISING
            (mk_data 20000 50 (U32.wrap (20000 * k)) (k - 1) true)
            (U32.wrap (20000 * k)) (2000 * k) true 50 (F32.of_Z 5) false
            (mk_statistics (k - 1) (k - 1) 0 20000 20000 avg
                           (F32.of_Z 50) (F32.of_Z 50)
                           (F32.div (F32.of_Z 1000000) (F32.of_Z avg)))
            psum (k - 1).

(** The sample of an initialized handle is consistent: a sample marked valid
    has a period between 1 and 1000000 microseconds and the frequency
    derived from it. *)
Definition sample_ok (h : pc814_handle_t) : Prop :=
  initialized h = true
  /\ (valid (data h) = true ->
      1 <= period_us (data h) <= 1000000
      /\ frequency_hz (data h) = 1000000 / period_us (data h)
      /\ 1 <= frequency_hz (data h) <= 1000000).

(** The handles an application can hold: those left by [pc814_init] and a
    sequence of calls. *)
Definition reachable (dm : data_model) (h : pc814_handle_t) : Prop :=
  exists (h0 : pc814_handle_t) (p : pc814_port_t) (pull : pc814_pull_t)
         (edge : pc814_edge_t) (calls : list api_call),
    run dm calls (snd (pc814_init h0 (Some p) pull edge)) = Returns h.

(** The three counters of the statistics agree in 32-bit arithmetic. *)
Definition counters_ok (h : pc814_handle_t) : Prop :=
  total_zc_count (statistics h)
  = U32.wrap (valid_zc_count (statistics h) + invalid_zc_count (statistics h)).

End Run.

(** ** Runs of the three-phase API *)

Module Run3.
Import PC814 ThreePhase.

(** The calls that write to a three-phase handle. *)
Inductive threephase_call : Type :=
| TpInit
| TpProcess (phase_a phase_b phase_c : pc814_handle_t)
| TpSetTolerance (tolerance : F32.float)
| TpReset.

Definition apply_threephase_call (c : threephase_call) (tp : pc814_threephase_t)
    : pc814_threephase_t :=
  match c with
  | TpInit => snd pc814_threephase_init
  | TpProcess a b c => snd (pc814_threephase_process tp a b c)
  | TpSetTolerance tolerance => pc814_threephase_set_tolerance tp tolerance
  | TpReset => pc814_threephase_reset tp
  end.

Definition run_threephase (calls : list threephase_call) (tp : pc814_threephase_t)
    : pc814_threephase_t :=
  fold_left (fun t c => apply_threephase_call c t) calls tp.

Definition tolerance_ok (tp : pc814_threephase_t) : Prop :=
  F32.gtb (sequence_tolerance tp) F32.zero = true
  /\ F32.leb (sequence_tolerance tp) (F32.of_Z 30) = true.

(** The texts [pc814_threephase_get_correction_message] can leave in a
    buffer of at least 64 bytes. *)
Definition correction_messages : list string :=
  ["Phase sequence is CORRECT (ABC)"%string;
   "SWAP phases A and B to correct sequence"%string;
   "SWAP phases B and C to correct sequence"%string;
   "SWAP phases C and A to correct sequence"%string;
   "Phase sequence error - check all connections"%string;
   "Error: Cannot determine phase correction"%string].

End Run3.

(** ** Sample three-phase states *)

Module Examples.
Import PC814 ThreePhase.

Definition only_swap_ab : swap_flags := mk_swap true false false.
Definition only_swap_bc : swap_flags := mk_swap false true false.
Definition only_swap_ca : swap_flags := mk_swap false false true.
Definition no_swap : swap_flags := mk_swap false false false.

Definition reversed_example : pc814_threephase_t :=
  mk_threephase PC814_SEQUENCE_ACB
    (mk_relationship 0 13333 6667 (F32.of_Z 240) (F32.of_Z 240) (F32.of_Z 0)
                     50 50 50 true)
    0 PC814_DEFAULT_SEQUENCE_TOLERANCE true.

Definition error_example : pc814_threephase_t :=
  mk_threephase PC814_SEQUENCE_ERROR
    (mk_relationship 0 5000 13333 (F32.of_Z 90) (F32.of_Z 150) (F32.of_Z 120)
                     50 50 50 true)
    0 PC814_DEFAULT_SEQUENCE_TOLERANCE true.

(** A three-phase handle whose relationship is not marked valid although its
    angles are 120 degrees each. *)
Definition unmarked_120 : pc814_threephase_t :=
  mk_threephase PC814_SEQUENCE_UNKNOWN
    (mk_relationship 0 0 0 (F32.of_Z 120) (F32.of_Z 120) (F32.of_Z 120)
                     50 50 50 false)
    0 PC814_DEFAULT_SEQUENCE_TOLERANCE true.

(** A channel whose latest sample is valid: period 16384 microseconds
    (61 Hz), zero crossing at [ts]. *)
Definition channel_at (ts : Z) : pc814_handle_t :=
  mk_handle (Some Run.full_port) PC814_PULL_UP PC814_EDGE_RISING
            (mk_data 16384 61 ts 1 true) ts 1 true 60 (F32.of_Z 5) false
            zero_statistics 0 0.

End Examples.

Import PC814 Run Run3 Examples.

(** ** Machine-integer facts *)

Lemma u32_wrap_small (z : Z) : U32.in_range z -> U32.wrap z = z.
Proof. unfold U32.in_range, U32.wrap. intros H. now apply Z.mod_small. Qed.

Lemma u32_wrap_range (z : Z) : U32.in_range (U32.wrap z).
Proof. unfold U32.in_range, U32.wrap, U32.modulus. apply Z.mod_pos_bound. lia. Qed.

Lemma i32_wrap_small (z : Z) : - I32.half <= z < I32.half -> I32.wrap z = z.
Proof.
  unfold I32.wrap, I32.of_u32, U32.wrap, U32.modulus, I32.half. intros H.
  destruct (Z_lt_le_dec z 0) as [Hneg | Hpos].
  - replace (z mod 4294967296) with (z + 4294967296).
    + destruct (Z.ltb_spec (z + 4294967296) 2147483648); lia.
    + apply Z.mod_unique with (q := -1); lia.
  - rewrite Z.mod_small by lia.
    destruct (Z.ltb_spec z 2147483648); lia.
Qed.

Lemma i32_abs_sub (f e : Z) :
  0 <= f < I32.half -> 0 <= e < I32.half ->
  I32.abs (I32.sub (I32.of_u32 f) (I32.of_u32 e)) = Z.abs (f - e).
Proof.
  intros Hf He. unfold I32.abs, I32.sub.
  change (I32.of_u32 f) with (I32.wrap f). change (I32.of_u32 e) with (I32.wrap e).
  unfold I32.half in *.
  rewrite (i32_wrap_small f), (i32_wrap_small e) by (unfold I32.half; lia).
  rewrite (i32_wrap_small (f - e)) by (unfold I32.half; lia).
  apply i32_wrap_small. unfold I32.half. lia.
Qed.

(** ** The tick delta and the derived period *)

(** The timestamp difference of the angle calculator is the modular
    subtraction. *)
Lemma time_diff_of_modular (t1 t2 : Z) :
  U32.in_range t1 -> U32.in_range t2 ->
  ThreePhase.time_diff_of t1 t2 = Spec.modular_delta t1 t2.
Proof.
  unfold U32.in_range, U32.modulus, ThreePhase.time_diff_of, Spec.modular_delta,
    U32.add, U32.sub, U32.wrap, U32.max, U32.modulus.
  intros H1 H2. change (2 ^ 32) with 4294967296.
  destruct (Z.geb_spec t2 t1) as [Hge | Hlt].
  - reflexivity.
  - rewrite (Z.mod_small (4294967295 - t1)) by lia.
    rewrite (Z.mod_small (4294967295 - t1 + t2)) by lia.
    rewrite (Z.mod_small (4294967295 - t1 + t2 + 1)) by lia.
    apply Z.mod_unique with (q := -1); lia.
Qed.

(** Without wraparound the capture processor computes the modular delta. *)
Lemma period_ticks_of_forward (previous current : Z) :
  U32.in_range previous -> U32.in_range current -> previous < current ->
  period_ticks_of previous current = Spec.modular_delta previous current.
Proof.
  unfold period_ticks_of, Spec.modular_delta, U32.sub, U32.wrap, U32.modulus.
  intros _ _ Hlt. change (2 ^ 32) with 4294967296.
  destruct (Z.gtb_spec current previous); [reflexivity | lia].
Qed.

(** Across a wraparound it is one tick short of it. *)
Lemma period_ticks_of_wrapped (previous current : Z) :
  U32.in_range previous -> U32.in_range current -> current < previous ->
  period_ticks_of previous current = Spec.modular_delta previous current - 1.
Proof.
  unfold U32.in_range, period_ticks_of, Spec.modular_delta, U32.add, U32.sub,
    U32.wrap, U32.max, U32.modulus.
  intros H1 H2 Hlt. change (2 ^ 32) with 4294967296.
  destruct (Z.gtb_spec current previous); [lia |].
  rewrite (Z.mod_small (4294967295 - previous)) by lia.
  rewrite (Z.mod_small (4294967295 - previous + current)) by lia.
  assert (current - previous + 4294967296 = (current - previous) mod 4294967296) as <-.
  { apply Z.mod_unique with (q := -1); lia. }
  lia.
Qed.

(** Whenever a delta is formed and the derived period is zero, the call
    divides by zero. *)
Lemma process_capture_zero_period (dm : data_model) (h : pc814_handle_t)
    (hw : port_readings) (p : pc814_port_t) :
  initialized h = true -> port h = Some p ->
  timer_get_capture_value p = true -> timer_get_frequency p = true ->
  capture_value hw <> 0 -> timer_frequency hw <> 0 ->
  last_capture_value h <> 0 ->
  period_us_of dm (period_ticks_of (last_capture_value h) (capture_value hw))
               (timer_frequency hw) = 0 ->
  pc814_process_capture dm h hw = DivisionByZero.
Proof.
  intros Hi Hp Hc Hf Hcv Htf Hl Hz. unfold pc814_process_capture.
  rewrite Hi, Hp, Hc, Hf. cbn [negb orb].
  destruct (Z.eqb_spec (capture_value hw) 0); [contradiction |].
  destruct (Z.eqb_spec (timer_frequency hw) 0); [contradiction |].
  destruct (Z.eqb_spec (last_capture_value h) 0); [contradiction |].
  cbn [negb orb]. rewrite Hz. reflexivity.
Qed.

(** C1 (the code departs from the claim). After a first capture of the raw
    value 1, a capture of the raw value 2 on a 2 MHz counter forms the tick
    delta 1, whose period is 0 microseconds: [pc814_process_capture] then
    evaluates [1000000UL / period_us] with a zero divisor instead of
    returning an error status. *)
Theorem C1_zero_period_divides_by_zero :
  forall dm : data_model,
    let first := mk_readings 1 2000000 0 in
    let second := mk_readings 2 2000000 1 in
    exists h1 : pc814_handle_t,
      pc814_process_capture dm fresh_handle first = Returns (mk_result PC814_OK h1 None)
      /\ initialized h1 = true
      /\ period_ticks_of (last_capture_value h1) (capture_value second) = 1
      /\ period_us_of dm 1 (timer_frequency second) = 0
      /\ pc814_process_capture dm h1 second = DivisionByZero.
Proof.
  intros dm first second.
  eexists. split; [destruct dm; vm_compute; reflexivity |].
  destruct dm; vm_compute; auto.
Qed.

(** C2 (the code departs from the claim). For previous = 0xFFFFFFF0 and
    current = 0x00000010 the modular delta is 32, but the overflow branch of
    [pc814_process_capture] yields 31 ticks; on a 1 MHz counter the sample
    of the second capture carries a period of 31 microseconds. *)
Theorem C2_wraparound_delta_is_31 :
  Spec.modular_delta 0xFFFFFFF0 0x00000010 = 32
  /\ period_ticks_of 0xFFFFFFF0 0x00000010 = 31
  /\ forall dm : data_model,
       exists h2 : pc814_handle_t,
         captures dm [mk_readings 0xFFFFFFF0 1000000 0; mk_readings 0x00000010 1000000 32]
                  fresh_handle = Returns h2
         /\ period_us (data h2) = 31.
Proof.
  split; [reflexivity |]. split; [reflexivity |].
  intros dm. eexists. split; destruct dm; vm_compute; reflexivity.
Qed.

(** C5 (the code departs from the claim). For t1 = 0xFFFFFFF0 and
    t2 = 0x00000010 the time difference of [calculate_phase_angle] is 32,
    the tick delta of [pc814_process_capture] for the same pair is 31; for
    equal values they are 0 and 0xFFFFFFFF. *)
Theorem C5_time_diff_differs_from_period_ticks :
  ThreePhase.time_diff_of 0xFFFFFFF0 0x00000010 = 32
  /\ period_ticks_of 0xFFFFFFF0 0x00000010 = 31
  /\ ThreePhase.time_diff_of 7 7 = 0
  /\ period_ticks_of 7 7 = 0xFFFFFFFF.
Proof. repeat split; reflexivity. Qed.

(** ** Rejected calls *)

(** C9. On an initialized channel, a call that reads a zero capture value
    or a zero counter frequency returns [PC814_ERROR], hands no sample to
    the listener and leaves the handle as it was. *)
Theorem C9_zero_reading_rejected (dm : data_model) (h : pc814_handle_t)
    (hw : port_readings) :
  initialized h = true -> port h <> None ->
  capture_value hw = 0 \/ timer_frequency hw = 0 ->
  pc814_process_capture dm h hw = Returns (mk_result PC814_ERROR h None).
Proof.
  intros Hi Hp Hz. unfold pc814_process_capture. rewrite Hi.
  destruct (port h) as [p |]; [| contradiction].
  destruct (negb (timer_get_capture_value p) || negb (timer_get_frequency p));
    [reflexivity |].
  destruct Hz as [Hz | Hz]; rewrite Hz; cbn [Z.eqb orb].
  - reflexivity.
  - rewrite orb_true_r. reflexivity.
Qed.

Lemma C9_zero_reading_rejected_witness :
  pc814_process_capture ILP32 fresh_handle (mk_readings 0 1000000 5)
  = Returns (mk_result PC814_ERROR fresh_handle None).
Proof.
  apply (C9_zero_reading_rejected ILP32 fresh_handle (mk_readings 0 1000000 5)).
  - reflexivity.
  - discriminate.
  - left. reflexivity.
Defined.

(** ** The configuration invariant *)

Lemma process_capture_keeps_config (dm : data_model) (h : pc814_handle_t)
    (hw : port_readings) (r : capture_result) :
  pc814_process_capture dm h hw = Returns r ->
  expected_frequency (handle r) = expected_frequency h
  /\ frequency_tolerance (handle r) = frequency_tolerance h.
Proof.
  unfold pc814_process_capture.
  destruct (initialized h), (port h) as [p |];
    try (intros [= <-]; split; reflexivity).
  destruct (negb (timer_get_capture_value p) || negb (timer_get_frequency p));
    [intros [= <-]; split; reflexivity |].
  destruct ((capture_value hw =? 0) || (timer_frequency hw =? 0));
    [intros [= <-]; split; reflexivity |].
  destruct (negb (last_capture_value h =? 0));
    [| intros [= <-]; split; reflexivity].
  destruct (period_us_of dm _ _ =? 0); [discriminate |].
  destruct (update_statistics h _ _ _) as [[st psum] pcount].
  intros [= <-]. split; reflexivity.
Qed.

Lemma config_ok_init (h0 : pc814_handle_t) (p : pc814_port_t)
    (pull : pc814_pull_t) (edge : pc814_edge_t) :
  config_ok (snd (pc814_init h0 (Some p) pull edge)).
Proof. unfold config_ok. cbn. repeat split. left. reflexivity. Qed.

Lemma config_ok_apply_call (dm : data_model) (c : api_call) (h h' : pc814_handle_t) :
  config_ok h -> apply_call dm c h = Returns h' -> config_ok h'.
Proof.
  intros Hok. destruct c; cbn [apply_call].
  - intros [= <-]. apply (config_ok_init h).
  - destruct (pc814_process_capture dm h hw) as [r |] eqn:Hr; [| discriminate].
    intros [= <-]. destruct (process_capture_keeps_config _ _ _ _ Hr) as [He Ht].
    unfold config_ok. rewrite He, Ht. exact Hok.
  - intros [= <-]. unfold pc814_set_expected_frequency.
    destruct (Z.eqb_spec freq 50) as [-> | _]; cbn [orb].
    + destruct Hok as (_ & H1 & H2). repeat split; auto.
    + destruct (Z.eqb_spec freq 60) as [-> | _]; [| exact Hok].
      destruct Hok as (_ & H1 & H2). repeat split; auto.
  - intros [= <-]. unfold pc814_set_frequency_tolerance.
    destruct (F32.gtb tolerance F32.zero) eqn:H1; cbn [andb]; [| exact Hok].
    destruct (F32.leb tolerance (F32.of_Z 50)) eqn:H2; [| exact Hok].
    destruct Hok as (H0 & _ & _). repeat split; auto.
  - intros [= <-]. exact Hok.
  - intros [= <-]. exact Hok.
  - intros [= <-]. exact Hok.
Qed.

Lemma config_ok_run (dm : data_model) (calls : list api_call) :
  forall h h' : pc814_handle_t,
    config_ok h -> run dm calls h = Returns h' -> config_ok h'.
Proof.
  induction calls as [| c rest IH]; intros h h' Hok; cbn [run].
  - intros [= <-]. exact Hok.
  - destruct (apply_call dm c h) as [h1 |] eqn:Hc; [| discriminate].
    intros Hrun. apply (IH h1 h'); [| exact Hrun].
    exact (config_ok_apply_call _ _ _ _ Hok Hc).
Qed.

(** C10. [pc814_init] establishes the defaults 50 Hz and 5%; after any
    sequence of operations on the initialized handle the expected frequency
    is 50 or 60 and the tolerance lies in (0, 50]; both setters return the
    handle unchanged for an argument outside the accepted range. *)
Theorem C10_configuration_invariant :
  (forall (h0 : pc814_handle_t) (p : pc814_port_t) (pull : pc814_pull_t)
          (edge : pc814_edge_t),
      let h := snd (pc814_init h0 (Some p) pull edge) in
      fst (pc814_init h0 (Some p) pull edge) = PC814_OK
      /\ initialized h = true
      /\ expected_frequency h = 50
      /\ frequency_tolerance h = F32.of_Z 5)
  /\ (forall (dm : data_model) (h0 : pc814_handle_t) (p : pc814_port_t)
             (pull : pc814_pull_t) (edge : pc814_edge_t) (calls : list api_call)
             (h' : pc814_handle_t),
        run dm calls (snd (pc814_init h0 (Some p) pull edge)) = Returns h' ->
        config_ok h')
  /\ (forall (h : pc814_handle_t) (freq : Z),
        freq <> 50 -> freq <> 60 -> pc814_set_expected_frequency h freq = h)
  /\ (forall (h : pc814_handle_t) (tolerance : F32.float),
        F32.gtb tolerance F32.zero = false \/ F32.leb tolerance (F32.of_Z 50) = false ->
        pc814_set_frequency_tolerance h tolerance = h).
Proof.
  split; [| split; [| split]].
  - intros h0 p pull edge h. repeat split.
  - intros dm h0 p pull edge calls h' Hrun.
    exact (config_ok_run dm calls _ _ (config_ok_init h0 p pull edge) Hrun).
  - intros h freq H50 H60. unfold pc814_set_expected_frequency.
    destruct (Z.eqb_spec freq 50); [contradiction |].
    destruct (Z.eqb_spec freq 60); [contradiction |]. reflexivity.
  - intros h tolerance [H | H]; unfold pc814_set_frequency_tolerance; rewrite H.
    + reflexivity.
    + rewrite andb_false_r. reflexivity.
Qed.

Lemma C10_configuration_invariant_witness :
  config_ok (pc814_set_frequency_tolerance
               (pc814_set_expected_frequency fresh_handle 60) (F32.of_Z 10))
  /\ pc814_set_expected_frequency fresh_handle 55 = fresh_handle
  /\ pc814_set_frequency_tolerance fresh_handle (F32.of_Z 80) = fresh_handle
  /\ pc814_set_frequency_tolerance fresh_handle S754_nan = fresh_handle.
Proof.
  destruct C10_configuration_invariant as (_ & Hrun & Hfreq & Htol).
  split; [| split; [| split]].
  - apply (Hrun ILP32 blank_handle full_port PC814_PULL_UP PC814_EDGE_RISING
                [SetExpectedFrequency 60; SetFrequencyTolerance (F32.of_Z 10)]).
    reflexivity.
  - apply Hfreq; discriminate.
  - apply Htol. right. reflexivity.
  - apply Htol. left. reflexivity.
Defined.

(** ** Validity of a sample *)

(** What a call that forms a tick delta writes into the sample. *)
Lemma process_capture_sample (dm : data_model) (h : pc814_handle_t)
    (hw : port_readings) (r : capture_result) :
  pc814_process_capture dm h hw = Returns r ->
  status r = PC814_OK -> last_capture_value h <> 0 ->
  let p_us :=
    period_us_of dm (period_ticks_of (last_capture_value h) (capture_value hw))
                 (timer_frequency hw) in
  let freq_hz := 1000000 / p_us in
  let freq_valid :=
    validate_frequency freq_hz (expected_frequency h) (frequency_tolerance h) in
  0 < p_us < U32.modulus
  /\ period_us (data (handle r)) = p_us
  /\ frequency_hz (data (handle r)) = freq_hz
  /\ valid (data (handle r)) = freq_valid
  /\ count (data (handle r)) = U32.incr (count (data h))
  /\ last_capture_value (handle r) = capture_value hw
  /\ (statistics (handle r), period_sum (handle r), period_count (handle r))
     = update_statistics h p_us freq_hz freq_valid
  /\ notified r = (if callback h && freq_valid then Some (data (handle r)) else None).
Proof.
  unfold pc814_process_capture.
  destruct (initialized h), (port h) as [p |];
    try (intros [= <-]; discriminate).
  destruct (negb (timer_get_capture_value p) || negb (timer_get_frequency p));
    [intros [= <-]; discriminate |].
  destruct ((capture_value hw =? 0) || (timer_frequency hw =? 0));
    [intros [= <-]; discriminate |].
  destruct (Z.eqb_spec (last_capture_value h) 0) as [Hz | _]; cbn [negb];
    [intros _ _ Hl; contradiction |].
  destruct (Z.eqb_spec (period_us_of dm (period_ticks_of (last_capture_value h)
              (capture_value hw)) (timer_frequency hw)) 0) as [| Hp];
    [discriminate |].
  destruct (update_statistics h _ _ _) as [[st psum] pcount] eqn:Hst.
  intros [= <-] _ _. cbn -[period_us_of update_statistics validate_frequency Z.div].
  repeat split; try reflexivity.
  - pose proof (u32_wrap_range
      (((period_ticks_of (last_capture_value h) (capture_value hw) * 1000000)
          mod ulong_modulus dm) / timer_frequency hw)) as Hr.
    unfold U32.in_range in Hr. unfold period_us_of in *. lia.
  - apply (u32_wrap_range
      (((period_ticks_of (last_capture_value h) (capture_value hw) * 1000000)
          mod ulong_modulus dm) / timer_frequency hw)).
Qed.

Lemma validate_frequency_spec (freq expected : Z) (tolerance : F32.float) :
  0 <= freq < I32.half -> 0 <= expected < I32.half ->
  validate_frequency freq expected tolerance = Spec.sample_valid freq expected tolerance.
Proof.
  intros Hf He. unfold validate_frequency, Spec.sample_valid, Spec.deviation_percent.
  rewrite (i32_abs_sub freq expected Hf He).
  destruct (freq =? 0), (expected =? 0); reflexivity.
Qed.

(** The deviation is the rounded one: 51 Hz against 60 Hz is 15% in exact
    arithmetic, the single-precision product is one unit in the last place
    above 15, and the sample is invalid at a tolerance of 15. *)
Lemma validate_frequency_rounds_at_boundary :
  Z.abs (51 - 60) * 100 = 15 * 60
  /\ Spec.deviation_percent 51 60 = S754_finite false 15728641 (-20)
  /\ F32.of_Z 15 = S754_finite false 15728640 (-20)
  /\ validate_frequency 51 60 (F32.of_Z 15) = false.
Proof. repeat split; reflexivity. Qed.

(** ** Statistics over a long run *)

Lemma u32_incr_small (z : Z) : 0 <= z < U32.max -> U32.incr z = z + 1.
Proof.
  unfold U32.incr, U32.add, U32.max. intros H.
  apply u32_wrap_small. unfold U32.in_range, U32.modulus. lia.
Qed.

Lemma u32_add_wrap_l (a b : Z) : U32.add (U32.wrap a) b = U32.wrap (a + b).
Proof. unfold U32.add, U32.wrap. apply Zplus_mod_idemp_l. Qed.

Lemma mains_ticks (k : Z) :
  0 <= k < 2147483 -> period_ticks_of (2000 * k) (2000 * (k + 1)) = 2000.
Proof.
  intros Hk. unfold period_ticks_of.
  destruct (Z.gtb_spec (2000 * (k + 1)) (2000 * k)); [| lia].
  unfold U32.sub. replace (2000 * (k + 1) - 2000 * k) with 2000 by lia. reflexivity.
Qed.

Lemma mains_period (dm : data_model) : period_us_of dm 2000 100000 = 20000.
Proof. destruct dm; reflexivity. Qed.

Lemma mains_update (k : Z) :
  2 <= k < 2147483 ->
  update_statistics (mains_state k) 20000 50 true
  = (statistics (mains_state (k + 1)), period_sum (mains_state (k + 1)),
     period_count (mains_state (k + 1))).
Proof.
  intros Hk. unfold update_statistics, mains_state.
  cbn [statistics period_sum period_count total_zc_count valid_zc_count
       invalid_zc_count min_period_us max_period_us avg_period_us
       min_frequency_hz max_frequency_hz avg_frequency_hz].
  replace (k + 1 - 1) with k by lia.
  rewrite (u32_incr_small (k - 1)) by (unfold U32.max; lia).
  replace (k - 1 + 1) with k by lia.
  rewrite u32_add_wrap_l. replace (20000 * (k - 1) + 20000) with (20000 * k) by lia.
  change (F32.eqb (F32.of_Z 50) F32.zero) with false.
  change (F32.ltb (F32.of_Z 50) (F32.of_Z 50)) with false.
  change (F32.gtb (F32.of_Z 50) (F32.of_Z 50)) with false.
  change ((20000 =? 0) || (20000 <? 20000)) with false.
  change (20000 >? 20000) with false.
  cbn [orb].
  destruct (Z.gtb_spec k 0); [reflexivity | lia].
Qed.

Lemma mains_step (dm : data_model) (k : Z) :
  2 <= k < 2147483 ->
  pc814_process_capture dm (mains_state k) (mains_reading (k + 1))
  = Returns (mk_result PC814_OK (mains_state (k + 1)) None).
Proof.
  intros Hk. unfold pc814_process_capture.
  cbn [mains_state initialized port full_port timer_get_capture_value timer_get_frequency negb orb
       mains_reading capture_value timer_frequency get_time_us time_us last_capture_value].
  destruct (Z.eqb_spec (2000 * (k + 1)) 0); [lia |].
  destruct (Z.eqb_spec (2000 * k) 0); [lia |].
  cbn [orb negb Z.eqb].
  rewrite mains_ticks by lia. rewrite mains_period.
  change (20000 =? 0) with false. cbn iota.
  change (1000000 / 20000) with 50.
  change (expected_frequency (mains_state k)) with 50.
  change (frequency_tolerance (mains_state k)) with (F32.of_Z 5).
  change (validate_frequency 50 50 (F32.of_Z 5)) with true.
  rewrite (mains_update k Hk).
  change (callback (mains_state k)) with false. cbn [andb].
  unfold mains_state.
  cbn [pull_config edge_type data count period_sum period_count].
  rewrite (u32_incr_small (k - 1)) by (unfold U32.max; lia).
  replace (k - 1 + 1) with (k + 1 - 1) by lia. reflexivity.
Qed.

Lemma mains_run (dm : data_model) (n : nat) :
  forall k : Z,
    2 <= k -> k + Z.of_nat n < 2147484 ->
    captures dm (mains_trace (k + 1) n) (mains_state k)
    = Returns (mains_state (k + Z.of_nat n)).
Proof.
  unfold captures. induction n as [| n IH]; intros k Hk Hn.
  - cbn [mains_trace map run]. replace (k + Z.of_nat 0) with k by lia. reflexivity.
  - cbn [mains_trace map run apply_call].
    rewrite mains_step by lia. cbn [handle].
    rewrite IH by lia. f_equal. f_equal. lia.
Qed.

(** ** Rounding to single precision *)

Lemma fexp32_eq (d : Z) : fexp F32.prec F32.emax d = fexp32 d.
Proof. reflexivity. Qed.

Lemma digits2_pos_size (p : positive) : digits2_pos p = Pos.size p.
Proof. induction p as [p IH | p IH |]; cbn; now rewrite ?IH. Qed.

Lemma digits2_pos_log2 (p : positive) :
  Z.pos (digits2_pos p) = Z.log2 (Z.pos p) + 1.
Proof.
  rewrite digits2_pos_size. destruct p as [p | p |]; cbn [Pos.size Z.log2];
    rewrite ?Pos2Z.inj_succ; lia.
Qed.

Lemma Zdigits2_log2 (m : Z) : 0 < m -> Zdigits2 m = Z.log2 m + 1.
Proof. destruct m as [| p | p]; try lia. intros _. apply digits2_pos_log2. Qed.

Lemma shr_1_div2 (mrs : shr_record) :
  0 <= shr_m mrs -> shr_m (shr_1 mrs) = shr_m mrs / 2.
Proof.
  destruct mrs as [m r s]. cbn [shr_m]. intros Hm. rewrite <- Z.div2_div.
  destruct m as [| [p | p |] | p]; try lia; reflexivity.
Qed.

Lemma iter_shr_1_div (p : positive) :
  forall mrs : shr_record,
    0 <= shr_m mrs ->
    shr_m (iter_pos shr_1 p mrs) = shr_m mrs / 2 ^ Z.pos p.
Proof.
  induction p as [p IH | p IH |]; intros mrs Hm; cbn [iter_pos].
  - assert (0 < 2 ^ Z.pos p) as Hpow by (apply Z.pow_pos_nonneg; lia).
    assert (0 <= shr_m (shr_1 mrs)) as H1.
    { rewrite shr_1_div2 by exact Hm. apply Z.div_pos; lia. }
    assert (0 <= shr_m (iter_pos shr_1 p (shr_1 mrs))) as H2.
    { rewrite IH by exact H1. apply Z.div_pos; [exact H1 | exact Hpow]. }
    rewrite IH by exact H2. rewrite IH by exact H1. rewrite shr_1_div2 by exact Hm.
    rewrite !Z.div_div by lia.
    f_equal. change 2 with (2 ^ 1) at 1.
    rewrite <- !Z.pow_add_r by lia. f_equal. lia.
  - assert (0 < 2 ^ Z.pos p) as Hpow by (apply Z.pow_pos_nonneg; lia).
    assert (0 <= shr_m (iter_pos shr_1 p mrs)) as H2.
    { rewrite IH by exact Hm. apply Z.div_pos; [exact Hm | exact Hpow]. }
    rewrite IH by exact H2. rewrite IH by exact Hm.
    rewrite Z.div_div by lia.
    f_equal. rewrite <- Z.pow_add_r by lia. f_equal. lia.
  - rewrite shr_1_div2 by exact Hm. reflexivity.
Qed.

Lemma loc_of_shr_record_of_loc (m : Z) (l : location) :
  loc_of_shr_record (shr_record_of_loc m l) = l /\ shr_m (shr_record_of_loc m l) = m.
Proof. destruct l as [| []]; split; reflexivity. Qed.

(** The mantissa and exponent after [shr_fexp]. *)
Lemma shr_fexp_spec (m e : Z) (l : location) :
  0 <= m ->
  let n := fexp32 (Zdigits2 m + e) - e in
  let '(mrs, e') := shr_fexp F32.prec F32.emax m e l in
  (n <= 0 -> shr_m mrs = m /\ e' = e /\ loc_of_shr_record mrs = l)
  /\ (0 < n -> shr_m mrs = m / 2 ^ n /\ e' = e + n).
Proof.
  intros Hm n. unfold shr_fexp. rewrite fexp32_eq. fold n.
  destruct (loc_of_shr_record_of_loc m l) as [Hl Hs].
  unfold shr. destruct n as [| p | p] eqn:Hn.
  - split; [auto | lia].
  - split; [lia |]. intros _. split; [| reflexivity].
    rewrite iter_shr_1_div by (rewrite Hs; exact Hm). rewrite Hs. reflexivity.
  - split; [auto | lia].
Qed.

Lemma round_nearest_even_bounds (m : Z) (l : location) :
  m <= round_nearest_even m l <= m + 1.
Proof.
  unfold round_nearest_even. destruct l as [| []]; try lia.
  destruct (Z.even m); lia.
Qed.

Lemma div_pow2_log2 (m n : Z) :
  0 < m -> 0 <= n ->
  (Z.log2 m < n /\ m / 2 ^ n = 0)
  \/ (n <= Z.log2 m /\ 0 < m / 2 ^ n /\ Z.log2 (m / 2 ^ n) = Z.log2 m - n).
Proof.
  intros Hm Hn. assert (0 < 2 ^ n) as Hpow by (apply Z.pow_pos_nonneg; lia).
  destruct (Z_lt_le_dec (Z.log2 m) n) as [Hlt | Hle].
  - left. split; [exact Hlt |]. apply Z.div_small. split; [lia |].
    apply Z.log2_lt_pow2; assumption.
  - right. split; [exact Hle |].
    assert (2 ^ n <= m) as Hge.
    { apply Z.le_trans with (2 ^ Z.log2 m).
      - apply Z.pow_le_mono_r; lia.
      - apply Z.log2_spec. exact Hm. }
    split.
    + apply Z.div_str_pos. lia.
    + rewrite <- Z.shiftr_div_pow2 by exact Hn.
      rewrite Z.log2_shiftr by exact Hm. lia.
Qed.

Lemma bounded32_iff (m : positive) (e : Z) :
  bounded F32.prec F32.emax m e = true
  <-> fexp32 (Z.log2 (Z.pos m) + 1 + e) = e /\ e <= 104.
Proof.
  unfold bounded, canonical_mantissa. rewrite andb_true_iff, Z.eqb_eq, Z.leb_le.
  rewrite fexp32_eq, digits2_pos_log2. reflexivity.
Qed.

(** What [binary_round_aux] returns for a positive mantissa that has at
    least as many digits as the format keeps. *)
Lemma binary_round_aux_spec (sx : bool) (mx ex : Z) (lx : location) :
  0 < mx -> ex <= fexp32 (Z.log2 mx + 1 + ex) ->
  match binary_round_aux F32.prec F32.emax sx mx ex lx with
  | S754_zero s => s = sx /\ Z.log2 mx + 1 + ex <= -149
  | S754_infinity s => s = sx
  | S754_nan => False
  | S754_finite s m e =>
      s = sx /\ bounded F32.prec F32.emax m e = true
      /\ fexp32 (Z.log2 mx + 1 + ex) <= e <= fexp32 (Z.log2 mx + 1 + ex) + 1
  end.
Proof.
  intros Hmx Hex. unfold binary_round_aux.
  pose proof (shr_fexp_spec mx ex lx (Z.lt_le_incl _ _ Hmx)) as H1. cbv zeta in H1.
  destruct (shr_fexp F32.prec F32.emax mx ex lx) as [mrs1 e1].
  rewrite (Zdigits2_log2 mx Hmx) in H1.
  set (D := Z.log2 mx + 1 + ex) in *.
  set (n := fexp32 D - ex) in *.
  assert (0 <= n) as Hn by (unfold n; lia).
  assert (shr_m mrs1 = mx / 2 ^ n /\ e1 = fexp32 D) as [Hm1 He1].
  { destruct H1 as [Hz Hp]. destruct (Z.eq_dec n 0) as [H0 | H0].
    - destruct Hz as (Ha & Hb & _); [lia |]. rewrite H0, Z.pow_0_r, Z.div_1_r.
      split; [exact Ha | unfold n in H0; lia].
    - destruct Hp as (Ha & Hb); [lia |]. split; [exact Ha | unfold n in Hb; lia]. }
  clear H1.
  set (r := round_nearest_even (shr_m mrs1) (loc_of_shr_record mrs1)).
  pose proof (round_nearest_even_bounds (shr_m mrs1) (loc_of_shr_record mrs1)) as Hr.
  fold r in Hr. rewrite Hm1 in Hr.
  assert (0 <= r) as Hr0.
  { assert (0 <= mx / 2 ^ n) by (apply Z.div_pos; [lia | apply Z.pow_pos_nonneg; lia]). lia. }
  pose proof (shr_fexp_spec r e1 loc_Exact Hr0) as H2. cbv zeta in H2.
  destruct (shr_fexp F32.prec F32.emax r e1 loc_Exact) as [mrs2 e2].
  destruct (div_pow2_log2 mx n Hmx Hn) as [(Hlt & Hz) | (Hle & Hpos & Hlog)].
  - (* the mantissa is shifted out entirely *)
    assert (D <= -149 /\ e1 = -149) as [HD He].
    { unfold n, fexp32 in *. fold D in Hlt. lia. }
    rewrite Hz in Hr. assert (r = 0 \/ r = 1) as [Hr' | Hr'] by lia;
      rewrite Hr', He in H2; cbn in H2; destruct H2 as [(Ha & Hb & _) _]; try lia;
      subst e2; rewrite Ha; cbn.
    + split; [reflexivity | exact HD].
    + split; [reflexivity |]. split; [reflexivity |].
      unfold fexp32. lia.
  - (* at least one digit survives *)
    assert (0 < r) as Hrpos by lia.
    rewrite (Zdigits2_log2 r Hrpos) in H2.
    assert (Z.log2 r = Z.log2 (mx / 2 ^ n) \/ Z.log2 r = Z.log2 (mx / 2 ^ n) + 1) as Hlr.
    { assert (r = mx / 2 ^ n \/ r = Z.succ (mx / 2 ^ n)) as [-> | ->] by lia.
      - left. reflexivity.
      - destruct (Z.log2_succ_or (mx / 2 ^ n)) as [H | H]; [right | left]; lia. }
    rewrite Hlog in Hlr.
    set (n2 := fexp32 (Z.log2 r + 1 + e1) - e1) in *.
    assert (n2 = 0 \/ n2 = 1) as Hn2.
    { unfold n2, n, fexp32, D in *. lia. }
    destruct Hn2 as [Hn2 | Hn2].
    + destruct H2 as [(Ha & Hb & _) _]; [lia |]. subst e2. rewrite Ha.
      destruct r as [| pr | pr] eqn:Hreq; try lia.
      destruct (Z.leb_spec e1 (F32.emax - F32.prec)) as [Hb1 | Hb1]; [| reflexivity].
      split; [reflexivity |]. split.
      * apply bounded32_iff. unfold n2 in Hn2. unfold F32.emax, F32.prec in Hb1. lia.
      * lia.
    + destruct H2 as [_ (Ha & Hb)]; [lia |]. subst e2. rewrite Ha, Hn2.
      assert (1 <= Z.log2 r) as Hl1.
      { unfold n2, n, fexp32, D in *. lia. }
      destruct (div_pow2_log2 r 1 Hrpos ltac:(lia)) as [(Hc & _) | (_ & Hq & Hql)]; [lia |].
      destruct (r / 2 ^ 1) as [| pq | pq] eqn:Hqeq; try lia.
      destruct (Z.leb_spec (e1 + 1) (F32.emax - F32.prec)) as [Hb1 | Hb1]; [| reflexivity].
      split; [reflexivity |]. split.
      * apply bounded32_iff. unfold n2 in Hn2. unfold F32.emax, F32.prec in Hb1.
        unfold fexp32 in *. lia.
      * lia.
Qed.

Lemma iter_xO_pow2 (m d : positive) :
  Z.pos (Pos.iter xO m d) = Z.pos m * 2 ^ Z.pos d.
Proof.
  induction d as [| d IH] using Pos.peano_ind.
  - cbn [Pos.iter]. rewrite Pos2Z.inj_xO. change (2 ^ 1) with 2. lia.
  - rewrite Pos.iter_succ, Pos2Z.inj_xO, IH, Pos2Z.inj_succ, Z.pow_succ_r by lia. lia.
Qed.

Lemma shl_align_spec (mx : positive) (ex ex' : Z) :
  let '(mz, ez) := shl_align mx ex ex' in
  (ex' < ex -> Z.pos mz = Z.pos mx * 2 ^ (ex - ex') /\ ez = ex')
  /\ (ex <= ex' -> mz = mx /\ ez = ex).
Proof.
  unfold shl_align. destruct (ex' - ex) as [| d | d] eqn:Hd.
  - split; [lia | auto].
  - split; [lia | auto].
  - split; [| lia]. intros _. split; [| reflexivity].
    rewrite iter_xO_pow2. f_equal. f_equal. lia.
Qed.

Lemma fst_shl_align (mx : positive) (ex ex' : Z) :
  Z.pos (fst (shl_align mx ex ex'))
  = if ex' <? ex then Z.pos mx * 2 ^ (ex - ex') else Z.pos mx.
Proof.
  pose proof (shl_align_spec mx ex ex') as H.
  destruct (shl_align mx ex ex') as [mz ez]. cbn [fst].
  destruct (Z.ltb_spec ex' ex) as [Hlt | Hge].
  - apply H. exact Hlt.
  - destruct H as [_ H]. destruct (H Hge) as [-> _]. reflexivity.
Qed.

Lemma log2_mul_pow2 (m k : Z) : 0 < m -> 0 <= k -> Z.log2 (m * 2 ^ k) = Z.log2 m + k.
Proof. intros Hm Hk. rewrite Z.log2_mul_pow2 by lia. lia. Qed.

(** What [binary_round] returns. *)
Lemma binary_round_spec (sx : bool) (mx : positive) (ex : Z) :
  match binary_round F32.prec F32.emax sx mx ex with
  | S754_zero s => s = sx /\ Z.log2 (Z.pos mx) + 1 + ex <= -149
  | S754_infinity s => s = sx
  | S754_nan => False
  | S754_finite s m e =>
      s = sx /\ bounded F32.prec F32.emax m e = true
      /\ fexp32 (Z.log2 (Z.pos mx) + 1 + ex) <= e
         <= fexp32 (Z.log2 (Z.pos mx) + 1 + ex) + 1
  end.
Proof.
  unfold binary_round. rewrite fexp32_eq, digits2_pos_log2.
  set (D := Z.log2 (Z.pos mx) + 1 + ex).
  pose proof (shl_align_spec mx ex (fexp32 D)) as H.
  destruct (shl_align mx ex (fexp32 D)) as [mz ez].
  assert (Z.log2 (Z.pos mz) + 1 + ez = D /\ ez <= fexp32 D) as [HD Hez].
  { destruct (Z_lt_le_dec (fexp32 D) ex) as [Hlt | Hge].
    - destruct H as [H _]. destruct (H Hlt) as [Hm ->]. rewrite Hm.
      rewrite log2_mul_pow2 by lia. unfold D. lia.
    - destruct H as [_ H]. destruct (H Hge) as [-> ->].
      split; [reflexivity | exact Hge]. }
  pose proof (binary_round_aux_spec sx (Z.pos mz) ez loc_Exact) as Haux.
  rewrite HD in Haux. apply Haux; [lia | exact Hez].
Qed.

(** Rounding a number the format represents gives that number. *)
Lemma binary_round_aux_exact (sx : bool) (m : positive) (e : Z) :
  bounded F32.prec F32.emax m e = true ->
  binary_round_aux F32.prec F32.emax sx (Z.pos m) e loc_Exact = S754_finite sx m e.
Proof.
  intros Hb. apply bounded32_iff in Hb. destruct Hb as [Hc He].
  unfold binary_round_aux.
  pose proof (shr_fexp_spec (Z.pos m) e loc_Exact ltac:(lia)) as H1. cbv zeta in H1.
  destruct (shr_fexp F32.prec F32.emax (Z.pos m) e loc_Exact) as [mrs1 e1].
  rewrite (Zdigits2_log2 (Z.pos m)) in H1 by lia.
  destruct H1 as [(Ha & Hb & Hl) _]; [lia |]. subst e1. rewrite Ha, Hl.
  cbn [round_nearest_even].
  pose proof (shr_fexp_spec (Z.pos m) e loc_Exact ltac:(lia)) as H2. cbv zeta in H2.
  destruct (shr_fexp F32.prec F32.emax (Z.pos m) e loc_Exact) as [mrs2 e2].
  rewrite (Zdigits2_log2 (Z.pos m)) in H2 by lia.
  destruct H2 as [(Ha2 & Hb2 & _) _]; [lia |]. subst e2. rewrite Ha2.
  destruct (Z.leb_spec e (F32.emax - F32.prec)) as [_ | Hgt]; [reflexivity |].
  unfold F32.emax, F32.prec in Hgt. lia.
Qed.

Lemma binary_round_exact (sx : bool) (mx : positive) (ex : Z) :
  let D := Z.log2 (Z.pos mx) + 1 + ex in
  fexp32 D <= ex -> fexp32 D <= 104 ->
  exists mz : positive,
    binary_round F32.prec F32.emax sx mx ex = S754_finite sx mz (fexp32 D)
    /\ Z.pos mz = Z.pos mx * 2 ^ (ex - fexp32 D).
Proof.
  intros D Hle Hmax. unfold binary_round. rewrite fexp32_eq, digits2_pos_log2. fold D.
  pose proof (shl_align_spec mx ex (fexp32 D)) as H.
  destruct (shl_align mx ex (fexp32 D)) as [mz ez].
  assert (Z.pos mz = Z.pos mx * 2 ^ (ex - fexp32 D) /\ ez = fexp32 D) as [Hm ->].
  { destruct (Z_lt_le_dec (fexp32 D) ex) as [Hlt | Hge].
    - destruct H as [H _]. exact (H Hlt).
    - destruct H as [_ H]. destruct (H Hge) as [-> ->].
      replace (ex - fexp32 D) with 0 by lia. rewrite Z.pow_0_r. lia. }
  exists mz. split; [| exact Hm].
  apply binary_round_aux_exact. apply bounded32_iff. split; [| exact Hmax].
  rewrite Hm, log2_mul_pow2 by lia. fold D.
  replace (Z.log2 (Z.pos mx) + (ex - fexp32 D) + 1 + fexp32 D) with D by (unfold D; lia).
  reflexivity.
Qed.

Lemma ltb_finite_pos (m1 : positive) (e1 : Z) (m2 : positive) (e2 : Z) :
  SFltb (S754_finite false m1 e1) (S754_finite false m2 e2)
  = (e1 <? e2) || ((e1 =? e2) && (Z.pos m1 <? Z.pos m2)).
Proof.
  unfold SFltb, SFcompare.
  destruct (Z.compare_spec e1 e2) as [Heq | Hlt | Hgt].
  - subst e2. rewrite Z.ltb_irrefl, Z.eqb_refl. cbn [orb andb].
    unfold Z.ltb. change (Z.pos m1 ?= Z.pos m2) with (Pos.compare_cont Eq m1 m2).
    destruct (Pos.compare_cont Eq m1 m2); reflexivity.
  - apply Z.ltb_lt in Hlt. rewrite Hlt. reflexivity.
  - destruct (Z.ltb_spec e1 e2); [lia |]. destruct (Z.eqb_spec e1 e2); [lia |].
    reflexivity.
Qed.

Lemma sub_finite_pos (m1 : positive) (e1 : Z) (m2 : positive) (e2 : Z) :
  F32.sub (S754_finite false m1 e1) (S754_finite false m2 e2)
  = binary_normalize F32.prec F32.emax
      (Z.pos m1 * 2 ^ (e1 - Z.min e1 e2) - Z.pos m2 * 2 ^ (e2 - Z.min e1 e2))
      (Z.min e1 e2) false.
Proof.
  unfold F32.sub, SFsub. cbn [cond_Zopp]. rewrite !fst_shl_align.
  f_equal. f_equal.
  - destruct (Z.ltb_spec (Z.min e1 e2) e1) as [_ | Hge]; [reflexivity |].
    replace (e1 - Z.min e1 e2) with 0 by lia. rewrite Z.pow_0_r. lia.
  - destruct (Z.ltb_spec (Z.min e1 e2) e2) as [_ | Hge]; [reflexivity |].
    replace (e2 - Z.min e1 e2) with 0 by lia. rewrite Z.pow_0_r. lia.
Qed.

(** A difference that is not positive rounds below every positive number. *)
Lemma normalize_nonpos_ltb (z ez : Z) (m : positive) (e : Z) :
  z <= 0 ->
  SFltb (binary_normalize F32.prec F32.emax z ez false) (S754_finite false m e) = true.
Proof.
  intros Hz. destruct z as [| p | p]; [reflexivity | lia |].
  cbn [binary_normalize].
  pose proof (binary_round_spec true p ez) as H.
  destruct (binary_round F32.prec F32.emax true p ez) as [s | s | | s m' e'].
  - destruct H as [-> _]. reflexivity.
  - rewrite H. reflexivity.
  - contradiction.
  - destruct H as [-> _]. reflexivity.
Qed.

(** A positive difference whose rounded exponent exceeds [e] is not below
    a number of exponent [e]. *)
Lemma normalize_large_ltb (z ez : Z) (m : positive) (e : Z) :
  0 < z -> -149 <= e < fexp32 (Z.log2 z + 1 + ez) ->
  SFltb (binary_normalize F32.prec F32.emax z ez false) (S754_finite false m e) = false.
Proof.
  intros Hz He. destruct z as [| p | p]; try lia.
  cbn [binary_normalize].
  pose proof (binary_round_spec false p ez) as H.
  destruct (binary_round F32.prec F32.emax false p ez) as [s | s | | s m' e'].
  - destruct H as [_ H]. unfold fexp32 in He. lia.
  - rewrite H. reflexivity.
  - contradiction.
  - destruct H as (-> & _ & Hlo & _). rewrite ltb_finite_pos.
    destruct (Z.ltb_spec e' e); [lia |]. destruct (Z.eqb_spec e' e); [lia |]. reflexivity.
Qed.

(** A positive difference the format represents is compared exactly. *)
Lemma normalize_exact_ltb (z ez : Z) (m : positive) (e : Z) :
  0 < z ->
  let e' := fexp32 (Z.log2 z + 1 + ez) in
  e' <= ez -> e' <= 104 ->
  SFltb (binary_normalize F32.prec F32.emax z ez false) (S754_finite false m e)
  = (e' <? e) || ((e' =? e) && (z * 2 ^ (ez - e') <? Z.pos m)).
Proof.
  intros Hz e' Hle Hmax. destruct z as [| p | p]; try lia.
  cbn [binary_normalize].
  destruct (binary_round_exact false p ez Hle Hmax) as (mz & -> & Hmz).
  rewrite ltb_finite_pos. fold e'. rewrite Hmz. reflexivity.
Qed.

Lemma bounded32_mantissa (m : positive) (e : Z) :
  bounded F32.prec F32.emax m e = true ->
  -149 <= e <= 104 /\ Z.pos m < 16777216 /\ (-149 < e -> 8388608 <= Z.pos m).
Proof.
  intros Hb. apply bounded32_iff in Hb. destruct Hb as [Hc He].
  pose proof (Z.log2_nonneg (Z.pos m)) as Hl0.
  assert (Z.log2 (Z.pos m) <= 23) as Hl by (unfold fexp32 in Hc; lia).
  split; [unfold fexp32 in Hc; lia |]. split.
  - change 16777216 with (2 ^ 24). apply Z.log2_lt_pow2; lia.
  - intros Hgt. assert (Z.log2 (Z.pos m) = 23) as Hl23 by (unfold fexp32 in Hc; lia).
    change 8388608 with (2 ^ 23). rewrite <- Hl23. apply Z.log2_spec. lia.
Qed.

Lemma abs_normalize_nonneg (z e : Z) (s : bool) :
  nonneg_binary32 (SFabs (binary_normalize F32.prec F32.emax z e s)).
Proof.
  destruct z as [| p | p]; cbn [binary_normalize].
  - exact I.
  - pose proof (binary_round_spec false p e) as H.
    destruct (binary_round F32.prec F32.emax false p e) as [s' | s' | | s' m' e'];
      cbn; try exact I; try reflexivity. split; [reflexivity | apply H].
  - pose proof (binary_round_spec true p e) as H.
    destruct (binary_round F32.prec F32.emax true p e) as [s' | s' | | s' m' e'];
      cbn; try exact I; try reflexivity. split; [reflexivity | apply H].
Qed.

(** The distance to a positive constant is a non-negative single-precision
    number, whatever the angle. *)
Lemma abs_sub_nonneg (x : spec_float) (m : positive) (e : Z) :
  bounded F32.prec F32.emax m e = true ->
  nonneg_binary32 (F32.abs (F32.sub x (S754_finite false m e))).
Proof.
  intros Hb. unfold F32.abs, F32.sub.
  destruct x as [s | s | | s mx ex]; cbn -[binary_normalize shl_align Z.min];
    try exact I; try reflexivity.
  - split; [reflexivity | exact Hb].
  - apply abs_normalize_nonneg.
Qed.

(** The test [diff > 180] of the source selects the smaller of [diff] and
    [360 - diff]. *)
Lemma wrap_test_is_min (d : spec_float) :
  nonneg_binary32 d ->
  SFltb (F32.of_Z 180) d = SFltb (F32.sub (F32.of_Z 360) d) d.
Proof.
  change (F32.of_Z 180) with (S754_finite false 11796480 (-16)).
  change (F32.of_Z 360) with (S754_finite false 11796480 (-15)).
  destruct d as [s | s | | s m e]; cbn [nonneg_binary32].
  - intros _. reflexivity.
  - intros ->. reflexivity.
  - intros _. reflexivity.
  - intros [-> Hb]. rewrite sub_finite_pos, ltb_finite_pos.
    destruct (bounded32_mantissa m e Hb) as (He & Hhi & Hlo).
    destruct (Z_le_gt_dec e (-17)) as [He17 | He17];
      [| destruct (Z.eq_dec e (-16)) as [He16 | He16];
         [| destruct (Z.eq_dec e (-15)) as [He15 | He15]]].
    + (* below 128: the difference is at least 232 *)
      replace (Z.min (-15) e) with e by lia.
      replace (e - e) with 0 by lia. rewrite Z.pow_0_r, Z.mul_1_r.
      destruct (Z.ltb_spec (-16) e) as [? | _]; [lia |].
      destruct (Z.eqb_spec (-16) e) as [? | _]; [lia |]. cbn [orb andb].
      symmetry. set (k := -15 - e). assert (2 <= k) as Hk by (unfold k; lia).
      assert (2 ^ 2 <= 2 ^ k) as Hp by (apply Z.pow_le_mono_r; lia).
      change (2 ^ 2) with 4 in Hp.
      assert (2 ^ (k + 22) <= 11796480 * 2 ^ k - Z.pos m) as Hbig.
      { rewrite Z.pow_add_r by lia. change (2 ^ 22) with 4194304. lia. }
      assert (0 < 2 ^ (k + 22)) as Hpos by (apply Z.pow_pos_nonneg; lia).
      apply normalize_large_ltb; [lia |].
      assert (k + 22 <= Z.log2 (11796480 * 2 ^ k - Z.pos m)) as Hlog.
      { apply Z.log2_le_pow2; lia. }
      unfold fexp32, k in *. lia.
    + (* between 128 and 256 *)
      subst e. change (Z.min (-15) (-16)) with (-16).
      change (11796480 * 2 ^ (-15 - -16)) with 23592960.
      change (2 ^ (-16 - -16)) with 1. rewrite Z.mul_1_r.
      change ((-16 <? -16) || (-16 =? -16) && (11796480 <? Z.pos m))
        with (11796480 <? Z.pos m).
      specialize (Hlo ltac:(lia)).
      set (M := 23592960 - Z.pos m).
      assert (4194304 <= M < 16777216) as HM by (unfold M; lia).
      assert (22 <= Z.log2 M <= 23) as Hlog.
      { split.
        - apply Z.log2_le_pow2; [lia |]. change (2 ^ 22) with 4194304. lia.
        - assert (Z.log2 M < 24); [| lia]. apply Z.log2_lt_pow2; [lia |].
          change (2 ^ 24) with 16777216. lia. }
      rewrite normalize_exact_ltb by (unfold fexp32; lia).
      destruct (Z.eq_dec (Z.log2 M) 23) as [H23 | H23].
      * rewrite H23. change (fexp32 (23 + 1 + -16)) with (-16).
        change (-16 - -16) with 0. rewrite Z.pow_0_r, Z.mul_1_r.
        change ((-16 <? -16) || (-16 =? -16) && (M <? Z.pos m)) with (M <? Z.pos m).
        unfold M.
        destruct (Z.ltb_spec 11796480 (Z.pos m)), (Z.ltb_spec (23592960 - Z.pos m) (Z.pos m));
          try reflexivity; lia.
      * assert (Z.log2 M = 22) as H22 by lia. rewrite H22.
        change (fexp32 (22 + 1 + -16)) with (-17).
        change (-17 <? -16) with true. cbn [orb].
        assert (M < 8388608) as Hsmall.
        { change 8388608 with (2 ^ 23). apply Z.log2_lt_pow2; lia. }
        destruct (Z.ltb_spec 11796480 (Z.pos m)); [reflexivity | unfold M in Hsmall; lia].
    + (* between 256 and 512 *)
      subst e. change (Z.min (-15) (-15)) with (-15).
      change (2 ^ (-15 - -15)) with 1. rewrite !Z.mul_1_r.
      change ((-16 <? -15) || (-16 =? -15) && (11796480 <? Z.pos m)) with true.
      specialize (Hlo ltac:(lia)).
      set (M := 11796480 - Z.pos m).
      destruct (Z_le_gt_dec M 0) as [Hneg | Hpos].
      * symmetry. apply normalize_nonpos_ltb. exact Hneg.
      * assert (M < 4194304) as HM by (unfold M; lia).
        assert (0 <= Z.log2 M < 22) as Hlog.
        { split; [apply Z.log2_nonneg |]. apply Z.log2_lt_pow2; [lia |].
          change (2 ^ 22) with 4194304. exact HM. }
        rewrite normalize_exact_ltb by (unfold fexp32; lia).
        destruct (Z.ltb_spec (fexp32 (Z.log2 M + 1 + -15)) (-15)) as [_ | Hge];
          [reflexivity | unfold fexp32 in Hge; lia].
    + (* 512 and above: the difference is negative *)
      assert (-14 <= e) as He14 by lia. specialize (Hlo ltac:(lia)).
      replace (Z.min (-15) e) with (-15) by lia.
      change (2 ^ (-15 - -15)) with 1. rewrite Z.mul_1_r.
      destruct (Z.ltb_spec (-16) e) as [_ | ?]; [| lia]. cbn [orb].
      symmetry. apply normalize_nonpos_ltb.
      assert (2 ^ 1 <= 2 ^ (e - -15)) as Hp by (apply Z.pow_le_mono_r; lia).
      change (2 ^ 1) with 2 in Hp. nia.
Qed.

(** ** The sequence classifier *)

Section SequenceClassifier.
Import ThreePhase.

Lemma is_angle_120_near_120 (angle tolerance : F32.float) :
  is_angle_120 angle tolerance = Spec.near_120 angle tolerance.
Proof.
  unfold is_angle_120, Spec.near_120, Spec.wrapped_distance_240, Spec.fmin,
    F32.gtb, F32.ltb.
  rewrite (wrap_test_is_min (F32.abs (F32.sub angle (F32.of_Z 240)))).
  - reflexivity.
  - change (F32.of_Z 240) with (S754_finite false 15728640 (-16)).
    apply abs_sub_nonneg. reflexivity.
Qed.

Lemma is_angle_240_near_240 (angle tolerance : F32.float) :
  is_angle_240 angle tolerance = Spec.near_240 angle tolerance.
Proof.
  unfold is_angle_240, Spec.near_240, Spec.wrapped_distance_240, Spec.fmin,
    F32.gtb, F32.ltb.
  rewrite (wrap_test_is_min (F32.abs (F32.sub angle (F32.of_Z 240)))).
  - reflexivity.
  - change (F32.of_Z 240) with (S754_finite false 15728640 (-16)).
    apply abs_sub_nonneg. reflexivity.
Qed.

(** C3, as amended. For a relationship that is marked valid,
    [pc814_threephase_detect_sequence] follows the first-match decision
    order of the specification on the three angles and the tolerance:
    Correct when all three angles are near 120, else Reversed when ab or bc
    is near 240 and ca is near 120, else Reversed when ab and bc are near
    240, else Error. For a relationship that is not marked valid it returns
    Error without looking at the angles. *)
Theorem C3_detect_sequence_decision_order (tp : pc814_threephase_t) :
  (valid (relationship tp) = true ->
   pc814_threephase_detect_sequence tp
   = Spec.classify (phase_ab_angle (relationship tp))
                   (phase_bc_angle (relationship tp))
                   (phase_ca_angle (relationship tp))
                   (sequence_tolerance tp))
  /\ (valid (relationship tp) = false ->
      pc814_threephase_detect_sequence tp = PC814_SEQUENCE_ERROR).
Proof.
  unfold pc814_threephase_detect_sequence, Spec.classify. split; intros ->; cbn [negb].
  - rewrite !is_angle_120_near_120, !is_angle_240_near_240. reflexivity.
  - reflexivity.
Qed.

Lemma C3_detect_sequence_decision_order_witness :
  pc814_threephase_detect_sequence reversed_example = PC814_SEQUENCE_ACB
  /\ pc814_threephase_detect_sequence error_example = PC814_SEQUENCE_ERROR
  /\ pc814_threephase_detect_sequence unmarked_120 = PC814_SEQUENCE_ERROR.
Proof.
  split; [| split].
  - destruct (C3_detect_sequence_decision_order reversed_example) as [H _].
    rewrite H; reflexivity.
  - destruct (C3_detect_sequence_decision_order error_example) as [H _].
    rewrite H; reflexivity.
  - destruct (C3_detect_sequence_decision_order unmarked_120) as [_ H].
    apply H. reflexivity.
Defined.

(** C3, as stated, fails where the relationship is not marked valid: three
    angles of 120 degrees at tolerance 10 are classified Correct by the
    decision order, but the function returns Error. This is the state in
    which [pc814_threephase_process] calls the function on its first pass:
    with three channels 120 degrees apart the first pass stores Error, the
    second pass over the same samples stores Correct. *)
Lemma C3_unmarked_relationship_is_error :
  Spec.classify (F32.of_Z 120) (F32.of_Z 120) (F32.of_Z 120) (F32.of_Z 10)
  = PC814_SEQUENCE_ABC
  /\ pc814_threephase_detect_sequence unmarked_120 = PC814_SEQUENCE_ERROR
  /\ exists tp1 tp2 : pc814_threephase_t,
       pc814_threephase_process (snd pc814_threephase_init)
         (channel_at 0) (channel_at 5461) (channel_at 10922) = (PC814_OK, tp1)
       /\ Spec.classify (phase_ab_angle (relationship tp1))
                        (phase_bc_angle (relationship tp1))
                        (phase_ca_angle (relationship tp1))
                        (sequence_tolerance tp1) = PC814_SEQUENCE_ABC
       /\ sequence tp1 = PC814_SEQUENCE_ERROR
       /\ pc814_threephase_process tp1
            (channel_at 0) (channel_at 5461) (channel_at 10922) = (PC814_OK, tp2)
       /\ sequence tp2 = PC814_SEQUENCE_ABC.
Proof.
  split; [vm_compute; reflexivity |]. split; [reflexivity |].
  eexists. eexists.
  split; [vm_compute; reflexivity |].
  split; [vm_compute; reflexivity |].
  split; [reflexivity |].
  split; vm_compute; reflexivity.
Qed.

End SequenceClassifier.

(** ** The correction advisor and the imbalance *)

Section ThreePhaseAnalysis.
Import ThreePhase.

(** C4. With a valid relationship, the verdict Reversed gives [swap_bc]
    alone; the verdict Error gives [swap_bc] when ab and ca are near 120,
    else [swap_ab] when bc and ca are, else [swap_ca] when ab and bc are,
    else no flag, near 120 being the predicate of the classifier at the
    classifier's tolerance. *)
Theorem C4_swap_recommendation (tp : pc814_threephase_t) :
  valid (relationship tp) = true ->
  let near_120 (angle : F32.float) := Spec.near_120 angle (sequence_tolerance tp) in
  let ab := phase_ab_angle (relationship tp) in
  let bc := phase_bc_angle (relationship tp) in
  let ca := phase_ca_angle (relationship tp) in
  (sequence tp = PC814_SEQUENCE_ACB ->
   pc814_threephase_get_swap_recommendation tp = (PC814_OK, only_swap_bc))
  /\ (sequence tp = PC814_SEQUENCE_ERROR ->
      (near_120 ab = true /\ near_120 ca = true ->
       pc814_threephase_get_swap_recommendation tp = (PC814_OK, only_swap_bc))
      /\ (~ (near_120 ab = true /\ near_120 ca = true) ->
          near_120 bc = true /\ near_120 ca = true ->
          pc814_threephase_get_swap_recommendation tp = (PC814_OK, only_swap_ab))
      /\ (~ (near_120 ab = true /\ near_120 ca = true) ->
          ~ (near_120 bc = true /\ near_120 ca = true) ->
          near_120 ab = true /\ near_120 bc = true ->
          pc814_threephase_get_swap_recommendation tp = (PC814_OK, only_swap_ca))
      /\ (~ (near_120 ab = true /\ near_120 ca = true) ->
          ~ (near_120 bc = true /\ near_120 ca = true) ->
          ~ (near_120 ab = true /\ near_120 bc = true) ->
          pc814_threephase_get_swap_recommendation tp = (PC814_OK, no_swap))).
Proof.
  intros Hv near_120 ab bc ca.
  unfold pc814_threephase_get_swap_recommendation. rewrite Hv. cbn [negb].
  split; [intros ->; reflexivity |]. intros ->.
  rewrite !is_angle_120_near_120.
  fold ab bc ca. fold (near_120 ab) (near_120 bc) (near_120 ca).
  destruct (near_120 ab), (near_120 bc), (near_120 ca); cbn [andb];
    repeat split; intros; try reflexivity;
    repeat match goal with
           | H : ~ (_ /\ _) |- _ => exfalso; apply H; split; reflexivity
           | H : _ /\ _ |- _ => destruct H; discriminate
           end.
Qed.

Lemma C4_swap_recommendation_witness :
  pc814_threephase_get_swap_recommendation reversed_example = (PC814_OK, only_swap_bc)
  /\ pc814_threephase_get_swap_recommendation error_example = (PC814_OK, no_swap).
Proof.
  split.
  - destruct (C4_swap_recommendation reversed_example eq_refl) as [Hrev _].
    apply Hrev. reflexivity.
  - destruct (C4_swap_recommendation error_example eq_refl) as [_ Herr].
    destruct (Herr eq_refl) as (_ & _ & _ & Hnone).
    apply Hnone; vm_compute; intros [H1 H2]; discriminate.
Defined.

(** C8. With a valid relationship the imbalance is
    [mean(|ab-120|, |bc-120|, |ca-120|) / 120 * 100] in single precision,
    which for the angles (130, 120, 110) lies between 5.55 and 5.56; without
    a valid relationship it is the sentinel -1, a negative number. *)
Theorem C8_imbalance :
  (forall tp : pc814_threephase_t,
      valid (relationship tp) = true ->
      pc814_threephase_get_imbalance tp
      = Spec.imbalance (phase_ab_angle (relationship tp))
                       (phase_bc_angle (relationship tp))
                       (phase_ca_angle (relationship tp)))
  /\ (forall tp : pc814_threephase_t,
        valid (relationship tp) = false ->
        pc814_threephase_get_imbalance tp = F32.of_Z (-1)
        /\ F32.ltb (pc814_threephase_get_imbalance tp) F32.zero = true)
  /\ (forall (seq : pc814_sequence_t) (ta tb tc fa fb fc t : Z)
             (tolerance : F32.float) (init : bool),
        let tp :=
          mk_threephase seq
            (mk_relationship ta tb tc (F32.of_Z 130) (F32.of_Z 120) (F32.of_Z 110)
                             fa fb fc true)
            t tolerance init in
        F32.leb (F32.div (F32.of_Z 555) (F32.of_Z 100))
                (pc814_threephase_get_imbalance tp) = true
        /\ F32.leb (pc814_threephase_get_imbalance tp)
                   (F32.div (F32.of_Z 556) (F32.of_Z 100)) = true).
Proof.
  split; [| split].
  - intros tp Hv. unfold pc814_threephase_get_imbalance. rewrite Hv. reflexivity.
  - intros tp Hv. unfold pc814_threephase_get_imbalance. rewrite Hv.
    split; reflexivity.
  - intros. split; vm_compute; reflexivity.
Qed.

Lemma C8_imbalance_witness :
  pc814_threephase_get_imbalance error_example
  = Spec.imbalance (F32.of_Z 90) (F32.of_Z 150) (F32.of_Z 120)
  /\ F32.ltb (pc814_threephase_get_imbalance (snd pc814_threephase_init)) F32.zero = true.
Proof.
  destruct C8_imbalance as (Hvalid & Hnone & _).
  split.
  - apply (Hvalid error_example). reflexivity.
  - apply (Hnone (snd pc814_threephase_init)). reflexivity.
Defined.

End ThreePhaseAnalysis.

(** ** Statistics while the sum of the periods fits 32 bits *)

Lemma total_app (ps qs : list Z) : Spec.total (ps ++ qs) = Spec.total ps + Spec.total qs.
Proof.
  unfold Spec.total. induction ps as [| p ps IH]; cbn [app fold_right]; lia.
Qed.

Lemma total_bounds (lo hi : Z) (ps : list Z) :
  Forall (fun p => lo <= p <= hi) ps ->
  lo * Z.of_nat (length ps) <= Spec.total ps <= hi * Z.of_nat (length ps).
Proof.
  unfold Spec.total. induction 1 as [| p ps Hp _ IH]; cbn [length fold_right]; lia.
Qed.

(** A call that produces no sample leaves the statistics alone. *)
Lemma process_capture_cases (dm : data_model) (h : pc814_handle_t)
    (hw : port_readings) (r : capture_result) :
  pc814_process_capture dm h hw = Returns r ->
  (statistics (handle r) = statistics h
   /\ period_sum (handle r) = period_sum h
   /\ period_count (handle r) = period_count h
   /\ valid_period dm h hw = [])
  \/ (status r = PC814_OK /\ last_capture_value h <> 0).
Proof.
  intros Hr. unfold valid_period. rewrite Hr. revert Hr.
  unfold pc814_process_capture.
  destruct (initialized h), (port h) as [p |];
    try (intros [= <-]; left; repeat split; reflexivity).
  destruct (negb (timer_get_capture_value p) || negb (timer_get_frequency p));
    [intros [= <-]; left; repeat split; reflexivity |].
  destruct ((capture_value hw =? 0) || (timer_frequency hw =? 0));
    [intros [= <-]; left; repeat split; reflexivity |].
  destruct (Z.eqb_spec (last_capture_value h) 0) as [Hz | Hnz]; cbn [negb].
  - intros [= <-]. left. repeat split; reflexivity.
  - destruct (period_us_of dm _ _ =? 0); [discriminate |].
    destruct (update_statistics h _ _ _) as [[st psum] pcount].
    intros [= <-]. right. split; [reflexivity | exact Hnz].
Qed.

(** The three counters agree modulo 2^32, whatever the calls. *)
Lemma counters_step (dm : data_model) (h : pc814_handle_t) (hw : port_readings)
    (r : capture_result) :
  pc814_process_capture dm h hw = Returns r ->
  total_zc_count (statistics h)
  = U32.wrap (valid_zc_count (statistics h) + invalid_zc_count (statistics h)) ->
  total_zc_count (statistics (handle r))
  = U32.wrap (valid_zc_count (statistics (handle r))
              + invalid_zc_count (statistics (handle r))).
Proof.
  intros Hr Hinv.
  destruct (process_capture_cases dm h hw r Hr) as [(Hs & _) | (Hok & Hl)].
  - rewrite Hs. exact Hinv.
  - destruct (process_capture_sample dm h hw r Hr Hok Hl) as (_ & _ & _ & _ & _ & _ & Hu & _).
    revert Hu. unfold update_statistics.
    destruct (validate_frequency _ _ _).
    + destruct (U32.incr (period_count h) >? 0); intros [= -> _ _];
        cbn [total_zc_count valid_zc_count invalid_zc_count];
        rewrite Hinv; unfold U32.incr, U32.add, U32.wrap;
        rewrite !Zplus_mod_idemp_l; f_equal; lia.
    + intros [= -> _ _]. cbn [total_zc_count valid_zc_count invalid_zc_count].
      rewrite Hinv. unfold U32.incr, U32.add, U32.wrap.
      rewrite Zplus_mod_idemp_l, Zplus_mod_idemp_r. f_equal. lia.
Qed.

Lemma total_lower (ps : list Z) :
  Forall (fun p => 0 < p) ps -> Z.of_nat (length ps) <= Spec.total ps.
Proof.
  unfold Spec.total. induction 1 as [| p ps Hp _ IH]; cbn [length fold_right]; lia.
Qed.

(** The statistics written for a valid sample, while nothing wraps around. *)
Lemma update_statistics_valid (h : pc814_handle_t) (p f : Z) :
  0 <= period_sum h + p < U32.modulus ->
  0 <= period_count h < U32.max ->
  let '(st, psum, pcount) := update_statistics h p f true in
  min_period_us st
  = (if (min_period_us (statistics h) =? 0) || (p <? min_period_us (statistics h))
     then p else min_period_us (statistics h))
  /\ max_period_us st
     = (if p >? max_period_us (statistics h) then p else max_period_us (statistics h))
  /\ avg_period_us st = (period_sum h + p) / (period_count h + 1)
  /\ psum = period_sum h + p
  /\ pcount = period_count h + 1.
Proof.
  intros Hsum Hcount. unfold update_statistics.
  assert (U32.add (period_sum h) p = period_sum h + p) as ->.
  { apply u32_wrap_small. exact Hsum. }
  rewrite (u32_incr_small (period_count h) Hcount).
  destruct (Z.gtb_spec (period_count h + 1) 0) as [_ | Hle]; [| lia].
  cbn [min_period_us max_period_us avg_period_us]. repeat split; reflexivity.
Qed.

Lemma stats_track_step (dm : data_model) (h : pc814_handle_t) (hw : port_readings)
    (r : capture_result) (ps : list Z) :
  pc814_process_capture dm h hw = Returns r ->
  stats_track h ps ->
  Spec.total (ps ++ valid_period dm h hw) < U32.modulus ->
  stats_track (handle r) (ps ++ valid_period dm h hw).
Proof.
  intros Hr Htr Hsum.
  destruct (process_capture_cases dm h hw r Hr) as [(Hs & Hps & Hpc & Hnone) | (Hok & Hl)].
  - rewrite Hnone, app_nil_r. unfold stats_track. rewrite Hs, Hps, Hpc. exact Htr.
  - destruct (process_capture_sample dm h hw r Hr Hok Hl)
      as (Hp & Hper & _ & Hval & _ & _ & Hu & _).
    assert (valid_period dm h hw
            = if valid (data (handle r)) then [period_us (data (handle r))] else [])
      as Hvp.
    { unfold valid_period. rewrite Hr, Hok.
      destruct (Z.eqb_spec (last_capture_value h) 0); [contradiction | reflexivity]. }
    rewrite Hvp in *. rewrite Hval, Hper in *. clear Hvp.
    set (p := period_us_of dm (period_ticks_of (last_capture_value h) (capture_value hw))
                (timer_frequency hw)) in *.
    destruct (validate_frequency (1000000 / p) (expected_frequency h)
                (frequency_tolerance h)).
    + (* a valid sample *)
      rewrite total_app in Hsum. unfold Spec.total in Hsum at 2.
      cbn [fold_right] in Hsum.
      destruct Htr as (Hpos & Hsumh & Hcnt & Hempty & Hfull).
      pose proof (total_lower ps Hpos) as Hlen.
      pose proof (update_statistics_valid h p (1000000 / p)) as Hup.
      rewrite <- Hu in Hup.
      destruct Hup as (Hmin & Hmax & Havg & Hps & Hpc);
        [rewrite Hsumh; lia | rewrite Hcnt; unfold U32.max, U32.modulus in *; lia |].
      unfold stats_track.
      split; [apply Forall_app; split; [exact Hpos | repeat constructor; lia] |].
      split; [rewrite Hps, Hsumh, total_app; unfold Spec.total; cbn [fold_right]; lia |].
      split; [rewrite Hpc, Hcnt, length_app; cbn [length]; lia |].
      split; [intros Hnil; destruct (app_cons_not_nil _ _ _ (eq_sym Hnil)) |].
      intros _. rewrite Hmin, Hmax, Havg.
      assert (Spec.truncated_mean (ps ++ [p]) = (period_sum h + p) / (period_count h + 1))
        as Hmean.
      { unfold Spec.truncated_mean. rewrite total_app, length_app, Hsumh, Hcnt.
        unfold Spec.total at 2. cbn [fold_right length]. f_equal; lia. }
      destruct ps as [| q ps'].
      * destruct (Hempty eq_refl) as [-> ->]. cbn [Z.eqb orb app].
        destruct (Z.gtb_spec p 0) as [_ | ?]; [| lia].
        repeat split; try (left; reflexivity); try (repeat constructor; lia).
        exact (eq_sym Hmean).
      * destruct (Hfull ltac:(discriminate)) as (Hinmin & Hinmax & Hall & _).
        rewrite Forall_forall in Hpos. pose proof (Hpos _ Hinmin) as Hminpos.
        destruct (Z.eqb_spec (min_period_us (statistics h)) 0) as [? | _]; [lia |].
        cbn [orb].
        split; [| split; [| split; [| exact (eq_sym Hmean)]]].
        -- destruct (Z.ltb_spec p (min_period_us (statistics h)));
             apply in_or_app; [right; left; reflexivity | left; exact Hinmin].
        -- destruct (Z.gtb_spec p (max_period_us (statistics h)));
             apply in_or_app; [right; left; reflexivity | left; exact Hinmax].
        -- apply Forall_app. split.
           ++ rewrite Forall_forall in *. intros x Hx. specialize (Hall x Hx).
              destruct (Z.ltb_spec p (min_period_us (statistics h)));
                destruct (Z.gtb_spec p (max_period_us (statistics h))); lia.
           ++ repeat constructor;
                destruct (Z.ltb_spec p (min_period_us (statistics h)));
                destruct (Z.gtb_spec p (max_period_us (statistics h))); lia.
    + (* an invalid sample *)
      injection Hu as Hst Hps Hpc. rewrite app_nil_r.
      unfold stats_track. rewrite Hst, Hps, Hpc.
      cbn [min_period_us max_period_us avg_period_us]. exact Htr.
Qed.

Lemma valid_period_positive (dm : data_model) (h : pc814_handle_t) (hw : port_readings) :
  Forall (fun p => 0 < p) (valid_period dm h hw).
Proof.
  unfold valid_period.
  destruct (pc814_process_capture dm h hw) as [r |] eqn:Hr; [| constructor].
  destruct (status r) eqn:Hs; try constructor.
  destruct (Z.eqb_spec (last_capture_value h) 0) as [| Hl]; [constructor |].
  cbn [negb andb]. destruct (valid (data (handle r))); [| constructor].
  destruct (process_capture_sample dm h hw r Hr Hs Hl) as (Hp & Hper & _).
  rewrite Hper. repeat constructor. lia.
Qed.

Lemma valid_periods_positive (dm : data_model) (readings : list port_readings) :
  forall h : pc814_handle_t, Forall (fun p => 0 < p) (valid_periods dm readings h).
Proof.
  induction readings as [| hw rest IH]; intros h; cbn [valid_periods]; [constructor |].
  destruct (pc814_process_capture dm h hw) as [r |]; [| constructor].
  apply Forall_app. split; [apply valid_period_positive | apply IH].
Qed.

Lemma stats_track_run (dm : data_model) (readings : list port_readings) :
  forall (h h' : pc814_handle_t) (ps : list Z),
    stats_track h ps ->
    captures dm readings h = Returns h' ->
    Spec.total (ps ++ valid_periods dm readings h) < U32.modulus ->
    stats_track h' (ps ++ valid_periods dm readings h).
Proof.
  unfold captures.
  induction readings as [| hw rest IH]; intros h h' ps Htr;
    cbn [map run apply_call valid_periods].
  - intros [= <-] _. rewrite app_nil_r. exact Htr.
  - destruct (pc814_process_capture dm h hw) as [r |] eqn:Hr; [| discriminate].
    intros Hrun Hsum. rewrite app_assoc in *.
    apply IH; [| exact Hrun | exact Hsum].
    apply (stats_track_step dm h hw r ps Hr Htr).
    rewrite total_app in Hsum.
    pose proof (total_lower _ (valid_periods_positive dm rest (handle r))) as Hrest.
    lia.
Qed.

Lemma counters_run (dm : data_model) (readings : list port_readings) :
  forall h h' : pc814_handle_t,
    total_zc_count (statistics h)
    = U32.wrap (valid_zc_count (statistics h) + invalid_zc_count (statistics h)) ->
    captures dm readings h = Returns h' ->
    total_zc_count (statistics h')
    = U32.wrap (valid_zc_count (statistics h') + invalid_zc_count (statistics h')).
Proof.
  unfold captures.
  induction readings as [| hw rest IH]; intros h h' Hinv; cbn [map run apply_call].
  - intros [= <-]. exact Hinv.
  - destruct (pc814_process_capture dm h hw) as [r |] eqn:Hr; [| discriminate].
    apply IH. exact (counters_step dm h hw r Hr Hinv).
Qed.

(** The part of the statistics invariant that the capture processor keeps:
    after any sequence of capture calls on a freshly initialized channel the
    three counters agree (in 32-bit arithmetic), and while the sum of the
    valid periods stays below 2^32 the average is their truncated mean and
    lies between the minimum and the maximum. *)
Theorem statistics_hold_below_wraparound (dm : data_model) (h0 : pc814_handle_t)
    (p : pc814_port_t) (pull : pc814_pull_t) (edge : pc814_edge_t)
    (readings : list port_readings) (h' : pc814_handle_t) :
  let h := snd (pc814_init h0 (Some p) pull edge) in
  let ps := valid_periods dm readings h in
  captures dm readings h = Returns h' ->
  total_zc_count (statistics h')
  = U32.wrap (valid_zc_count (statistics h') + invalid_zc_count (statistics h'))
  /\ (Spec.total ps < U32.modulus -> ps <> [] ->
      avg_period_us (statistics h') = Spec.truncated_mean ps
      /\ min_period_us (statistics h') <= avg_period_us (statistics h')
         <= max_period_us (statistics h')).
Proof.
  intros h ps Hrun. split.
  - apply (counters_run dm readings h h'); [reflexivity | exact Hrun].
  - intros Hsum Hne.
    assert (stats_track h []) as Htr0.
    { unfold stats_track.
      split; [constructor |]. split; [reflexivity |]. split; [reflexivity |].
      split; [intros _; split; reflexivity | intros Hc; contradiction]. }
    pose proof (stats_track_run dm readings h h' [] Htr0 Hrun Hsum) as Htr.
    cbn [app] in Htr. fold ps in Htr.
    destruct Htr as (Hpos & _ & _ & _ & Hfull).
    destruct (Hfull Hne) as (_ & _ & Hall & Havg).
    split; [exact Havg |]. rewrite Havg. unfold Spec.truncated_mean.
    pose proof (total_bounds _ _ ps Hall) as Hb.
    assert (0 < Z.of_nat (length ps)) as Hlen.
    { destruct ps; [contradiction | cbn [length]; lia]. }
    split.
    + apply Z.div_le_lower_bound; lia.
    + apply Z.div_le_upper_bound; lia.
Qed.

(** ** The long run of a steady line *)

Lemma total_repeat (p : Z) (n : nat) : Spec.total (repeat p n) = p * Z.of_nat n.
Proof.
  unfold Spec.total. induction n as [| n IH]; cbn [repeat fold_right]; lia.
Qed.

Lemma mains_valid_period (dm : data_model) (k : Z) :
  2 <= k < 2147483 ->
  valid_period dm (mains_state k) (mains_reading (k + 1)) = [20000].
Proof.
  intros Hk. unfold valid_period. rewrite (mains_step dm k Hk).
  cbn [status handle mains_state last_capture_value data valid period_us].
  destruct (Z.eqb_spec (2000 * k) 0); [lia | reflexivity].
Qed.

Lemma mains_valid_periods (dm : data_model) (n : nat) :
  forall k : Z,
    2 <= k -> k + Z.of_nat n < 2147484 ->
    valid_periods dm (mains_trace (k + 1) n) (mains_state k) = repeat 20000 n.
Proof.
  induction n as [| n IH]; intros k Hk Hn; cbn [mains_trace valid_periods repeat].
  - reflexivity.
  - rewrite mains_valid_period by lia. rewrite mains_step by lia. cbn [handle app].
    rewrite IH by lia. reflexivity.
Qed.

Lemma mains_valid_periods_from_start (dm : data_model) :
  valid_periods dm (mains_trace 1 (Z.to_nat 214750)) fresh_handle
  = repeat 20000 (S (Z.to_nat 214748)).
Proof.
  replace (Z.to_nat 214750) with (S (S (Z.to_nat 214748))) by lia.
  cbn [mains_trace valid_periods].
  assert (pc814_process_capture dm fresh_handle (mains_reading 1)
          = Returns (mk_result PC814_OK
                       (mk_handle (Some full_port) PC814_PULL_UP PC814_EDGE_RISING
                                  zero_data 20000 2000 true 50 (F32.of_Z 5) false
                                  zero_statistics 0 0) None)) as Hfirst.
  { destruct dm; reflexivity. }
  assert (valid_period dm fresh_handle (mains_reading 1) = []) as ->.
  { unfold valid_period. rewrite Hfirst. reflexivity. }
  rewrite Hfirst. cbn [handle app].
  assert (pc814_process_capture dm
            (mk_handle (Some full_port) PC814_PULL_UP PC814_EDGE_RISING
                       zero_data 20000 2000 true 50 (F32.of_Z 5) false
                       zero_statistics 0 0) (mains_reading (1 + 1))
          = Returns (mk_result PC814_OK (mains_state 2) None)) as Hsecond.
  { destruct dm; vm_compute; reflexivity. }
  assert (valid_period dm
            (mk_handle (Some full_port) PC814_PULL_UP PC814_EDGE_RISING
                       zero_data 20000 2000 true 50 (F32.of_Z 5) false
                       zero_statistics 0 0) (mains_reading (1 + 1)) = [20000]) as ->.
  { unfold valid_period. rewrite Hsecond. reflexivity. }
  rewrite Hsecond. cbn [handle app repeat]. change (1 + 1 + 1) with (2 + 1).
  rewrite mains_valid_periods by lia. reflexivity.
Qed.

(** C7 (the code departs from the claim). 214750 captures of a steady 50 Hz
    line on a 100 kHz counter give 214749 samples, all valid, all of period
    20000 microseconds. The three counters agree, minimum and maximum are
    20000 and so is the truncated mean of the valid periods, but the 32-bit
    sum of the periods has wrapped around to 12704 and the average period is
    0. *)
Theorem C7_average_period_wraps_around :
  forall dm : data_model,
    exists h : pc814_handle_t,
      captures dm (mains_trace 1 (Z.to_nat 214750)) fresh_handle = Returns h
      /\ total_zc_count (statistics h) = 214749
      /\ valid_zc_count (statistics h) = 214749
      /\ invalid_zc_count (statistics h) = 0
      /\ min_period_us (statistics h) = 20000
      /\ max_period_us (statistics h) = 20000
      /\ period_count h = 214749
      /\ period_sum h = 214749 * 20000 - 4294967296
      /\ avg_period_us (statistics h) = 0
      /\ Spec.truncated_mean (valid_periods dm (mains_trace 1 (Z.to_nat 214750))
                                            fresh_handle) = 20000.
Proof.
  intros dm. exists (mains_state 214750). split.
  - replace (Z.to_nat 214750) with (S (S (Z.to_nat 214748))) by lia.
    unfold captures. cbn [mains_trace map run apply_call].
    assert (pc814_process_capture dm fresh_handle (mains_reading 1)
            = Returns (mk_result PC814_OK
                         (mk_handle (Some full_port) PC814_PULL_UP PC814_EDGE_RISING
                                    zero_data 20000 2000 true 50 (F32.of_Z 5) false
                                    zero_statistics 0 0) None)) as ->.
    { destruct dm; reflexivity. }
    cbn [handle].
    assert (pc814_process_capture dm
              (mk_handle (Some full_port) PC814_PULL_UP PC814_EDGE_RISING
                         zero_data 20000 2000 true 50 (F32.of_Z 5) false
                         zero_statistics 0 0) (mains_reading (1 + 1))
            = Returns (mk_result PC814_OK (mains_state 2) None)) as ->.
    { destruct dm; vm_compute; reflexivity. }
    cbn [handle].
    pose proof (mains_run dm (Z.to_nat 214748) 2) as Hrun.
    unfold captures in Hrun. change (1 + 1 + 1) with (2 + 1).
    rewrite Hrun by lia. rewrite Z2Nat.id by lia. reflexivity.
  - repeat split; try reflexivity.
    rewrite mains_valid_periods_from_start.
    unfold Spec.truncated_mean. rewrite total_repeat, repeat_length.
    replace (Z.of_nat (S (Z.to_nat 214748))) with 214749 by lia. reflexivity.
Qed.

(** * Further properties of the capture processor *)

(** ** Which calls divide by zero, and what the first capture does *)

(** [pc814_process_capture] divides by zero exactly when it forms a tick
    delta whose period in microseconds is zero; every other call returns. *)
Theorem process_capture_divides_iff (dm : data_model) (h : pc814_handle_t)
    (hw : port_readings) :
  pc814_process_capture dm h hw = DivisionByZero
  <-> (initialized h = true
       /\ (exists p : pc814_port_t,
             port h = Some p /\ timer_get_capture_value p = true
             /\ timer_get_frequency p = true)
       /\ capture_value hw <> 0 /\ timer_frequency hw <> 0
       /\ last_capture_value h <> 0
       /\ period_us_of dm (period_ticks_of (last_capture_value h) (capture_value hw))
                       (timer_frequency hw) = 0).
Proof.
  split.
  - unfold pc814_process_capture.
    destruct (initialized h), (port h) as [p |]; try discriminate.
    destruct (timer_get_capture_value p) eqn:Hc, (timer_get_frequency p) eqn:Hf;
      cbn [negb orb]; try discriminate.
    destruct (Z.eqb_spec (capture_value hw) 0); cbn [orb]; [discriminate |].
    destruct (Z.eqb_spec (timer_frequency hw) 0); [discriminate |].
    destruct (Z.eqb_spec (last_capture_value h) 0); cbn [negb]; [discriminate |].
    destruct (Z.eqb_spec (period_us_of dm (period_ticks_of (last_capture_value h)
                (capture_value hw)) (timer_frequency hw)) 0) as [Hz | _].
    + intros _. split; [reflexivity |].
      split; [exists p; repeat split; assumption |]. repeat split; assumption.
    + destruct (update_statistics h _ _ _) as [[st psum] pcount]. discriminate.
  - intros (Hi & (p & Hp & Hc & Hf) & Hcv & Htf & Hl & Hz).
    exact (process_capture_zero_period dm h hw p Hi Hp Hc Hf Hcv Htf Hl Hz).
Qed.

(** With no previous capture value (after [pc814_init] or [pc814_reset])
    a call never divides and never produces a sample: sample, statistics
    and running sum stay as they are, the listener is not invoked; an
    accepted call records the raw value for the next delta. *)
Theorem first_capture_records_only (dm : data_model) (h : pc814_handle_t)
    (hw : port_readings) :
  last_capture_value h = 0 ->
  exists r : capture_result,
    pc814_process_capture dm h hw = Returns r
    /\ data (handle r) = data h
    /\ statistics (handle r) = statistics h
    /\ period_sum (handle r) = period_sum h
    /\ period_count (handle r) = period_count h
    /\ notified r = None
    /\ (status r = PC814_OK -> last_capture_value (handle r) = capture_value hw)
    /\ (status r <> PC814_OK -> handle r = h).
Proof.
  intros Hl. unfold pc814_process_capture. rewrite Hl. cbn [Z.eqb negb].
  destruct (initialized h), (port h) as [p |];
    try (eexists; split; [reflexivity |]; cbn; repeat split; congruence).
  destruct (negb (timer_get_capture_value p) || negb (timer_get_frequency p));
    [eexists; split; [reflexivity |]; cbn; repeat split; congruence |].
  destruct ((capture_value hw =? 0) || (timer_frequency hw =? 0));
    eexists; (split; [reflexivity |]); cbn; repeat split; congruence.
Qed.

Lemma first_capture_records_only_witness :
  exists r : capture_result,
    pc814_process_capture ILP32 (pc814_reset (mains_state 5)) (mains_reading 9)
    = Returns r
    /\ data (handle r) = data (pc814_reset (mains_state 5))
    /\ statistics (handle r) = statistics (mains_state 5)
    /\ last_capture_value (handle r) = 18000.
Proof.
  destruct (first_capture_records_only ILP32 (pc814_reset (mains_state 5))
              (mains_reading 9) eq_refl)
    as (r & Hr & Hd & Hs & _ & _ & _ & Hok & _).
  exists r. split; [exact Hr |]. split; [exact Hd |]. split; [exact Hs |].
  assert (r = mk_result PC814_OK (handle r) None) as Hshape.
  { vm_compute in Hr. injection Hr as <-. reflexivity. }
  apply Hok. rewrite Hshape. reflexivity.
Defined.

(** The listener is handed a sample only by a call that returns
    [PC814_OK] with a listener registered, and the sample it is handed is
    the one stored in the handle, marked valid. *)
Theorem listener_sees_stored_valid_sample (dm : data_model) (h : pc814_handle_t)
    (hw : port_readings) (r : capture_result) (d : pc814_data_t) :
  pc814_process_capture dm h hw = Returns r ->
  notified r = Some d ->
  d = data (handle r) /\ valid d = true /\ callback h = true
  /\ status r = PC814_OK /\ last_capture_value h <> 0.
Proof.
  unfold pc814_process_capture.
  destruct (initialized h), (port h) as [p |];
    try (intros [= <-]; discriminate).
  destruct (negb (timer_get_capture_value p) || negb (timer_get_frequency p));
    [intros [= <-]; discriminate |].
  destruct ((capture_value hw =? 0) || (timer_frequency hw =? 0));
    [intros [= <-]; discriminate |].
  destruct (Z.eqb_spec (last_capture_value h) 0) as [| Hl]; cbn [negb];
    [intros [= <-]; discriminate |].
  destruct (period_us_of dm _ _ =? 0); [discriminate |].
  destruct (update_statistics h _ _ _) as [[st psum] pcount].
  intros [= <-]. cbn [notified handle data status].
  destruct (callback h); cbn [andb]; [| discriminate].
  destruct (validate_frequency _ _ _) eqn:Hv; [| discriminate].
  intros [= <-]. cbn [valid]. repeat split; assumption.
Qed.

Lemma listener_sees_stored_valid_sample_witness :
  exists (r : capture_result) (d : pc814_data_t),
    pc814_process_capture ILP32 (pc814_set_callback (mains_state 5) true)
                          (mains_reading 6) = Returns r
    /\ notified r = Some d
    /\ d = data (handle r) /\ valid d = true.
Proof.
  eexists. eexists. split; [vm_compute; reflexivity |]. split; [reflexivity |].
  destruct (listener_sees_stored_valid_sample ILP32
              (pc814_set_callback (mains_state 5) true) (mains_reading 6) _ _
              ltac:(vm_compute; reflexivity) eq_refl) as (Hd & Hv & _).
  split; [exact Hd | exact Hv].
Defined.

(** ** Edge counting and the time since the last edge *)

Lemma process_capture_ok_initialized (dm : data_model) (h : pc814_handle_t)
    (hw : port_readings) (r : capture_result) :
  pc814_process_capture dm h hw = Returns r -> status r = PC814_OK ->
  initialized h = true /\ initialized (handle r) = true /\ port (handle r) = port h
  /\ capture_value hw <> 0
  /\ timestamp_us (data (handle r))
     = (if negb (last_capture_value h =? 0)
        then match port h with
             | Some p => if get_time_us p then time_us hw else 0
             | None => 0
             end
        else timestamp_us (data h)).
Proof.
  unfold pc814_process_capture.
  destruct (initialized h), (port h) as [p |];
    try (intros [= <-]; discriminate).
  destruct (negb (timer_get_capture_value p) || negb (timer_get_frequency p));
    [intros [= <-]; discriminate |].
  destruct (Z.eqb_spec (capture_value hw) 0) as [| Hc]; cbn [orb];
    [intros [= <-]; discriminate |].
  destruct (timer_frequency hw =? 0); [intros [= <-]; discriminate |].
  destruct (negb (last_capture_value h =? 0)).
  - destruct (period_us_of dm _ _ =? 0); [discriminate |].
    destruct (update_statistics h _ _ _) as [[st psum] pcount].
    intros [= <-] _. cbn. repeat split. exact Hc.
  - intros [= <-] _. cbn. repeat split. exact Hc.
Qed.

Lemma process_capture_no_sample_data (dm : data_model) (h : pc814_handle_t)
    (hw : port_readings) (r : capture_result) :
  pc814_process_capture dm h hw = Returns r ->
  status r <> PC814_OK \/ last_capture_value h = 0 ->
  data (handle r) = data h /\ initialized (handle r) = initialized h.
Proof.
  unfold pc814_process_capture.
  destruct (initialized h) eqn:Hinit, (port h) as [p |];
    try (intros [= <-] _; cbn; auto).
  destruct (negb (timer_get_capture_value p) || negb (timer_get_frequency p));
    [intros [= <-] _; cbn; auto |].
  destruct ((capture_value hw =? 0) || (timer_frequency hw =? 0));
    [intros [= <-] _; cbn; auto |].
  destruct (Z.eqb_spec (last_capture_value h) 0) as [| Hl]; cbn [negb];
    [intros [= <-] _; cbn; auto |].
  destruct (period_us_of dm _ _ =? 0); [discriminate |].
  destruct (update_statistics h _ _ _) as [[st psum] pcount].
  intros [= <-] [Hs | Hz]; [exfalso; apply Hs; reflexivity | contradiction].
Qed.

(** A call that produces a sample adds one to the edge count modulo 2^32;
    [pc814_is_new_zc] against the count read before the call reports the
    new edge unless the count was 0xFFFFFFFF and has wrapped to 0. *)
Theorem sample_is_a_new_edge (dm : data_model) (h : pc814_handle_t)
    (hw : port_readings) (r : capture_result) :
  pc814_process_capture dm h hw = Returns r ->
  status r = PC814_OK -> last_capture_value h <> 0 ->
  U32.in_range (count (data h)) ->
  pc814_get_count (handle r) = (pc814_get_count h + 1) mod 4294967296
  /\ pc814_is_new_zc (handle r) (pc814_get_count h)
     = negb (pc814_get_count h =? 0xFFFFFFFF).
Proof.
  intros Hr Hok Hl Hrange.
  destruct (process_capture_ok_initialized dm h hw r Hr Hok) as (Hi & Hi' & _).
  destruct (process_capture_sample dm h hw r Hr Hok Hl) as (_ & _ & _ & _ & Hc & _).
  unfold pc814_get_count, pc814_is_new_zc. rewrite Hi, Hi', Hc. cbn [negb].
  split; [reflexivity |].
  unfold U32.in_range, U32.modulus in Hrange.
  unfold U32.incr, U32.add, U32.wrap, U32.modulus.
  destruct (Z.eqb_spec (count (data h)) 0xFFFFFFFF) as [-> | Hne]; [reflexivity |].
  rewrite Z.mod_small by lia. cbn [negb].
  destruct (Z.gtb_spec (count (data h) + 1) (count (data h))); [reflexivity | lia].
Qed.

Lemma sample_is_a_new_edge_witness :
  pc814_get_count (mains_state 6) = (pc814_get_count (mains_state 5) + 1) mod 4294967296
  /\ pc814_is_new_zc (mains_state 6) (pc814_get_count (mains_state 5)) = true.
Proof.
  apply (sample_is_a_new_edge ILP32 (mains_state 5) (mains_reading 6)
           (mk_result PC814_OK (mains_state 6) None)).
  - vm_compute. reflexivity.
  - reflexivity.
  - cbn. discriminate.
  - cbn. unfold U32.in_range, U32.modulus. lia.
Defined.

(** A call that does not produce a sample leaves the edge count alone, so
    [pc814_is_new_zc] against the count read before the call is false. *)
Theorem no_sample_no_new_edge (dm : data_model) (h : pc814_handle_t)
    (hw : port_readings) (r : capture_result) :
  pc814_process_capture dm h hw = Returns r ->
  status r <> PC814_OK \/ last_capture_value h = 0 ->
  pc814_get_count (handle r) = pc814_get_count h
  /\ pc814_is_new_zc (handle r) (pc814_get_count h) = false.
Proof.
  intros Hr Hno.
  destruct (process_capture_no_sample_data dm h hw r Hr Hno) as [Hd Hi].
  unfold pc814_get_count, pc814_is_new_zc. rewrite Hd, Hi.
  split; [reflexivity |].
  destruct (initialized h); cbn [negb]; [| reflexivity].
  destruct (Z.gtb_spec (count (data h)) (count (data h))); [lia | reflexivity].
Qed.

Lemma no_sample_no_new_edge_witness :
  pc814_get_count (mains_state 5) = pc814_get_count (mains_state 5)
  /\ pc814_is_new_zc (mains_state 5) (pc814_get_count (mains_state 5)) = false.
Proof.
  apply (no_sample_no_new_edge ILP32 (mains_state 5) (mk_readings 0 100000 7)
           (mk_result PC814_ERROR (mains_state 5) None)).
  - reflexivity.
  - left. discriminate.
Defined.

(** After a call that produced a sample at clock value [t],
    [pc814_get_time_since_zc] at a later clock value [now] is [now - t];
    when the clock reads less than [t] (it has wrapped around) the answer
    is 0, not the elapsed time. *)
Theorem time_since_sample (dm : data_model) (h : pc814_handle_t)
    (hw : port_readings) (r : capture_result) (p : pc814_port_t) (now : Z) :
  pc814_process_capture dm h hw = Returns r ->
  status r = PC814_OK -> last_capture_value h <> 0 ->
  port h = Some p -> get_time_us p = true ->
  U32.in_range (time_us hw) -> U32.in_range now ->
  pc814_get_time_since_zc (handle r) now
  = if now <? time_us hw then 0 else now - time_us hw.
Proof.
  intros Hr Hok Hl Hp Hg Ht Hn.
  destruct (process_capture_ok_initialized dm h hw r Hr Hok) as (_ & Hi & Hport & _ & Hts).
  unfold pc814_get_time_since_zc. rewrite Hi, Hport, Hp, Hg, Hts, Hp, Hg.
  destruct (Z.eqb_spec (last_capture_value h) 0); [contradiction |]. cbn [negb].
  destruct (Z.ltb_spec now (time_us hw)); [reflexivity |].
  unfold U32.in_range in *. unfold U32.sub. apply u32_wrap_small.
  unfold U32.in_range. lia.
Qed.

Lemma time_since_sample_witness :
  pc814_get_time_since_zc (mains_state 6) 125000 = 5000
  /\ pc814_get_time_since_zc (mains_state 6) 100 = 0.
Proof.
  split.
  - apply (time_since_sample ILP32 (mains_state 5) (mains_reading 6)
             (mk_result PC814_OK (mains_state 6) None) full_port 125000);
      try reflexivity; try (cbn; discriminate);
      unfold U32.in_range, U32.modulus; cbn; lia.
  - apply (time_since_sample ILP32 (mains_state 5) (mains_reading 6)
             (mk_result PC814_OK (mains_state 6) None) full_port 100);
      try reflexivity; try (cbn; discriminate);
      unfold U32.in_range, U32.modulus; cbn; lia.
Defined.

(** [pc814_reset] forgets the previous capture and marks the sample
    invalid, so that every query of the sample answers 0 or false; the
    statistics, the running sum, the configuration and the listener are
    kept. *)
Theorem reset_forgets_sample_keeps_statistics (h : pc814_handle_t) :
  pc814_get_frequency (pc814_reset h) = 0
  /\ pc814_get_period_us (pc814_reset h) = 0
  /\ pc814_get_half_period_us (pc814_reset h) = 0
  /\ pc814_get_quarter_period_us (pc814_reset h) = 0
  /\ pc814_get_count (pc814_reset h) = 0
  /\ pc814_is_data_valid (pc814_reset h) = false
  /\ last_capture_value (pc814_reset h) = 0
  /\ pc814_get_statistics (pc814_reset h) = pc814_get_statistics h
  /\ period_sum (pc814_reset h) = period_sum h
  /\ period_count (pc814_reset h) = period_count h
  /\ expected_frequency (pc814_reset h) = expected_frequency h
  /\ frequency_tolerance (pc814_reset h) = frequency_tolerance h
  /\ callback (pc814_reset h) = callback h.
Proof.
  unfold pc814_get_frequency, pc814_get_period_us, pc814_get_half_period_us,
    pc814_get_quarter_period_us, pc814_get_count, pc814_is_data_valid,
    pc814_get_statistics, pc814_reset.
  cbn [initialized data valid count statistics period_sum period_count
       expected_frequency frequency_tolerance callback last_capture_value negb].
  rewrite orb_true_r. destruct (initialized h); repeat split; reflexivity.
Qed.

(** [pc814_start] succeeds on any initialized handle with a port table,
    also on one whose table lacks the function that reads the capture value
    or the one that reads the counter frequency; on such a handle every
    capture call fails with [PC814_ERROR] and changes nothing. *)
Theorem start_succeeds_without_capture_functions (dm : data_model)
    (h : pc814_handle_t) (p : pc814_port_t) (hw : port_readings) :
  initialized h = true -> port h = Some p ->
  timer_get_capture_value p = false \/ timer_get_frequency p = false ->
  pc814_start h = PC814_OK
  /\ pc814_process_capture dm h hw = Returns (mk_result PC814_ERROR h None).
Proof.
  intros Hi Hp Hmissing. unfold pc814_start, pc814_process_capture.
  rewrite Hi, Hp. split; [reflexivity |].
  destruct Hmissing as [-> | ->]; cbn [negb orb]; [reflexivity |].
  rewrite orb_true_r. reflexivity.
Qed.

Lemma start_succeeds_without_capture_functions_witness :
  pc814_start
    (snd (pc814_init blank_handle
            (Some (mk_port false true true true true true true true true true))
            PC814_PULL_UP PC814_EDGE_RISING)) = PC814_OK
  /\ pc814_process_capture ILP32
       (snd (pc814_init blank_handle
               (Some (mk_port false true true true true true true true true true))
               PC814_PULL_UP PC814_EDGE_RISING))
       (mains_reading 1)
     = Returns
         (mk_result PC814_ERROR
            (snd (pc814_init blank_handle
                    (Some (mk_port false true true true true true true true true true))
                    PC814_PULL_UP PC814_EDGE_RISING))
            None).
Proof.
  apply (start_succeeds_without_capture_functions ILP32 _
           (mk_port false true true true true true true true true true)
           (mains_reading 1)).
  - reflexivity.
  - reflexivity.
  - left. reflexivity.
Defined.

(** ** What holds of a handle after any sequence of calls *)

Lemma run_invariant (dm : data_model) (P : pc814_handle_t -> Prop) :
  (forall (c : api_call) (h h' : pc814_handle_t),
      P h -> apply_call dm c h = Returns h' -> P h') ->
  forall (calls : list api_call) (h h' : pc814_handle_t),
    P h -> run dm calls h = Returns h' -> P h'.
Proof.
  intros Hstep. induction calls as [| c rest IH]; intros h h' HP; cbn [run].
  - intros [= <-]. exact HP.
  - destruct (apply_call dm c h) as [h1 |] eqn:Hc; [| discriminate].
    apply IH. exact (Hstep c h h1 HP Hc).
Qed.

Lemma validate_frequency_nonzero (freq expected : Z) (tolerance : F32.float) :
  validate_frequency freq expected tolerance = true -> freq <> 0 /\ expected <> 0.
Proof.
  unfold validate_frequency.
  destruct (Z.eqb_spec freq 0), (Z.eqb_spec expected 0); cbn [orb];
    try discriminate. auto.
Qed.

Lemma sample_ok_apply_call (dm : data_model) (c : api_call) (h h' : pc814_handle_t) :
  sample_ok h -> apply_call dm c h = Returns h' -> sample_ok h'.
Proof.
  intros [Hi Hs]. destruct c; cbn [apply_call].
  - intros [= <-]. split; [reflexivity | cbn; discriminate].
  - destruct (pc814_process_capture dm h hw) as [r |] eqn:Hr; [| discriminate].
    intros [= <-].
    destruct (status r) eqn:Hst;
      try (destruct (process_capture_no_sample_data dm h hw r Hr) as [Hd Hi'];
           [left; rewrite Hst; discriminate |];
           unfold sample_ok; rewrite Hd, Hi'; split; assumption).
    destruct (Z.eq_dec (last_capture_value h) 0) as [Hz | Hl].
    + destruct (process_capture_no_sample_data dm h hw r Hr) as [Hd Hi'];
        [right; exact Hz |].
      unfold sample_ok. rewrite Hd, Hi'. split; assumption.
    + destruct (process_capture_ok_initialized dm h hw r Hr Hst) as (_ & Hi' & _).
      destruct (process_capture_sample dm h hw r Hr Hst Hl)
        as (Hp & Hper & Hfreq & Hval & _).
      split; [exact Hi' |]. rewrite Hval, Hper, Hfreq. intros Hv.
      apply validate_frequency_nonzero in Hv. destruct Hv as [Hf _].
      set (q := period_us_of dm (period_ticks_of (last_capture_value h)
                  (capture_value hw)) (timer_frequency hw)) in *.
      assert (0 <= 1000000 / q) as Hnn by (apply Z.div_pos; lia).
      assert (q <= 1000000) as Hq.
      { destruct (Z_le_gt_dec q 1000000) as [| Hgt]; [assumption |].
        exfalso. apply Hf. apply Z.div_small. lia. }
      assert (1000000 / q <= 1000000) as Hub.
      { apply Z.div_le_upper_bound; nia. }
      repeat split; lia.
  - intros [= <-]. unfold pc814_set_expected_frequency.
    destruct ((freq =? 50) || (freq =? 60)); split; assumption.
  - intros [= <-]. unfold pc814_set_frequency_tolerance.
    destruct (F32.gtb tolerance F32.zero && F32.leb tolerance (F32.of_Z 50));
      split; assumption.
  - intros [= <-]. split; [exact Hi | cbn; discriminate].
  - intros [= <-]. split; assumption.
  - intros [= <-]. split; assumption.
Qed.

(** After [pc814_init] and any sequence of calls, the queries of the sample
    are consistent: the frequency query answers 0 exactly when there is no
    valid sample, and with a valid sample the period lies between 1 and
    1000000 microseconds, the frequency is 1000000 divided by the period
    (truncated) and half and quarter period are the period divided by 2
    and by 4. *)
Theorem queries_consistent_after_any_calls (dm : data_model)
    (h0 : pc814_handle_t) (p : pc814_port_t) (pull : pc814_pull_t)
    (edge : pc814_edge_t) (calls : list api_call) (h : pc814_handle_t) :
  run dm calls (snd (pc814_init h0 (Some p) pull edge)) = Returns h ->
  (pc814_get_frequency h = 0 <-> pc814_is_data_valid h = false)
  /\ (pc814_get_period_us h = 0 <-> pc814_is_data_valid h = false)
  /\ (pc814_is_data_valid h = true ->
      1 <= pc814_get_period_us h <= 1000000
      /\ pc814_get_frequency h = 1000000 / pc814_get_period_us h
      /\ 1 <= pc814_get_frequency h <= 1000000
      /\ pc814_get_half_period_us h = pc814_get_period_us h / 2
      /\ pc814_get_quarter_period_us h = pc814_get_period_us h / 4).
Proof.
  intros Hrun.
  assert (sample_ok h) as [Hi Hs].
  { apply (run_invariant dm sample_ok (sample_ok_apply_call dm) calls
             (snd (pc814_init h0 (Some p) pull edge)) h); [| exact Hrun].
    split; [reflexivity | cbn; discriminate]. }
  unfold pc814_get_frequency, pc814_get_period_us, pc814_is_data_valid,
    pc814_get_half_period_us, pc814_get_quarter_period_us.
  rewrite Hi. cbn [negb orb].
  destruct (valid (data h)); cbn [negb].
  - destruct (Hs eq_refl) as (Hp & Hf & Hfr).
    split; [split; [lia | discriminate] |].
    split; [split; [lia | discriminate] |].
    intros _. repeat split; lia.
  - split; [split; reflexivity |]. split; [split; reflexivity |]. discriminate.
Qed.

Lemma queries_consistent_after_any_calls_witness :
  (pc814_get_frequency (mains_state 3) = 0 <-> pc814_is_data_valid (mains_state 3) = false)
  /\ (pc814_get_period_us (mains_state 3) = 0
      <-> pc814_is_data_valid (mains_state 3) = false)
  /\ (pc814_is_data_valid (mains_state 3) = true ->
      1 <= pc814_get_period_us (mains_state 3) <= 1000000
      /\ pc814_get_frequency (mains_state 3) = 1000000 / pc814_get_period_us (mains_state 3)
      /\ 1 <= pc814_get_frequency (mains_state 3) <= 1000000
      /\ pc814_get_half_period_us (mains_state 3) = pc814_get_period_us (mains_state 3) / 2
      /\ pc814_get_quarter_period_us (mains_state 3)
         = pc814_get_period_us (mains_state 3) / 4).
Proof.
  apply (queries_consistent_after_any_calls ILP32 blank_handle full_port
           PC814_PULL_UP PC814_EDGE_RISING
           [ProcessCapture (mains_reading 1); ProcessCapture (mains_reading 2);
            ProcessCapture (mains_reading 3)]).
  vm_compute. reflexivity.
Defined.

Lemma counters_ok_apply_call (dm : data_model) (c : api_call) (h h' : pc814_handle_t) :
  counters_ok h /\ initialized h = true ->
  apply_call dm c h = Returns h' ->
  counters_ok h' /\ initialized h' = true.
Proof.
  intros [Hc Hi]. destruct c; cbn [apply_call].
  - intros [= <-]. split; reflexivity.
  - destruct (pc814_process_capture dm h hw) as [r |] eqn:Hr; [| discriminate].
    intros [= <-]. split; [exact (counters_step dm h hw r Hr Hc) |].
    revert Hr. unfold pc814_process_capture. rewrite Hi.
    destruct (port h) as [q |]; [| intros [= <-]; exact Hi].
    destruct (negb (timer_get_capture_value q) || negb (timer_get_frequency q));
      [intros [= <-]; exact Hi |].
    destruct ((capture_value hw =? 0) || (timer_frequency hw =? 0));
      [intros [= <-]; exact Hi |].
    destruct (negb (last_capture_value h =? 0)); [| intros [= <-]; reflexivity].
    destruct (period_us_of dm _ _ =? 0); [discriminate |].
    destruct (update_statistics h _ _ _) as [[st psum] pcount].
    intros [= <-]. reflexivity.
  - intros [= <-]. unfold pc814_set_expected_frequency.
    destruct ((freq =? 50) || (freq =? 60)); split; assumption.
  - intros [= <-]. unfold pc814_set_frequency_tolerance.
    destruct (F32.gtb tolerance F32.zero && F32.leb tolerance (F32.of_Z 50));
      split; assumption.
  - intros [= <-]. split; assumption.
  - intros [= <-]. split; assumption.
  - intros [= <-]. split; [reflexivity | exact Hi].
Qed.

(** After [pc814_init] and any sequence of calls (captures, setters, resets
    in any order), [pc814_get_statistics] succeeds and the statistics it
    copies out satisfy valid + invalid == total in 32-bit arithmetic. *)
Theorem statistics_counters_agree_after_any_calls (dm : data_model)
    (h0 : pc814_handle_t) (p : pc814_port_t) (pull : pc814_pull_t)
    (edge : pc814_edge_t) (calls : list api_call) (h : pc814_handle_t) :
  run dm calls (snd (pc814_init h0 (Some p) pull edge)) = Returns h ->
  exists st : pc814_statistics_t,
    pc814_get_statistics h = (PC814_OK, Some st)
    /\ total_zc_count st = (valid_zc_count st + invalid_zc_count st) mod 4294967296.
Proof.
  intros Hrun.
  assert (counters_ok h /\ initialized h = true) as [Hc Hi].
  { apply (run_invariant dm (fun x => counters_ok x /\ initialized x = true)
             (counters_ok_apply_call dm) calls
             (snd (pc814_init h0 (Some p) pull edge)) h); [| exact Hrun].
    split; reflexivity. }
  exists (statistics h). unfold pc814_get_statistics. rewrite Hi.
  split; [reflexivity | exact Hc].
Qed.

Lemma statistics_counters_agree_after_any_calls_witness :
  exists st : pc814_statistics_t,
    pc814_get_statistics (pc814_reset (mains_state 3)) = (PC814_OK, Some st)
    /\ total_zc_count st = (valid_zc_count st + invalid_zc_count st) mod 4294967296.
Proof.
  apply (statistics_counters_agree_after_any_calls ILP32 blank_handle full_port
           PC814_PULL_UP PC814_EDGE_RISING
           [ProcessCapture (mains_reading 1); ProcessCapture (mains_reading 2);
            ProcessCapture (mains_reading 3); Reset]).
  vm_compute. reflexivity.
Defined.

(** Statistics restart with [pc814_reset_statistics]: while the sum of the
    valid periods captured since then stays below 2^32, the average period
    is their truncated mean and lies between the minimum and the maximum. *)
Theorem statistics_restart_after_reset_statistics (dm : data_model)
    (h : pc814_handle_t) (readings : list port_readings) (h' : pc814_handle_t) :
  let ps := valid_periods dm readings (pc814_reset_statistics h) in
  captures dm readings (pc814_reset_statistics h) = Returns h' ->
  Spec.total ps < U32.modulus -> ps <> [] ->
  avg_period_us (statistics h') = Spec.truncated_mean ps
  /\ min_period_us (statistics h') <= avg_period_us (statistics h')
     <= max_period_us (statistics h').
Proof.
  intros ps Hrun Hsum Hne.
  assert (stats_track (pc814_reset_statistics h) []) as Htr0.
  { unfold stats_track.
    split; [constructor |]. split; [reflexivity |]. split; [reflexivity |].
    split; [intros _; split; reflexivity | intros Hc; contradiction]. }
  pose proof (stats_track_run dm readings _ h' [] Htr0 Hrun Hsum) as Htr.
  cbn [app] in Htr. fold ps in Htr.
  destruct Htr as (Hpos & _ & _ & _ & Hfull).
  destruct (Hfull Hne) as (_ & _ & Hall & Havg).
  split; [exact Havg |]. rewrite Havg. unfold Spec.truncated_mean.
  pose proof (total_bounds _ _ ps Hall) as Hb.
  assert (0 < Z.of_nat (length ps)) as Hlen.
  { destruct ps; [contradiction | cbn [length]; lia]. }
  split.
  - apply Z.div_le_lower_bound; lia.
  - apply Z.div_le_upper_bound; lia.
Qed.

Lemma statistics_restart_after_reset_statistics_witness :
  exists h' : pc814_handle_t,
    captures ILP32 [mains_reading 6; mains_reading 7]
             (pc814_reset_statistics (mains_state 5)) = Returns h'
    /\ avg_period_us (statistics h') = 20000
    /\ min_period_us (statistics h') <= avg_period_us (statistics h')
       <= max_period_us (statistics h').
Proof.
  eexists. split; [vm_compute; reflexivity |].
  destruct (statistics_restart_after_reset_statistics ILP32 (mains_state 5)
              [mains_reading 6; mains_reading 7] _
              ltac:(vm_compute; reflexivity)) as [Havg Hb].
  - vm_compute. reflexivity.
  - vm_compute. discriminate.
  - split; [| exact Hb]. rewrite Havg. vm_compute. reflexivity.
Defined.

Lemma statistics_hold_below_wraparound_witness :
  exists h' : pc814_handle_t,
    captures ILP32 [mains_reading 1; mains_reading 2; mains_reading 3] fresh_handle
    = Returns h'
    /\ avg_period_us (statistics h') = 20000
    /\ min_period_us (statistics h') <= avg_period_us (statistics h')
       <= max_period_us (statistics h').
Proof.
  eexists. split; [vm_compute; reflexivity |].
  destruct (statistics_hold_below_wraparound ILP32 blank_handle full_port
              PC814_PULL_UP PC814_EDGE_RISING
              [mains_reading 1; mains_reading 2; mains_reading 3] _
              ltac:(vm_compute; reflexivity)) as [_ Hrest].
  destruct Hrest as [Havg Hb].
  - vm_compute. reflexivity.
  - vm_compute. discriminate.
  - split; [| exact Hb]. rewrite Havg. vm_compute. reflexivity.
Defined.

(** ** The two time differences, for every pair *)

(** The tick delta of the capture processor against the modular difference
    of the two raw values: equal when the counter did not wrap, one tick
    less (modulo 2^32) otherwise; for two equal raw values it is
    0xFFFFFFFF. *)
Theorem period_ticks_of_characterised (previous current : Z) :
  U32.in_range previous -> U32.in_range current ->
  period_ticks_of previous current
  = (if previous <? current
     then Spec.modular_delta previous current
     else (Spec.modular_delta previous current - 1) mod 4294967296)
  /\ (previous = current -> period_ticks_of previous current = 0xFFFFFFFF).
Proof.
  intros Hp Hc. destruct (Z.ltb_spec previous current) as [Hlt | Hge].
  - split; [apply period_ticks_of_forward; assumption | lia].
  - destruct (Z.eq_dec previous current) as [-> | Hne].
    + assert (period_ticks_of current current = 0xFFFFFFFF) as Heq.
      { unfold period_ticks_of, U32.add, U32.sub, U32.wrap, U32.max, U32.modulus.
        unfold U32.in_range, U32.modulus in Hc.
        destruct (Z.gtb_spec current current); [lia |].
        rewrite (Z.mod_small (4294967295 - current)) by lia.
        rewrite Z.mod_small by lia. lia. }
      split; [| intros _; exact Heq]. rewrite Heq.
      unfold Spec.modular_delta. rewrite Z.sub_diag. reflexivity.
    + split; [| intros Heq; contradiction].
      rewrite period_ticks_of_wrapped by (try assumption; lia).
      symmetry. apply Z.mod_small.
      unfold Spec.modular_delta. change (2 ^ 32) with 4294967296.
      unfold U32.in_range, U32.modulus in *.
      assert (current - previous + 4294967296 = (current - previous) mod 4294967296) as <-.
      { apply Z.mod_unique with (q := -1); lia. }
      lia.
Qed.

Lemma period_ticks_of_characterised_witness :
  period_ticks_of 4294967000 200
  = (Spec.modular_delta 4294967000 200 - 1) mod 4294967296
  /\ (4294967000 = 200 -> period_ticks_of 4294967000 200 = 0xFFFFFFFF).
Proof.
  apply (period_ticks_of_characterised 4294967000 200);
    unfold U32.in_range, U32.modulus; lia.
Defined.

(** Elapsed whole periods do not change the angle: while the later
    timestamp stays below 2^32, adding [k] periods to it gives the same
    angle; a zero period gives the angle 0. *)
Theorem phase_angle_ignores_whole_periods (t1 t2 period k : Z) :
  0 <= t1 <= t2 -> 0 < period -> 0 <= k -> t2 + k * period < U32.modulus ->
  ThreePhase.calculate_phase_angle t1 (t2 + k * period) period
  = ThreePhase.calculate_phase_angle t1 t2 period
  /\ ThreePhase.calculate_phase_angle t1 t2 0 = F32.zero.
Proof.
  intros Ht Hp Hk Hmax. split; [| reflexivity].
  unfold ThreePhase.calculate_phase_angle.
  destruct (Z.eqb_spec period 0); [lia |].
  assert (ThreePhase.time_diff_of t1 (t2 + k * period) mod period
          = ThreePhase.time_diff_of t1 t2 mod period) as ->; [| reflexivity].
  assert (0 <= k * period) as Hkp by (apply Z.mul_nonneg_nonneg; lia).
  rewrite !time_diff_of_modular by (unfold U32.in_range; lia).
  unfold Spec.modular_delta. change (2 ^ 32) with U32.modulus.
  rewrite (Z.mod_small (t2 + k * period - t1)), (Z.mod_small (t2 - t1)) by lia.
  replace (t2 + k * period - t1) with (t2 - t1 + k * period) by lia.
  apply Z_mod_plus_full.
Qed.

Lemma phase_angle_ignores_whole_periods_witness :
  ThreePhase.calculate_phase_angle 1000 (7667 + 3 * 20000) 20000
  = ThreePhase.calculate_phase_angle 1000 7667 20000
  /\ ThreePhase.calculate_phase_angle 1000 7667 0 = F32.zero.
Proof.
  apply (phase_angle_ignores_whole_periods 1000 7667 20000 3);
    unfold U32.modulus; lia.
Defined.

(** ** The frequency test *)

Lemma SFleb_trans (a b c : spec_float) :
  SFleb a b = true -> SFleb b c = true -> SFleb a c = true.
Proof.
  unfold SFleb, SFcompare.
  destruct a as [[] | [] | | [] ma ea], b as [[] | [] | | [] mb eb],
           c as [[] | [] | | [] mc ec];
    try reflexivity; try discriminate;
    destruct (Z.compare_spec ea eb) as [Hab | Hab | Hab];
    destruct (Z.compare_spec eb ec) as [Hbc | Hbc | Hbc];
    destruct (Z.compare_spec ea ec) as [Hac | Hac | Hac];
    try reflexivity; try discriminate; try lia;
    change (Pos.compare_cont Eq) with Pos.compare;
    destruct (Pos.compare_spec ma mb) as [Hmab | Hmab | Hmab];
    destruct (Pos.compare_spec mb mc) as [Hmbc | Hmbc | Hmbc];
    destruct (Pos.compare_spec ma mc) as [Hmac | Hmac | Hmac];
    cbn; try reflexivity; try discriminate; try lia.
Qed.

(** Widening the tolerance never invalidates a frequency, and deviations of
    the same size above and below the expected frequency are judged
    alike. *)
Theorem validate_frequency_monotone_symmetric :
  (forall (freq expected : Z) (t t' : F32.float),
      validate_frequency freq expected t = true -> F32.leb t t' = true ->
      validate_frequency freq expected t' = true)
  /\ (forall (expected d : Z) (t : F32.float),
        0 <= d < expected -> expected + d < 2147483648 ->
        validate_frequency (expected + d) expected t
        = validate_frequency (expected - d) expected t).
Proof.
  split.
  - intros freq expected t t'. unfold validate_frequency.
    destruct ((freq =? 0) || (expected =? 0)); [discriminate |].
    intros H1 H2. exact (SFleb_trans _ _ _ H1 H2).
  - intros expected d t Hd Hmax.
    rewrite !validate_frequency_spec by (unfold I32.half; lia).
    unfold Spec.sample_valid, Spec.deviation_percent.
    replace (Z.abs (expected + d - expected)) with d by lia.
    replace (Z.abs (expected - d - expected)) with d by lia.
    destruct (Z.eqb_spec (expected + d) 0); [lia |].
    destruct (Z.eqb_spec (expected - d) 0); [lia |]. reflexivity.
Qed.

Lemma validate_frequency_monotone_symmetric_witness :
  validate_frequency 52 50 (F32.of_Z 10) = true
  /\ validate_frequency 52 50 (F32.of_Z 3) = validate_frequency 48 50 (F32.of_Z 3).
Proof.
  destruct validate_frequency_monotone_symmetric as [Hmono Hsym].
  split.
  - apply (Hmono 52 50 (F32.of_Z 5) (F32.of_Z 10)); reflexivity.
  - apply (Hsym 50 2 (F32.of_Z 3)); lia.
Defined.

(** * Further properties of the three-phase analysis *)

Section ThreePhaseMore.
Import ThreePhase.

(** [calculate_phase_angle] takes the difference of its two timestamps
    modulo 2^32, whatever their order; the differences in the two
    directions add up to 2^32 for distinct timestamps. *)
Theorem time_diff_is_modular_subtraction (t1 t2 : Z) :
  U32.in_range t1 -> U32.in_range t2 ->
  time_diff_of t1 t2 = (t2 - t1) mod 4294967296
  /\ U32.in_range (time_diff_of t1 t2)
  /\ (t1 <> t2 -> time_diff_of t1 t2 + time_diff_of t2 t1 = 4294967296).
Proof.
  intros H1 H2.
  rewrite (time_diff_of_modular t1 t2 H1 H2), (time_diff_of_modular t2 t1 H2 H1).
  unfold Spec.modular_delta. change (2 ^ 32) with 4294967296.
  unfold U32.in_range, U32.modulus in *.
  split; [reflexivity |]. split; [apply Z.mod_pos_bound; lia |].
  intros Hne. destruct (Z_lt_le_dec t1 t2) as [Hlt | Hge].
  - rewrite (Z.mod_small (t2 - t1)) by lia.
    assert (t1 - t2 + 4294967296 = (t1 - t2) mod 4294967296) as <-.
    { apply Z.mod_unique with (q := -1); lia. }
    lia.
  - rewrite (Z.mod_small (t1 - t2)) by lia.
    assert (t2 - t1 + 4294967296 = (t2 - t1) mod 4294967296) as <-.
    { apply Z.mod_unique with (q := -1); lia. }
    lia.
Qed.

Lemma time_diff_is_modular_subtraction_witness :
  time_diff_of 4294967000 200 = (200 - 4294967000) mod 4294967296
  /\ U32.in_range (time_diff_of 4294967000 200)
  /\ (4294967000 <> 200 -> time_diff_of 4294967000 200 + time_diff_of 200 4294967000
                           = 4294967296).
Proof.
  apply (time_diff_is_modular_subtraction 4294967000 200);
    unfold U32.in_range, U32.modulus; lia.
Defined.

(** [pc814_threephase_process] succeeds exactly when the three-phase handle
    is initialized and each of the three channels is initialized and holds
    a valid sample; otherwise it returns [PC814_ERROR] and leaves the
    handle, its previous relationship and verdict included, as it was. *)
Theorem threephase_process_succeeds_iff (tp : pc814_threephase_t)
    (a b c : pc814_handle_t) :
  (fst (pc814_threephase_process tp a b c) = PC814_OK
   <-> initialized tp = true /\ pc814_is_data_valid a = true
       /\ pc814_is_data_valid b = true /\ pc814_is_data_valid c = true)
  /\ (fst (pc814_threephase_process tp a b c) <> PC814_OK ->
      pc814_threephase_process tp a b c = (PC814_ERROR, tp)).
Proof.
  unfold pc814_threephase_process, pc814_read_data, pc814_is_data_valid.
  destruct (initialized tp); cbn [negb];
    [| split; [split; [discriminate | intros [H _]; discriminate] | reflexivity]].
  destruct (PC814.initialized a), (PC814.initialized b), (PC814.initialized c);
    cbn [negb];
    try (split; [split; [discriminate | intros (_ & H1 & H2 & H3); discriminate]
                | reflexivity]).
  destruct (PC814.valid (data a)), (PC814.valid (data b)), (PC814.valid (data c));
    cbn [negb fst];
    try (split; [split; [discriminate | intros (_ & H1 & H2 & H3); discriminate]
                | reflexivity]).
  split; [split; [intros _; repeat split | reflexivity] |].
  intros H. exfalso. apply H. reflexivity.
Qed.

Lemma threephase_process_succeeds_iff_witness :
  pc814_threephase_process (snd pc814_threephase_init)
    (channel_at 0) (pc814_reset (channel_at 5461)) (channel_at 10922)
  = (PC814_ERROR, snd pc814_threephase_init).
Proof.
  apply (threephase_process_succeeds_iff (snd pc814_threephase_init)
           (channel_at 0) (pc814_reset (channel_at 5461)) (channel_at 10922)).
  vm_compute. discriminate.
Defined.

(** A successful pass stores the three timestamps and frequencies, computes
    the three angles over the truncated mean of the three periods and marks
    the relationship valid. The verdict it stores is the classification of
    the new angles only if the relationship was already valid before the
    pass: on the first pass after init or reset it is Error. *)
Theorem threephase_process_result (tp : pc814_threephase_t)
    (a b c : pc814_handle_t) :
  initialized tp = true -> pc814_is_data_valid a = true ->
  pc814_is_data_valid b = true -> pc814_is_data_valid c = true ->
  let tp' := snd (pc814_threephase_process tp a b c) in
  let period :=
    ((period_us (data a) + period_us (data b)) mod 4294967296
     + period_us (data c)) mod 4294967296 / 3 in
  let ta := timestamp_us (data a) in
  let tb := timestamp_us (data b) in
  let tc := timestamp_us (data c) in
  valid (relationship tp') = true
  /\ phase_ab_angle (relationship tp') = calculate_phase_angle ta tb period
  /\ phase_bc_angle (relationship tp') = calculate_phase_angle tb tc period
  /\ phase_ca_angle (relationship tp') = calculate_phase_angle tc ta period
  /\ pc814_threephase_get_phase_frequency tp' PC814_PHASE_A = frequency_hz (data a)
  /\ pc814_threephase_get_phase_frequency tp' PC814_PHASE_B = frequency_hz (data b)
  /\ pc814_threephase_get_phase_frequency tp' PC814_PHASE_C = frequency_hz (data c)
  /\ last_update_time tp' = ta
  /\ sequence_tolerance tp' = sequence_tolerance tp
  /\ pc814_threephase_get_sequence tp'
     = (if valid (relationship tp)
        then Spec.classify (calculate_phase_angle ta tb period)
                           (calculate_phase_angle tb tc period)
                           (calculate_phase_angle tc ta period)
                           (sequence_tolerance tp)
        else PC814_SEQUENCE_ERROR).
Proof.
  unfold pc814_is_data_valid, pc814_threephase_process, pc814_read_data.
  intros -> Ha Hb Hc.
  destruct (PC814.initialized a); [| discriminate].
  destruct (PC814.initialized b); [| discriminate].
  destruct (PC814.initialized c); [| discriminate].
  cbn [negb] in *. rewrite Ha, Hb, Hc. cbn [negb snd].
  unfold pc814_threephase_get_phase_frequency, pc814_threephase_get_sequence,
    pc814_threephase_detect_sequence.
  cbn [relationship valid phase_ab_angle phase_bc_angle phase_ca_angle
       phase_a_freq phase_b_freq phase_c_freq last_update_time
       sequence_tolerance sequence negb].
  repeat (split; [reflexivity |]).
  destruct (valid (relationship tp)); cbn [negb]; [| reflexivity].
  unfold Spec.classify.
  rewrite !is_angle_120_near_120, !is_angle_240_near_240. reflexivity.
Qed.

Lemma threephase_process_result_witness :
  pc814_threephase_get_sequence
    (snd (pc814_threephase_process (snd pc814_threephase_init)
            (channel_at 0) (channel_at 5461) (channel_at 10922)))
  = PC814_SEQUENCE_ERROR
  /\ pc814_threephase_get_phase_frequency
       (snd (pc814_threephase_process (snd pc814_threephase_init)
               (channel_at 0) (channel_at 5461) (channel_at 10922)))
       PC814_PHASE_B = 61.
Proof.
  destruct (threephase_process_result (snd pc814_threephase_init)
              (channel_at 0) (channel_at 5461) (channel_at 10922)
              eq_refl eq_refl eq_refl eq_refl)
    as (_ & _ & _ & _ & _ & Hb & _ & _ & _ & Hseq).
  split; [exact Hseq | exact Hb].
Defined.

(** An angle the classifier counts as near 240 degrees it also counts as
    near 120 degrees: three angles of about 240 degrees each, a reversed
    system, are classified Correct. *)
Theorem angles_near_240_classified_correct (tp : pc814_threephase_t) :
  valid (relationship tp) = true ->
  is_angle_240 (phase_ab_angle (relationship tp)) (sequence_tolerance tp) = true ->
  is_angle_240 (phase_bc_angle (relationship tp)) (sequence_tolerance tp) = true ->
  is_angle_240 (phase_ca_angle (relationship tp)) (sequence_tolerance tp) = true ->
  is_angle_120 (phase_ab_angle (relationship tp)) (sequence_tolerance tp) = true
  /\ is_angle_120 (phase_bc_angle (relationship tp)) (sequence_tolerance tp) = true
  /\ is_angle_120 (phase_ca_angle (relationship tp)) (sequence_tolerance tp) = true
  /\ pc814_threephase_detect_sequence tp = PC814_SEQUENCE_ABC.
Proof.
  intros Hv Hab Hbc Hca.
  assert (H240 : forall a t, is_angle_240 a t = true -> is_angle_120 a t = true).
  { intros a t. unfold is_angle_240, is_angle_120. cbv zeta.
    intros H. apply andb_prop in H. destruct H as [H _].
    rewrite H. apply orb_true_r. }
  apply H240 in Hab, Hbc, Hca.
  repeat (split; [assumption |]).
  unfold pc814_threephase_detect_sequence. rewrite Hv. cbn [negb]. cbv zeta.
  rewrite Hab, Hbc, Hca. reflexivity.
Qed.

Lemma angles_near_240_classified_correct_witness :
  pc814_threephase_detect_sequence
    (mk_threephase PC814_SEQUENCE_UNKNOWN
       (mk_relationship 0 13333 26666 (F32.of_Z 240) (F32.of_Z 240) (F32.of_Z 240)
                        50 50 50 true)
       0 PC814_DEFAULT_SEQUENCE_TOLERANCE true)
  = PC814_SEQUENCE_ABC.
Proof.
  apply (angles_near_240_classified_correct
           (mk_threephase PC814_SEQUENCE_UNKNOWN
              (mk_relationship 0 13333 26666 (F32.of_Z 240) (F32.of_Z 240) (F32.of_Z 240)
                               50 50 50 true)
              0 PC814_DEFAULT_SEQUENCE_TOLERANCE true)); vm_compute; reflexivity.
Defined.

(** [pc814_threephase_get_swap_recommendation] succeeds exactly when the
    relationship is valid, never sets more than one flag, and sets none
    when it fails or when the stored verdict is Correct or Unknown. *)
Theorem swap_recommendation_at_most_one_flag (tp : pc814_threephase_t) :
  (fst (pc814_threephase_get_swap_recommendation tp) = PC814_OK
   <-> valid (relationship tp) = true)
  /\ (snd (pc814_threephase_get_swap_recommendation tp) = no_swap
      \/ snd (pc814_threephase_get_swap_recommendation tp) = only_swap_ab
      \/ snd (pc814_threephase_get_swap_recommendation tp) = only_swap_bc
      \/ snd (pc814_threephase_get_swap_recommendation tp) = only_swap_ca)
  /\ (fst (pc814_threephase_get_swap_recommendation tp) <> PC814_OK
      \/ sequence tp = PC814_SEQUENCE_ABC
      \/ sequence tp = PC814_SEQUENCE_UNKNOWN ->
      snd (pc814_threephase_get_swap_recommendation tp) = no_swap).
Proof.
  unfold pc814_threephase_get_swap_recommendation.
  destruct (valid (relationship tp)); cbn [negb fst snd].
  - destruct (sequence tp); cbn [fst snd];
      repeat match goal with
             | |- context [if ?b then _ else _] => destruct b; cbn [fst snd]
             end;
      (split; [split; reflexivity |]);
      (split; [unfold no_swap, only_swap_ab, only_swap_bc, only_swap_ca; tauto |]);
      intros [H | [H | H]]; try discriminate; try reflexivity;
      exfalso; apply H; reflexivity.
  - split; [split; discriminate |].
    split; [left; reflexivity | intros _; reflexivity].
Qed.

Lemma swap_recommendation_at_most_one_flag_witness :
  snd (pc814_threephase_get_swap_recommendation unmarked_120) = no_swap.
Proof.
  apply (swap_recommendation_at_most_one_flag unmarked_120).
  left. vm_compute. discriminate.
Defined.

Lemma substring_whole (s : string) (n : nat) :
  (String.length s <= n)%nat -> String.substring 0 n s = s.
Proof.
  revert n. induction s as [| c s IH]; intros n Hn.
  - destruct n; reflexivity.
  - destruct n; [cbn in Hn; lia |].
    cbn. f_equal. apply IH. cbn in Hn. lia.
Qed.

Lemma copy_message_whole (text : string) (max_len : Z) :
  64 <= max_len -> (String.length text <= 63)%nat -> copy_message text max_len = text.
Proof.
  intros Hlen Htext. unfold copy_message. apply substring_whole. lia.
Qed.

(** With a buffer of fewer than 64 bytes
    [pc814_threephase_get_correction_message] fails and writes nothing.
    With a larger one it always leaves one of six texts, complete and never
    cut short; it succeeds exactly when the relationship is valid, and
    reports the sequence correct exactly when moreover the stored verdict
    is Correct. The text for three simultaneous swaps is never produced. *)
Theorem correction_message_complete (tp : pc814_threephase_t) (max_len : Z) :
  (max_len < 64 ->
   pc814_threephase_get_correction_message tp max_len = (PC814_ERROR, None))
  /\ (64 <= max_len ->
      exists text : string,
        snd (pc814_threephase_get_correction_message tp max_len) = Some text
        /\ In text correction_messages
        /\ text <> "Error: All phases need correction - check connections"%string
        /\ (fst (pc814_threephase_get_correction_message tp max_len) = PC814_OK
            <-> valid (relationship tp) = true)
        /\ (text = "Phase sequence is CORRECT (ABC)"%string
            <-> valid (relationship tp) = true /\ sequence tp = PC814_SEQUENCE_ABC)
        /\ (text = "Error: Cannot determine phase correction"%string
            <-> valid (relationship tp) = false)).
Proof.
  split.
  - intros Hlt. unfold pc814_threephase_get_correction_message.
    apply Z.ltb_lt in Hlt. rewrite Hlt. reflexivity.
  - intros Hge. unfold pc814_threephase_get_correction_message.
    assert (Hnlt : (max_len <? 64) = false) by (apply Z.ltb_ge; lia).
    rewrite Hnlt.
    unfold pc814_threephase_get_swap_recommendation.
    destruct (valid (relationship tp)); cbn [negb].
    + destruct (sequence tp);
        repeat match goal with
               | |- context [if is_angle_120 ?a ?t && is_angle_120 ?b ?u then _ else _] =>
                   destruct (is_angle_120 a t && is_angle_120 b u)
               end;
        cbn [swap_ab swap_bc swap_ca andb fst snd];
        rewrite copy_message_whole by (try assumption; cbn; lia);
        eexists; (split; [reflexivity |]);
        (split; [unfold correction_messages; cbn [In]; tauto |]);
        (split; [discriminate |]);
        (split; [split; reflexivity |]);
        (split; split;
         try discriminate; try (intros [_ H]; discriminate);
         try (intros _; split; reflexivity)).
    + cbn [fst snd]. rewrite copy_message_whole by (try assumption; cbn; lia).
      eexists. split; [reflexivity |].
      split; [unfold correction_messages; cbn [In]; tauto |].
      split; [discriminate |].
      split; [split; discriminate |].
      split; split; try discriminate; try reflexivity.
      intros [H _]; discriminate.
Qed.

Lemma correction_message_complete_witness :
  pc814_threephase_get_correction_message reversed_example 10 = (PC814_ERROR, None)
  /\ exists text : string,
       snd (pc814_threephase_get_correction_message reversed_example 64) = Some text
       /\ In text correction_messages.
Proof.
  destruct (correction_message_complete reversed_example 10) as [Hshort _].
  destruct (correction_message_complete reversed_example 64) as [_ Hlong].
  split; [apply Hshort; lia |].
  destruct (Hlong ltac:(lia)) as (text & Htext & Hin & _).
  exists text. split; assumption.
Defined.

(** With a valid relationship [pc814_threephase_is_synchronized] holds
    exactly when the three stored frequencies are pairwise at most 1 Hz
    apart; without one it is false. *)
Theorem synchronized_iff_within_one_hertz (tp : pc814_threephase_t) :
  U32.in_range (phase_a_freq (relationship tp)) ->
  U32.in_range (phase_b_freq (relationship tp)) ->
  U32.in_range (phase_c_freq (relationship tp)) ->
  (pc814_threephase_is_synchronized tp = true
   <-> valid (relationship tp) = true
       /\ Z.abs (phase_a_freq (relationship tp) - phase_b_freq (relationship tp)) <= 1
       /\ Z.abs (phase_b_freq (relationship tp) - phase_c_freq (relationship tp)) <= 1
       /\ Z.abs (phase_c_freq (relationship tp) - phase_a_freq (relationship tp)) <= 1).
Proof.
  unfold U32.in_range, U32.modulus, pc814_threephase_is_synchronized.
  intros Ha Hb Hc.
  destruct (valid (relationship tp)); cbn [negb];
    [| split; [discriminate | intros [H _]; discriminate]].
  cbv zeta.
  set (fa := phase_a_freq (relationship tp)) in *.
  set (fb := phase_b_freq (relationship tp)) in *.
  set (fc := phase_c_freq (relationship tp)) in *.
  assert (Hsub : forall x y, 0 <= y <= x -> x < 4294967296 -> U32.sub x y = x - y).
  { intros x y Hxy Hx. unfold U32.sub, U32.wrap, U32.modulus.
    apply Z.mod_small. lia. }
  destruct (Z.gtb_spec fa fb), (Z.ltb_spec fa fb); try lia;
    repeat match goal with
           | |- context [?x >? ?y] => destruct (Z.gtb_spec x y)
           | |- context [?x <? ?y] => destruct (Z.ltb_spec x y)
           end; try lia;
    rewrite Hsub by lia; rewrite Z.leb_le; lia.
Qed.

Lemma synchronized_iff_within_one_hertz_witness :
  pc814_threephase_is_synchronized reversed_example = true
  <-> valid (relationship reversed_example) = true
      /\ Z.abs (50 - 50) <= 1 /\ Z.abs (50 - 50) <= 1 /\ Z.abs (50 - 50) <= 1.
Proof.
  apply (synchronized_iff_within_one_hertz reversed_example);
    unfold U32.in_range, U32.modulus; cbn; lia.
Defined.

(** [pc814_threephase_reset] discards the analysis and keeps the tolerance
    and the time of the last update: afterwards every query gives its
    no-data answer, and the next successful pass stores the verdict Error
    whatever the channels hold. *)
Theorem threephase_reset_discards_analysis (tp : pc814_threephase_t) :
  let tp' := pc814_threephase_reset tp in
  pc814_threephase_get_sequence tp' = PC814_SEQUENCE_UNKNOWN
  /\ pc814_threephase_is_sequence_correct tp' = false
  /\ pc814_threephase_detect_sequence tp' = PC814_SEQUENCE_ERROR
  /\ pc814_threephase_get_swap_recommendation tp' = (PC814_ERROR, no_swap)
  /\ pc814_threephase_is_synchronized tp' = false
  /\ pc814_threephase_get_imbalance tp' = F32.of_Z (-1)
  /\ (forall p q, pc814_threephase_get_phase_angle tp' p q = F32.zero)
  /\ (forall p, pc814_threephase_get_phase_frequency tp' p = 0)
  /\ sequence_tolerance tp' = sequence_tolerance tp
  /\ last_update_time tp' = last_update_time tp
  /\ initialized tp' = initialized tp
  /\ (forall a b c,
         fst (pc814_threephase_process tp' a b c) = PC814_OK ->
         pc814_threephase_get_sequence (snd (pc814_threephase_process tp' a b c))
         = PC814_SEQUENCE_ERROR).
Proof.
  cbv zeta. repeat split.
  intros a b c. unfold pc814_threephase_process, pc814_threephase_reset.
  cbn [initialized relationship valid zero_relationship sequence_tolerance].
  destruct (initialized tp); cbn [negb]; [| discriminate].
  destruct (pc814_read_data a) as [[] [da |]]; try discriminate;
    destruct (pc814_read_data b) as [[] [db |]]; try discriminate;
    destruct (pc814_read_data c) as [[] [dc |]]; try discriminate.
  destruct (PC814.valid da), (PC814.valid db), (PC814.valid dc); cbn [negb];
    try discriminate.
  intros _. reflexivity.
Qed.

Lemma threephase_reset_discards_analysis_witness :
  pc814_threephase_get_sequence
    (snd (pc814_threephase_process (pc814_threephase_reset reversed_example)
            (channel_at 0) (channel_at 5461) (channel_at 10922)))
  = PC814_SEQUENCE_ERROR.
Proof.
  apply (threephase_reset_discards_analysis reversed_example).
  reflexivity.
Defined.

Lemma detect_sequence_known (tp : pc814_threephase_t) :
  pc814_threephase_detect_sequence tp <> PC814_SEQUENCE_UNKNOWN.
Proof.
  unfold pc814_threephase_detect_sequence. cbv zeta.
  repeat match goal with
         | |- context [if ?b then _ else _] => destruct b
         end; discriminate.
Qed.

Lemma threephase_process_cases (tp : pc814_threephase_t) (a b c : pc814_handle_t) :
  pc814_threephase_process tp a b c = (PC814_ERROR, tp)
  \/ exists (seq : pc814_sequence_t) (rel : pc814_phase_relationship_t) (t : Z),
       seq <> PC814_SEQUENCE_UNKNOWN /\ valid rel = true
       /\ pc814_threephase_process tp a b c
          = (PC814_OK,
             mk_threephase seq rel t (sequence_tolerance tp) (initialized tp)).
Proof.
  unfold pc814_threephase_process.
  destruct (initialized tp); cbn [negb]; [| left; reflexivity].
  destruct (pc814_read_data a) as [[] [da |]]; try (left; reflexivity);
    destruct (pc814_read_data b) as [[] [db |]]; try (left; reflexivity);
    destruct (pc814_read_data c) as [[] [dc |]]; try (left; reflexivity).
  destruct (PC814.valid da), (PC814.valid db), (PC814.valid dc); cbn [negb];
    try (left; reflexivity).
  right. eexists. eexists. eexists.
  split; [apply detect_sequence_known |].
  split; [| reflexivity]. reflexivity.
Qed.

Lemma set_tolerance_cases (tp : pc814_threephase_t) (t : F32.float) :
  (pc814_threephase_set_tolerance tp t = tp)
  \/ (F32.gtb t F32.zero = true /\ F32.leb t (F32.of_Z 30) = true
      /\ pc814_threephase_set_tolerance tp t
         = mk_threephase (sequence tp) (relationship tp) (last_update_time tp)
                         t (initialized tp)).
Proof.
  unfold pc814_threephase_set_tolerance.
  destruct (F32.gtb t F32.zero) eqn:Hgt; [| left; reflexivity].
  destruct (F32.leb t (F32.of_Z 30)) eqn:Hle; [| left; reflexivity].
  right. repeat split.
Qed.

(** After init and any sequence of process, set-tolerance, reset and init
    calls the handle is initialized, the tolerance is greater than 0 and at
    most 30 degrees, and the stored verdict is Unknown exactly when no
    valid relationship is stored; a verdict Correct therefore always comes
    with a valid relationship. *)
Theorem threephase_invariant_after_any_calls (calls : list threephase_call) :
  let tp := run_threephase calls (snd pc814_threephase_init) in
  initialized tp = true
  /\ tolerance_ok tp
  /\ (valid (relationship tp) = false <-> sequence tp = PC814_SEQUENCE_UNKNOWN)
  /\ (pc814_threephase_is_sequence_correct tp = true ->
      valid (relationship tp) = true).
Proof.
  cbv zeta.
  set (inv := fun tp : pc814_threephase_t =>
                initialized tp = true /\ tolerance_ok tp
                /\ (valid (relationship tp) = false
                    <-> sequence tp = PC814_SEQUENCE_UNKNOWN)).
  assert (Hinit : inv (snd pc814_threephase_init)).
  { unfold inv, tolerance_ok. cbn. repeat split. }
  assert (Hstep : forall c tp, inv tp -> inv (apply_threephase_call c tp)).
  { intros c tp (Hi & Ht & Hs). destruct c as [| a b c | t |]; cbn [apply_threephase_call].
    - exact Hinit.
    - destruct (threephase_process_cases tp a b c)
        as [-> | (seq & rel & t & Hseq & Hrel & ->)]; cbn [snd].
      + exact (conj Hi (conj Ht Hs)).
      + unfold inv.
        cbn [initialized sequence_tolerance relationship sequence].
        rewrite Hrel. split; [exact Hi |]. split; [exact Ht |].
        split; [discriminate | intros H; contradiction].
    - destruct (set_tolerance_cases tp t) as [-> | (Hgt & Hle & ->)].
      + exact (conj Hi (conj Ht Hs)).
      + unfold inv.
        cbn [initialized sequence_tolerance relationship sequence].
        split; [exact Hi |]. split; [exact (conj Hgt Hle) | exact Hs].
    - unfold inv, pc814_threephase_reset.
      cbn [initialized sequence_tolerance relationship sequence valid zero_relationship].
      split; [exact Hi |]. split; [exact Ht |]. split; reflexivity. }
  assert (Hrun : forall tp, inv tp -> inv (run_threephase calls tp)).
  { unfold run_threephase. induction calls as [| c calls IH]; intros tp Htp.
    - exact Htp.
    - cbn [fold_left]. apply IH, Hstep, Htp. }
  destruct (Hrun _ Hinit) as (Hi & Ht & Hs).
  split; [exact Hi |]. split; [exact Ht |]. split; [exact Hs |].
  unfold pc814_threephase_is_sequence_correct.
  destruct (valid (relationship (run_threephase calls (snd pc814_threephase_init))));
    [reflexivity |].
  destruct Hs as [Hs _]. rewrite (Hs eq_refl). discriminate.
Qed.

Lemma threephase_invariant_after_any_calls_witness :
  valid (relationship
           (run_threephase
              [TpProcess (channel_at 0) (channel_at 5461) (channel_at 10922);
               TpProcess (channel_at 0) (channel_at 5461) (channel_at 10922)]
              (snd pc814_threephase_init))) = true.
Proof.
  apply (threephase_invariant_after_any_calls
           [TpProcess (channel_at 0) (channel_at 5461) (channel_at 10922);
            TpProcess (channel_at 0) (channel_at 5461) (channel_at 10922)]).
  vm_compute. reflexivity.
Defined.
End ThreePhaseMore.

(** * Accuracy of single-precision multiplication and division *)

(** ** Powers of two as rational numbers *)

Lemma pow2_pos (e : Z) : (0 < 2 ^ e)%Q.
Proof. apply Qpower_0_lt. reflexivity. Qed.

Lemma pow2_add (a b : Z) : (2 ^ (a + b) == 2 ^ a * 2 ^ b)%Q.
Proof. apply Qpower_plus. discriminate. Qed.

Lemma pow2_inject (k : Z) : 0 <= k -> (2 ^ k == inject_Z (2 ^ k))%Q.
Proof. intros Hk. rewrite (Zpower_Qpower 2 k Hk). reflexivity. Qed.

Lemma pow2_le (a b : Z) : a <= b -> (2 ^ a <= 2 ^ b)%Q.
Proof. intros H. apply Qpower_le_compat_l; [exact H | discriminate]. Qed.

Lemma pow2_lt_inv (a b : Z) : (2 ^ a < 2 ^ b)%Q -> a < b.
Proof. intros H. apply (Qpower_lt_compat_l_inv 2); [exact H | reflexivity]. Qed.

(** A mantissa of [d] binary digits lies between [2 ^ (d - 1)] and [2 ^ d]. *)
Lemma log2_bounds (m : Z) : 0 < m -> 2 ^ Z.log2 m <= m < 2 ^ (Z.log2 m + 1).
Proof.
  intros Hm. destruct (Z.log2_spec m Hm) as [H1 H2].
  rewrite <- Z.add_1_r in H2. lia.
Qed.

Lemma log2_unique' (m k : Z) : 0 <= k -> 2 ^ k <= m < 2 ^ (k + 1) -> Z.log2 m = k.
Proof. intros Hk H. apply Z.log2_unique; [exact Hk |]. rewrite <- Z.add_1_r. exact H. Qed.

(** ** Rounding in the normal range *)

(** What [binary_round_aux] returns for a mantissa of at least 24 digits
    whose value lies in the normal range: the mantissa cut to 24 digits, or
    its successor. *)
Lemma binary_round_aux_normal (sx : bool) (mx ex : Z) (lx : location) :
  23 <= Z.log2 mx ->
  -125 <= Z.log2 mx + 1 + ex <= 127 ->
  exists (m : positive) (e : Z),
    binary_round_aux F32.prec F32.emax sx mx ex lx = S754_finite sx m e
    /\ 8388608 <= Z.pos m < 16777216
    /\ -149 <= e <= 104
    /\ ex + (Z.log2 mx - 23) <= e
    /\ (Z.pos m * 2 ^ (e - (ex + (Z.log2 mx - 23))) = mx / 2 ^ (Z.log2 mx - 23)
        \/ Z.pos m * 2 ^ (e - (ex + (Z.log2 mx - 23)))
           = mx / 2 ^ (Z.log2 mx - 23) + 1).
Proof.
  intros Hlog HD.
  assert (Hmx : 0 < mx).
  { destruct (Z_lt_le_dec 0 mx) as [| Hle]; [assumption |].
    rewrite (Z.log2_nonpos mx Hle) in Hlog. lia. }
  set (n := Z.log2 mx - 23) in *.
  set (q := mx / 2 ^ n) in *.
  assert (Hn : 0 <= n) by (unfold n; lia).
  assert (Hq : Z.log2 q = 23 /\ 0 < q).
  { destruct (div_pow2_log2 mx n Hmx Hn) as [(Hlt & _) | (_ & Hpos & Hl)].
    - unfold n in Hlt. lia.
    - fold q in Hpos, Hl. unfold n in Hl. lia. }
  destruct Hq as [Hql Hqpos].
  assert (Hqb : 8388608 <= q < 16777216).
  { pose proof (log2_bounds q Hqpos) as H. rewrite Hql in H.
    change (2 ^ 23) with 8388608 in H. change (2 ^ (23 + 1)) with 16777216 in H.
    exact H. }
  unfold binary_round_aux.
  pose proof (shr_fexp_spec mx ex lx (Z.lt_le_incl _ _ Hmx)) as H1. cbv zeta in H1.
  destruct (shr_fexp F32.prec F32.emax mx ex lx) as [mrs1 e1].
  rewrite (Zdigits2_log2 mx Hmx) in H1.
  assert (Hfexp : fexp32 (Z.log2 mx + 1 + ex) - ex = n) by (unfold fexp32, n; lia).
  rewrite Hfexp in H1.
  assert (shr_m mrs1 = q /\ e1 = ex + n) as [Hm1 He1].
  { destruct H1 as [Hz Hp]. destruct (Z.eq_dec n 0) as [H0 | H0].
    - destruct Hz as (Ha & Hb & _); [lia |]. unfold q. rewrite H0, Z.pow_0_r, Z.div_1_r.
      split; [exact Ha | lia].
    - destruct Hp as (Ha & Hb); [lia |]. split; [exact Ha | exact Hb]. }
  clear H1.
  set (r := round_nearest_even (shr_m mrs1) (loc_of_shr_record mrs1)).
  pose proof (round_nearest_even_bounds (shr_m mrs1) (loc_of_shr_record mrs1)) as Hr.
  fold r in Hr. rewrite Hm1 in Hr.
  assert (Hrpos : 0 < r) by lia.
  pose proof (shr_fexp_spec r e1 loc_Exact (Z.lt_le_incl _ _ Hrpos)) as H2. cbv zeta in H2.
  destruct (shr_fexp F32.prec F32.emax r e1 loc_Exact) as [mrs2 e2].
  rewrite (Zdigits2_log2 r Hrpos) in H2.
  assert (He1r : -149 <= e1 <= 103) by (unfold n in He1; lia).
  destruct (Z_lt_le_dec r 16777216) as [Hsmall | Hbig].
  - (* the rounded mantissa has 24 digits *)
    assert (Hlr : Z.log2 r = 23) by (apply log2_unique'; [lia |]; cbn; lia).
    rewrite Hlr in H2.
    assert (Hn2 : fexp32 (23 + 1 + e1) - e1 = 0) by (unfold fexp32; lia).
    rewrite Hn2 in H2. destruct H2 as [(Ha & Hb & _) _]; [lia |]. subst e2. rewrite Ha.
    destruct r as [| pr | pr] eqn:Hreq; try lia.
    destruct (Z.leb_spec e1 (F32.emax - F32.prec)) as [_ | Hb1];
      [| unfold F32.emax, F32.prec in Hb1; lia].
    exists pr, e1. split; [reflexivity |]. split; [lia |]. split; [lia |].
    split; [lia |]. rewrite He1, Z.sub_diag, Z.pow_0_r, Z.mul_1_r. lia.
  - (* rounding up gave 2^24 *)
    assert (Hreq : r = 16777216) by lia.
    assert (Hlr : Z.log2 r = 24) by (rewrite Hreq; reflexivity).
    rewrite Hlr in H2.
    assert (Hn2 : fexp32 (24 + 1 + e1) - e1 = 1) by (unfold fexp32; lia).
    rewrite Hn2 in H2. destruct H2 as [_ (Ha & Hb)]; [lia |]. subst e2. rewrite Ha, Hreq.
    change (16777216 / 2 ^ 1) with 8388608.
    destruct (Z.leb_spec (e1 + 1) (F32.emax - F32.prec)) as [_ | Hb1];
      [| unfold F32.emax, F32.prec in Hb1; lia].
    exists 8388608%positive, (e1 + 1). split; [reflexivity |]. split; [lia |].
    split; [lia |]. split; [lia |].
    right. rewrite He1. replace (ex + n + 1 - (ex + n)) with 1 by lia.
    change (2 ^ 1) with 2. lia.
Qed.

Lemma value_finite (m : positive) (e : Z) :
  F32.value (S754_finite false m e) = (inject_Z (Z.pos m) * 2 ^ e)%Q.
Proof. reflexivity. Qed.

(** The rounding error of [binary_round_aux] in the normal range. *)
Lemma round_approximates (mx ex : Z) (lx : location) (exact : Q) :
  23 <= Z.log2 mx ->
  (inject_Z mx * 2 ^ ex <= exact)%Q ->
  (exact < inject_Z (mx + 1) * 2 ^ ex)%Q ->
  (2 ^ (-126) <= exact)%Q -> (exact < 2 ^ 127)%Q ->
  F32.approximates exact (binary_round_aux F32.prec F32.emax false mx ex lx).
Proof.
  intros Hlog Hlo Hhi Hmin Hmax.
  assert (Hmx : 0 < mx).
  { destruct (Z_lt_le_dec 0 mx) as [| Hle]; [assumption |].
    rewrite (Z.log2_nonpos mx Hle) in Hlog. lia. }
  pose proof (log2_bounds mx Hmx) as [Hb1 Hb2].
  pose proof (pow2_pos ex) as Hpex.
  assert (HD : -125 <= Z.log2 mx + 1 + ex <= 127).
  { split.
    - assert (2 ^ (-126) < 2 ^ (Z.log2 mx + 1 + ex))%Q as H; [| apply pow2_lt_inv in H; lia].
      apply Qle_lt_trans with exact; [exact Hmin |].
      apply Qlt_le_trans with (inject_Z (mx + 1) * 2 ^ ex)%Q; [exact Hhi |].
      rewrite pow2_add, (pow2_inject (Z.log2 mx + 1)) by lia.
      apply Qmult_le_compat_r; [| apply Qlt_le_weak; exact Hpex].
      rewrite <- Zle_Qle. lia.
    - assert (2 ^ (Z.log2 mx + ex) < 2 ^ 127)%Q as H; [| apply pow2_lt_inv in H; lia].
      apply Qle_lt_trans with exact; [| exact Hmax].
      apply Qle_trans with (inject_Z mx * 2 ^ ex)%Q; [| exact Hlo].
      rewrite pow2_add, (pow2_inject (Z.log2 mx)) by lia.
      apply Qmult_le_compat_r; [| apply Qlt_le_weak; exact Hpex].
      rewrite <- Zle_Qle. lia. }
  destruct (binary_round_aux_normal false mx ex lx Hlog HD)
    as (m & e & -> & Hm & He & HeE & Hval).
  set (n := Z.log2 mx - 23) in *.
  set (q := mx / 2 ^ n) in *.
  assert (Hn : 0 <= n) by (unfold n; lia).
  assert (Hpn : 0 < 2 ^ n) by (apply Z.pow_pos_nonneg; lia).
  assert (Hq : q * 2 ^ n <= mx < (q + 1) * 2 ^ n).
  { unfold q. pose proof (Z.div_mod mx (2 ^ n) ltac:(lia)) as Hdm.
    pose proof (Z.mod_pos_bound mx (2 ^ n) Hpn) as Hmod. nia. }
  assert (Hqb : 8388608 <= q).
  { unfold q. apply Z.div_le_lower_bound; [exact Hpn |].
    replace (Z.log2 mx) with (n + 23) in Hb1 by (unfold n; lia).
    rewrite Z.pow_add_r in Hb1 by lia. change (2 ^ 23) with 8388608 in Hb1. lia. }
  split.
  - exists m, e. repeat split; lia.
  - rewrite value_finite.
    set (U := (2 ^ (ex + n))%Q).
    assert (HU : (0 < U)%Q) by apply pow2_pos.
    assert (HV : (inject_Z (Z.pos m) * 2 ^ e == inject_Z (Z.pos m * 2 ^ (e - (ex + n))) * U)%Q).
    { rewrite inject_Z_mult, <- (pow2_inject (e - (ex + n))) by lia.
      unfold U. rewrite <- Qmult_assoc, <- pow2_add.
      replace (e - (ex + n) + (ex + n)) with e by lia. reflexivity. }
    assert (HXlo : (inject_Z q * U <= exact)%Q).
    { apply Qle_trans with (inject_Z mx * 2 ^ ex)%Q; [| exact Hlo].
      unfold U. rewrite (Z.add_comm ex n), pow2_add, (pow2_inject n Hn), Qmult_assoc.
      rewrite <- inject_Z_mult.
      apply Qmult_le_compat_r; [| apply Qlt_le_weak; exact Hpex].
      rewrite <- Zle_Qle. lia. }
    assert (HXhi : (exact <= inject_Z (q + 1) * U)%Q).
    { apply Qlt_le_weak. apply Qlt_le_trans with (inject_Z (mx + 1) * 2 ^ ex)%Q; [exact Hhi |].
      unfold U. rewrite (Z.add_comm ex n), pow2_add, (pow2_inject n Hn), Qmult_assoc.
      rewrite <- inject_Z_mult.
      apply Qmult_le_compat_r; [| apply Qlt_le_weak; exact Hpex].
      rewrite <- Zle_Qle. lia. }
    assert (Hq23 : (8388608 <= inject_Z q)%Q).
    { change 8388608%Q with (inject_Z 8388608). rewrite <- Zle_Qle. exact Hqb. }
    rewrite inject_Z_plus in HXhi. change (inject_Z 1) with 1%Q in HXhi.
    unfold F32.eps.
    destruct Hval as [Hv | Hv]; rewrite Hv in HV; rewrite HV;
      [| rewrite inject_Z_plus; change (inject_Z 1) with 1%Q];
      generalize dependent (inject_Z q); intros Qq; intros; split; nra.
Qed.

Lemma normal_value_bounds (m : positive) (e : Z) :
  8388608 <= Z.pos m < 16777216 ->
  (2 ^ (e + 23) <= inject_Z (Z.pos m) * 2 ^ e)%Q
  /\ (inject_Z (Z.pos m) * 2 ^ e < 2 ^ (e + 24))%Q.
Proof.
  intros Hm. pose proof (pow2_pos e) as He.
  rewrite (Z.add_comm e 23), (Z.add_comm e 24), !pow2_add.
  change (2 ^ 23)%Q with (inject_Z 8388608). change (2 ^ 24)%Q with (inject_Z 16777216).
  split.
  - apply Qmult_le_compat_r; [| apply Qlt_le_weak; exact He].
    rewrite <- Zle_Qle. lia.
  - apply Qmult_lt_compat_r; [exact He |]. rewrite <- Zlt_Qlt. lia.
Qed.

(** An integer below 2^24 is represented exactly. *)
Lemma of_Z_normal (z : Z) :
  0 < z < 16777216 ->
  F32.normal (F32.of_Z z) /\ (F32.value (F32.of_Z z) == inject_Z z)%Q.
Proof.
  intros Hz. destruct z as [| p | p]; try lia.
  unfold F32.of_Z, binary_normalize.
  pose proof (log2_bounds (Z.pos p) ltac:(lia)) as [Hb1 Hb2].
  assert (Hlog : 0 <= Z.log2 (Z.pos p) <= 23).
  { split; [apply Z.log2_nonneg |].
    destruct (Z_le_gt_dec (Z.log2 (Z.pos p)) 23) as [| Hgt]; [assumption |].
    assert (2 ^ 24 <= 2 ^ Z.log2 (Z.pos p)) by (apply Z.pow_le_mono_r; lia).
    change (2 ^ 24) with 16777216 in *. lia. }
  set (D := Z.log2 (Z.pos p) + 1 + 0).
  assert (HfD : fexp32 D = Z.log2 (Z.pos p) - 23) by (unfold fexp32, D; lia).
  destruct (binary_round_exact false p 0) as (mz & -> & Hmz).
  { cbv zeta. fold D. lia. }
  { cbv zeta. fold D. lia. }
  fold D in Hmz |- *. rewrite HfD in Hmz |- *.
  set (k := 23 - Z.log2 (Z.pos p)) in *.
  replace (0 - (Z.log2 (Z.pos p) - 23)) with k in Hmz by (unfold k; lia).
  replace (Z.log2 (Z.pos p) - 23) with (- k) by (unfold k; lia).
  assert (Hk : 0 <= k) by (unfold k; lia).
  assert (Hpk : 0 < 2 ^ k) by (apply Z.pow_pos_nonneg; lia).
  split.
  - exists mz, (- k). split; [reflexivity |]. split; [| unfold k; lia].
    rewrite Hmz.
    assert (2 ^ Z.log2 (Z.pos p) * 2 ^ k = 8388608) as H1.
    { rewrite <- Z.pow_add_r by lia. unfold k.
      replace (Z.log2 (Z.pos p) + (23 - Z.log2 (Z.pos p))) with 23 by lia. reflexivity. }
    assert (2 ^ (Z.log2 (Z.pos p) + 1) * 2 ^ k = 16777216) as H2.
    { rewrite <- Z.pow_add_r by lia. unfold k.
      replace (Z.log2 (Z.pos p) + 1 + (23 - Z.log2 (Z.pos p))) with 24 by lia. reflexivity. }
    nia.
  - rewrite value_finite, Hmz, inject_Z_mult, <- (pow2_inject k Hk), <- Qmult_assoc.
    rewrite <- pow2_add. replace (k + - k) with 0 by lia.
    change (2 ^ 0)%Q with 1%Q. apply Qmult_1_r.
Qed.

(** Multiplication of two normal numbers with a product in the normal
    range. *)
Lemma mul_approximates (x y : F32.float) :
  F32.normal x -> F32.normal y ->
  (2 ^ (-126) <= F32.value x * F32.value y)%Q ->
  (F32.value x * F32.value y < 2 ^ 127)%Q ->
  F32.approximates (F32.value x * F32.value y) (F32.mul x y).
Proof.
  intros (m1 & e1 & -> & Hm1 & He1) (m2 & e2 & -> & Hm2 & He2) Hmin Hmax.
  rewrite !value_finite in *.
  unfold F32.mul, SFmul. cbn [xorb].
  assert (Hexact : (inject_Z (Z.pos m1) * 2 ^ e1 * (inject_Z (Z.pos m2) * 2 ^ e2)
                    == inject_Z (Z.pos (m1 * m2)) * 2 ^ (e1 + e2))%Q).
  { rewrite Pos2Z.inj_mul, inject_Z_mult, pow2_add. ring. }
  apply round_approximates; try assumption.
  - apply Z.le_trans with (Z.log2 (8388608 * 8388608)); [cbn; lia |].
    apply Z.log2_le_mono. rewrite Pos2Z.inj_mul. nia.
  - rewrite Hexact. apply Qle_refl.
  - rewrite Hexact. apply Qmult_lt_compat_r; [apply pow2_pos |].
    rewrite <- Zlt_Qlt. lia.
Qed.

Lemma div_eucl_div_mod (a b : Z) : Z.div_eucl a b = (a / b, a mod b).
Proof. unfold Z.div, Z.modulo. destruct (Z.div_eucl a b). reflexivity. Qed.

Lemma div_core_normal (m1 : positive) (e1 : Z) (m2 : positive) (e2 : Z) :
  8388608 <= Z.pos m1 < 16777216 -> 8388608 <= Z.pos m2 < 16777216 ->
  -125 <= e1 - e2 ->
  SFdiv_core_binary F32.prec F32.emax (Z.pos m1) e1 (Z.pos m2) e2
  = (Z.pos m1 * 16777216 / Z.pos m2, e1 - e2 - 24,
     new_location (Z.pos m2) ((Z.pos m1 * 16777216) mod Z.pos m2)).
Proof.
  intros Hm1 Hm2 He. unfold SFdiv_core_binary.
  rewrite !Zdigits2_log2 by lia.
  assert (Hl1 : Z.log2 (Z.pos m1) = 23) by (apply log2_unique'; [lia |]; cbn; lia).
  assert (Hl2 : Z.log2 (Z.pos m2) = 23) by (apply log2_unique'; [lia |]; cbn; lia).
  rewrite Hl1, Hl2, fexp32_eq.
  assert (He' : Z.min (fexp32 (23 + 1 + e1 - (23 + 1 + e2))) (e1 - e2) = e1 - e2 - 24)
    by (unfold fexp32; lia).
  rewrite He'. replace (e1 - e2 - (e1 - e2 - 24)) with 24 by lia.
  rewrite Z.shiftl_mul_pow2 by lia. change (2 ^ 24) with 16777216.
  rewrite div_eucl_div_mod. reflexivity.
Qed.

(** Division of two normal numbers with a quotient in the normal range. *)
Lemma div_approximates (x y : F32.float) :
  F32.normal x -> F32.normal y ->
  (2 ^ (-100) <= F32.value x / F32.value y)%Q ->
  (F32.value x / F32.value y < 2 ^ 127)%Q ->
  F32.approximates (F32.value x / F32.value y) (F32.div x y).
Proof.
  intros (m1 & e1 & -> & Hm1 & He1) (m2 & e2 & -> & Hm2 & He2) Hmin Hmax.
  rewrite !value_finite in *.
  set (X := (inject_Z (Z.pos m1) * 2 ^ e1)%Q) in *.
  set (Y := (inject_Z (Z.pos m2) * 2 ^ e2)%Q) in *.
  destruct (normal_value_bounds m1 e1 Hm1) as [HX1 HX2]. fold X in HX1, HX2.
  destruct (normal_value_bounds m2 e2 Hm2) as [HY1 HY2]. fold Y in HY1, HY2.
  pose proof (pow2_pos (e2 + 23)) as HpY.
  assert (HYpos : (0 < Y)%Q) by lra.
  assert (HXY : (X / Y * Y == X)%Q) by (field; lra).
  assert (He : -125 <= e1 - e2).
  { assert (2 ^ (-100 + (e2 + 23)) < 2 ^ (e1 + 24))%Q as H;
      [| apply pow2_lt_inv in H; lia].
    rewrite pow2_add.
    apply Qle_lt_trans with (X / Y * Y)%Q; [| rewrite HXY; exact HX2].
    apply Qle_trans with (X / Y * 2 ^ (e2 + 23))%Q.
    - apply Qmult_le_compat_r; [exact Hmin | lra].
    - apply Qmult_le_l; [| exact HY1].
      apply Qlt_le_trans with (2 ^ (-100))%Q; [apply pow2_pos | exact Hmin]. }
  unfold F32.div, SFdiv. rewrite (div_core_normal m1 e1 m2 e2 Hm1 Hm2 He). cbn [xorb].
  set (q := Z.pos m1 * 16777216 / Z.pos m2).
  assert (Hq : q * Z.pos m2 <= Z.pos m1 * 16777216 < (q + 1) * Z.pos m2).
  { unfold q. pose proof (Z.div_mod (Z.pos m1 * 16777216) (Z.pos m2) ltac:(lia)) as Hdm.
    pose proof (Z.mod_pos_bound (Z.pos m1 * 16777216) (Z.pos m2) ltac:(lia)) as Hmod.
    nia. }
  assert (Hq23 : 8388608 <= q).
  { unfold q. apply Z.div_le_lower_bound; lia. }
  (* X / Y, scaled by the divisor's mantissa *)
  assert (Hscale : (X / Y * inject_Z (Z.pos m2)
                    == inject_Z (Z.pos m1 * 16777216) * 2 ^ (e1 - e2 - 24))%Q).
  { assert (Hp2 : (2 ^ e1 == 2 ^ (e1 - e2 - 24) * 2 ^ 24 * 2 ^ e2)%Q).
    { rewrite <- !pow2_add. replace (e1 - e2 - 24 + 24 + e2) with e1 by lia. reflexivity. }
    assert (H2 : (~ 2 ^ e2 == 0)%Q) by (pose proof (pow2_pos e2); lra).
    assert (Hm2' : (~ inject_Z (Z.pos m2) == 0)%Q).
    { change 0%Q with (inject_Z 0). rewrite inject_Z_injective. lia. }
    unfold X, Y. rewrite inject_Z_mult, Hp2.
    change (inject_Z 16777216) with (2 ^ 24)%Q. field. split; assumption. }
  pose proof (pow2_pos (e1 - e2 - 24)) as Hpe.
  assert (Hm2pos : (0 < inject_Z (Z.pos m2))%Q).
  { change 0%Q with (inject_Z 0). rewrite <- Zlt_Qlt. lia. }
  apply round_approximates; try assumption.
  - apply Z.le_trans with (Z.log2 8388608); [cbn; lia |].
    apply Z.log2_le_mono. exact Hq23.
  - apply (Qmult_le_r _ _ (inject_Z (Z.pos m2)) Hm2pos). rewrite Hscale.
    rewrite (Qmult_comm (inject_Z q)), <- Qmult_assoc, <- inject_Z_mult.
    rewrite (Qmult_comm (2 ^ (e1 - e2 - 24)) (inject_Z (q * Z.pos m2))).
    apply Qmult_le_compat_r; [| lra]. rewrite <- Zle_Qle. lia.
  - apply (Qmult_lt_r _ _ (inject_Z (Z.pos m2)) Hm2pos). rewrite Hscale.
    rewrite (Qmult_comm (inject_Z (q + 1))), <- Qmult_assoc, <- inject_Z_mult.
    rewrite (Qmult_comm (2 ^ (e1 - e2 - 24)) (inject_Z ((q + 1) * Z.pos m2))).
    apply Qmult_lt_compat_r; [exact Hpe |]. rewrite <- Zlt_Qlt. lia.
  - apply Qle_trans with (2 ^ (-100))%Q; [apply pow2_le; lia | exact Hmin].
Qed.

(** Two normal numbers are compared as the rationals they stand for. *)
Lemma compare_normal (x y : F32.float) :
  F32.normal x -> F32.normal y ->
  SFcompare x y = Some (F32.value x ?= F32.value y)%Q.
Proof.
  intros (m1 & e1 & -> & Hm1 & He1) (m2 & e2 & -> & Hm2 & He2).
  rewrite !value_finite. cbn [SFcompare]. f_equal.
  destruct (normal_value_bounds m1 e1 Hm1) as [HX1 HX2].
  destruct (normal_value_bounds m2 e2 Hm2) as [HY1 HY2].
  destruct (Z.compare_spec e1 e2) as [-> | Hlt | Hgt].
  - change (Pos.compare_cont Eq m1 m2) with (Pos.compare m1 m2).
    pose proof (pow2_pos e2) as Hp.
    destruct (Pos.compare_spec m1 m2) as [-> | Hm | Hm]; symmetry.
    + apply Qeq_alt. reflexivity.
    + apply Qlt_alt. apply Qmult_lt_compat_r; [exact Hp |]. rewrite <- Zlt_Qlt. lia.
    + apply Qgt_alt. apply Qmult_lt_compat_r; [exact Hp |]. rewrite <- Zlt_Qlt. lia.
  - symmetry. apply Qlt_alt.
    apply Qlt_le_trans with (2 ^ (e1 + 24))%Q; [exact HX2 |].
    apply Qle_trans with (2 ^ (e2 + 23))%Q; [apply pow2_le; lia | exact HY1].
  - symmetry. apply Qgt_alt.
    apply Qlt_le_trans with (2 ^ (e2 + 24))%Q; [exact HY2 |].
    apply Qle_trans with (2 ^ (e1 + 23))%Q; [apply pow2_le; lia | exact HX1].
Qed.

Lemma ltb_normal (x y : F32.float) :
  F32.normal x -> F32.normal y -> (F32.value x < F32.value y)%Q ->
  F32.ltb x y = true /\ F32.geb x y = false.
Proof.
  intros Hx Hy Hlt. unfold F32.ltb, F32.geb, SFltb, SFleb.
  rewrite (compare_normal x y Hx Hy), (compare_normal y x Hy Hx).
  pose proof (proj1 (Qlt_alt _ _) Hlt) as ->.
  pose proof (proj1 (Qgt_alt _ _) Hlt) as ->.
  split; reflexivity.
Qed.

(** The integral part of a normal number. *)
Lemma truncate_normal (x : F32.float) :
  F32.normal x -> F32.truncate x = Some (Qfloor (F32.value x)).
Proof.
  intros (m & e & -> & Hm & He). rewrite value_finite. cbn [F32.truncate cond_Zopp].
  f_equal. destruct (Z.leb_spec 0 e) as [Hnn | Hneg].
  - rewrite (pow2_inject e Hnn), <- inject_Z_mult, Qfloor_Z. reflexivity.
  - rewrite Zdiv_Qdiv. apply Qfloor_comp.
    assert (0 <= - e) as Hne by lia.
    rewrite <- (pow2_inject (- e) Hne), Qpower_opp.
    generalize (pow2_pos e). generalize (2 ^ e)%Q. intros P HP. field. lra.
Qed.

Lemma period_bounds (line_freq : Z) :
  0 < line_freq <= 1000000 -> 1 <= 1000000 / line_freq <= 1000000.
Proof.
  intros Hf. split.
  - apply Z.div_le_lower_bound; lia.
  - apply Z.div_le_upper_bound; lia.
Qed.

Lemma approximates_eq (exact exact' : Q) (x : F32.float) :
  (exact == exact')%Q -> F32.approximates exact x -> F32.approximates exact' x.
Proof.
  intros Heq [Hn Hb]. split; [exact Hn |]. rewrite <- Heq. exact Hb.
Qed.

(** The angle of a time offset within the period, and the offset computed
    back from it, in rational arithmetic: [a1], [a2], [b1] and [b2] are the
    four rounded intermediate results. *)
Lemma round_trip_chain (t p : Z) (a1 a2 b1 b2 : F32.float) :
  1 <= t < p -> p <= 1000000 ->
  a1 = F32.div (F32.of_Z t) (F32.of_Z p) ->
  a2 = F32.mul a1 (F32.of_Z 360) ->
  b1 = F32.div a2 (F32.of_Z 360) ->
  b2 = F32.mul b1 (F32.of_Z p) ->
  F32.normal a2
  /\ (F32.value a2 < 360)%Q
  /\ (inject_Z (360 * t) / inject_Z p * ((1 - F32.eps) * (1 - F32.eps)) <= F32.value a2)%Q
  /\ (F32.value a2 <= inject_Z (360 * t) / inject_Z p * ((1 + F32.eps) * (1 + F32.eps)))%Q
  /\ F32.normal b2
  /\ (inject_Z t - 1 <= F32.value b2)%Q
  /\ (F32.value b2 < inject_Z t + 1)%Q.
Proof.
  intros Ht Hp Ha1 Ha2 Hb1 Hb2.
  destruct (of_Z_normal t ltac:(lia)) as [HnT HvT].
  destruct (of_Z_normal p ltac:(lia)) as [HnP HvP].
  destruct (of_Z_normal 360 ltac:(lia)) as [HnC HvC].
  change (inject_Z 360) with 360%Q in HvC.
  set (qt := inject_Z t) in *. set (qp := inject_Z p) in *.
  assert (Hqt : (1 <= qt)%Q).
  { change 1%Q with (inject_Z 1). unfold qt. rewrite <- Zle_Qle. lia. }
  assert (Hqtp : (qt + 1 <= qp)%Q).
  { change 1%Q with (inject_Z 1). unfold qt, qp. rewrite <- inject_Z_plus, <- Zle_Qle. lia. }
  assert (Hqp : (qp <= 1000000)%Q).
  { change 1000000%Q with (inject_Z 1000000). unfold qp. rewrite <- Zle_Qle. lia. }
  set (r := (qt / qp)%Q).
  assert (Hrp : (r * qp == qt)%Q) by (unfold r; field; lra).
  assert (Hr1 : (1 # 1000000 <= r)%Q) by nra.
  assert (Hr2 : (r <= 1 - (1 # 1000000))%Q) by nra.
  assert (Hc100 : (2 ^ (-100) <= 1 # 2000000000)%Q) by (vm_compute; discriminate).
  assert (Hc127 : (2000000000 <= 2 ^ 127)%Q) by (vm_compute; discriminate).
  assert (Hc126 : (2 ^ (-126) <= 2 ^ (-100))%Q) by (apply pow2_le; lia).
  (* a1 *)
  assert (HA1 : F32.approximates r a1).
  { rewrite Ha1.
    apply (approximates_eq (F32.value (F32.of_Z t) / F32.value (F32.of_Z p)));
      [rewrite HvT, HvP; reflexivity |].
    apply div_approximates; try assumption; rewrite HvT, HvP; fold r; lra. }
  destruct HA1 as [HnA1 HA1]. unfold F32.eps in *.
  set (A1 := F32.value a1) in *.
  (* a2 *)
  assert (HA2 : F32.approximates (A1 * 360) a2).
  { rewrite Ha2.
    apply (approximates_eq (F32.value a1 * F32.value (F32.of_Z 360)));
      [rewrite HvC; reflexivity |].
    apply mul_approximates; try assumption; rewrite HvC; fold A1; lra. }
  destruct HA2 as [HnA2 HA2]. unfold F32.eps in *.
  set (A2 := F32.value a2) in *.
  (* b1 *)
  set (A2d := (A2 / 360)%Q).
  assert (HA2d : (A2d * 360 == A2)%Q) by (unfold A2d; field).
  assert (HB1 : F32.approximates A2d b1).
  { rewrite Hb1.
    apply (approximates_eq (F32.value a2 / F32.value (F32.of_Z 360)));
      [rewrite HvC; reflexivity |].
    apply div_approximates; try assumption; rewrite HvC; fold A2; fold A2d; lra. }
  destruct HB1 as [HnB1 HB1]. unfold F32.eps in *.
  set (B1 := F32.value b1) in *.
  assert (HB1r : (r * ((1 - (1 # 8388608)) * (1 - (1 # 8388608)) * (1 - (1 # 8388608)))
                  <= B1)%Q) by lra.
  assert (HB1s : (B1 <= r * ((1 + (1 # 8388608)) * (1 + (1 # 8388608)) * (1 + (1 # 8388608))))%Q)
    by lra.
  (* b2 *)
  assert (HBp1 : (qt * ((1 - (1 # 8388608)) * (1 - (1 # 8388608)) * (1 - (1 # 8388608)))
                  <= B1 * qp)%Q).
  { rewrite <- Hrp. nra. }
  assert (HBp2 : (B1 * qp
                  <= qt * ((1 + (1 # 8388608)) * (1 + (1 # 8388608)) * (1 + (1 # 8388608))))%Q).
  { rewrite <- Hrp. nra. }
  assert (HB2 : F32.approximates (B1 * qp) b2).
  { rewrite Hb2.
    apply (approximates_eq (F32.value b1 * F32.value (F32.of_Z p)));
      [rewrite HvP; reflexivity |].
    apply mul_approximates; try assumption; rewrite HvP; fold B1; lra. }
  destruct HB2 as [HnB2 HB2]. unfold F32.eps in *.
  set (B2 := F32.value b2) in *.
  set (Bp := (B1 * qp)%Q) in *.
  split; [exact HnA2 |]. split; [lra |].
  assert (H360 : (inject_Z (360 * t) / qp == 360 * r)%Q).
  { rewrite inject_Z_mult. fold qt. change (inject_Z 360) with 360%Q. unfold r. field. lra. }
  rewrite H360.
  split; [lra |]. split; [lra |]. split; [exact HnB2 |].
  split; lra.
Qed.

(** ** Multiplication by one *)

Lemma shr_1_even (m : Z) :
  0 <= m -> shr_1 (Build_shr_record (2 * m) false false) = Build_shr_record m false false.
Proof. destruct m as [| p | p]; try lia; reflexivity. Qed.

Lemma pow2_xO (p : positive) : 2 ^ Z.pos p~0 = 2 ^ Z.pos p * 2 ^ Z.pos p.
Proof.
  replace (Z.pos p~0) with (Z.pos p + Z.pos p) by lia.
  apply Z.pow_add_r; lia.
Qed.

Lemma pow2_xI (p : positive) : 2 ^ Z.pos p~1 = 2 * (2 ^ Z.pos p * 2 ^ Z.pos p).
Proof.
  replace (Z.pos p~1) with (1 + (Z.pos p + Z.pos p)) by lia.
  rewrite !Z.pow_add_r by lia. reflexivity.
Qed.

Lemma iter_shr_1_exact (p : positive) :
  forall m : Z,
    0 <= m ->
    iter_pos shr_1 p (Build_shr_record (m * 2 ^ Z.pos p) false false)
    = Build_shr_record m false false.
Proof.
  induction p as [p IH | p IH |]; intros m Hm; cbn [iter_pos].
  - assert (0 < 2 ^ Z.pos p) as Hpow by (apply Z.pow_pos_nonneg; lia).
    rewrite pow2_xI.
    replace (m * (2 * (2 ^ Z.pos p * 2 ^ Z.pos p)))
      with (2 * (m * 2 ^ Z.pos p * 2 ^ Z.pos p)) by ring.
    rewrite shr_1_even by nia. rewrite IH by nia. apply IH. exact Hm.
  - assert (0 < 2 ^ Z.pos p) as Hpow by (apply Z.pow_pos_nonneg; lia).
    rewrite pow2_xO, Z.mul_assoc.
    rewrite IH by nia. apply IH. exact Hm.
  - change (2 ^ 1) with 2. rewrite Z.mul_comm. apply shr_1_even. exact Hm.
Qed.

(** The product of 1 and a normal number is that number. *)
Lemma mul_one_normal (x : F32.float) :
  F32.normal x -> F32.mul (S754_finite false 8388608 (-23)) x = x.
Proof.
  intros (m & e & -> & Hm & He). unfold F32.mul, SFmul. cbn [xorb].
  assert (Hl : Z.log2 (Z.pos m) = 23) by (apply log2_unique'; [lia |]; cbn; lia).
  assert (Hl2 : Z.log2 (Z.pos (8388608 * m)) = 46).
  { apply log2_unique'; [lia |]. rewrite Pos2Z.inj_mul.
    change (2 ^ 46) with 70368744177664. change (2 ^ (46 + 1)) with 140737488355328. lia. }
  unfold binary_round_aux, shr_fexp.
  rewrite (Zdigits2_log2 (Z.pos (8388608 * m))) by lia. rewrite Hl2, fexp32_eq.
  replace (fexp32 (46 + 1 + (-23 + e)) - (-23 + e)) with 23 by (unfold fexp32; lia).
  cbn [shr shr_record_of_loc].
  replace (Z.pos (8388608 * m)) with (Z.pos m * 2 ^ 23)
    by (change (2 ^ 23) with 8388608; lia).
  rewrite iter_shr_1_exact by lia.
  cbn [shr_m loc_of_shr_record round_nearest_even].
  rewrite (Zdigits2_log2 (Z.pos m)) by lia. rewrite Hl, fexp32_eq.
  replace (fexp32 (23 + 1 + (-23 + e + 23)) - (-23 + e + 23)) with 0
    by (unfold fexp32; lia).
  cbn [shr shr_record_of_loc shr_m].
  destruct (Z.leb_spec (-23 + e + 23) (F32.emax - F32.prec)) as [_ | Hb];
    [| unfold F32.emax, F32.prec in Hb; lia].
  f_equal. lia.
Qed.

(** A whole number of microseconds up to 2^24 survives the conversion to
    single precision and back. *)
Lemma to_u32_of_Z (z : Z) : 0 <= z < 16777216 -> F32.to_u32 (F32.of_Z z) = Some z.
Proof.
  intros Hz. destruct (Z.eq_dec z 0) as [-> | Hnz]; [reflexivity |].
  destruct (of_Z_normal z ltac:(lia)) as [Hn Hv].
  unfold F32.to_u32. rewrite (truncate_normal _ Hn), (Qfloor_comp _ _ Hv), Qfloor_Z.
  destruct (Z.leb_spec 0 z) as [_ | Hneg]; [| lia].
  destruct (Z.ltb_spec z 4294967296) as [_ | Hbig]; [| lia]. reflexivity.
Qed.

(** * The frequency test against the exact inequality *)

Lemma leb_normal (x y : F32.float) :
  F32.normal x -> F32.normal y ->
  (F32.leb x y = true <-> (F32.value x <= F32.value y)%Q).
Proof.
  intros Hx Hy. unfold F32.leb, SFleb. rewrite (compare_normal x y Hx Hy).
  rewrite Qle_alt.
  destruct (F32.value x ?= F32.value y)%Q; split; intros H;
    try reflexivity; try discriminate.
  exfalso. apply H. reflexivity.
Qed.

(** The deviation the source computes, for two different frequencies:
    a normal number within two roundings of the exact percentage. *)
Lemma deviation_percent_approximates (freq expected : Z) :
  0 < freq <= 1000000 -> 0 < expected < 16777216 -> freq <> expected ->
  F32.normal (Spec.deviation_percent freq expected)
  /\ (Spec.deviation_percent_exact freq expected * ((1 - F32.eps) * (1 - F32.eps))
      <= F32.value (Spec.deviation_percent freq expected))%Q
  /\ (F32.value (Spec.deviation_percent freq expected)
      <= Spec.deviation_percent_exact freq expected * ((1 + F32.eps) * (1 + F32.eps)))%Q.
Proof.
  intros Hf He Hne.
  unfold Spec.deviation_percent, Spec.deviation_percent_exact.
  set (d := Z.abs (freq - expected)).
  assert (Hd : 0 < d < 16777216) by (unfold d; lia).
  destruct (of_Z_normal d Hd) as [HnD HvD].
  destruct (of_Z_normal expected He) as [HnE HvE].
  destruct (of_Z_normal 100 ltac:(lia)) as [HnC HvC].
  change (inject_Z 100) with 100%Q in HvC.
  set (qd := inject_Z d) in *. set (qe := inject_Z expected) in *.
  assert (Hqd1 : (1 <= qd)%Q).
  { change 1%Q with (inject_Z 1). unfold qd. rewrite <- Zle_Qle. lia. }
  assert (Hqd2 : (qd <= 16777216)%Q).
  { change 16777216%Q with (inject_Z 16777216). unfold qd. rewrite <- Zle_Qle. lia. }
  assert (Hqe1 : (1 <= qe)%Q).
  { change 1%Q with (inject_Z 1). unfold qe. rewrite <- Zle_Qle. lia. }
  assert (Hqe2 : (qe <= 16777216)%Q).
  { change 16777216%Q with (inject_Z 16777216). unfold qe. rewrite <- Zle_Qle. lia. }
  set (r := (qd / qe)%Q).
  assert (Hre : (r * qe == qd)%Q) by (unfold r; field; lra).
  assert (Hr1 : (1 # 16777216 <= r)%Q) by nra.
  assert (Hr2 : (r <= 16777216)%Q) by nra.
  assert (Hc100 : (2 ^ (-100) <= 1 # 2000000000)%Q) by (vm_compute; discriminate).
  assert (Hc127 : (20000000000 <= 2 ^ 127)%Q) by (vm_compute; discriminate).
  assert (Hc126 : (2 ^ (-126) <= 2 ^ (-100))%Q) by (apply pow2_le; lia).
  assert (HQ : F32.approximates r (F32.div (F32.of_Z d) (F32.of_Z expected))).
  { apply (approximates_eq (F32.value (F32.of_Z d) / F32.value (F32.of_Z expected)));
      [rewrite HvD, HvE; reflexivity |].
    apply div_approximates; try assumption; rewrite HvD, HvE; fold r; lra. }
  destruct HQ as [HnQ HQ]. unfold F32.eps in *.
  set (a := F32.div (F32.of_Z d) (F32.of_Z expected)) in *.
  set (A := F32.value a) in *.
  assert (HP : F32.approximates (A * 100) (F32.mul a (F32.of_Z 100))).
  { apply (approximates_eq (F32.value a * F32.value (F32.of_Z 100)));
      [rewrite HvC; reflexivity |].
    apply mul_approximates; try assumption; rewrite HvC; fold A; lra. }
  destruct HP as [HnP HP]. unfold F32.eps in *.
  split; [exact HnP |]. split; lra.
Qed.

Lemma normal_value_pos (x : F32.float) : F32.normal x -> (0 < F32.value x)%Q.
Proof.
  intros (m & e & -> & Hm & _). rewrite value_finite.
  destruct (normal_value_bounds m e Hm) as [H _].
  pose proof (pow2_pos (e + 23)). lra.
Qed.

(** The flag against the exact percentage: a deviation below the tolerance
    by the margin of two roundings is accepted, and an accepted deviation
    exceeds the tolerance by no more than that margin. *)
Lemma validate_frequency_margin (freq expected : Z) (tolerance : F32.float) :
  0 < freq <= 1000000 -> 0 < expected < 16777216 -> F32.normal tolerance ->
  ((Spec.deviation_percent_exact freq expected * ((1 + F32.eps) * (1 + F32.eps))
    <= F32.value tolerance)%Q ->
   validate_frequency freq expected tolerance = true)
  /\ (validate_frequency freq expected tolerance = true ->
      (Spec.deviation_percent_exact freq expected * ((1 - F32.eps) * (1 - F32.eps))
       <= F32.value tolerance)%Q).
Proof.
  intros Hf He Ht.
  rewrite validate_frequency_spec by (unfold I32.half; lia).
  unfold Spec.sample_valid.
  destruct (Z.eqb_spec freq 0) as [| _]; [lia |].
  destruct (Z.eqb_spec expected 0) as [| _]; [lia |]. cbn [negb andb].
  pose proof (normal_value_pos tolerance Ht) as Htpos.
  destruct (Z.eq_dec freq expected) as [-> | Hne].
  - (* no deviation *)
    assert (Hzero : Spec.deviation_percent expected expected = F32.zero).
    { unfold Spec.deviation_percent. rewrite Z.sub_diag.
      destruct (of_Z_normal expected He) as [(me & ee & -> & _) _]. reflexivity. }
    assert (Hexact : (Spec.deviation_percent_exact expected expected == 0)%Q).
    { unfold Spec.deviation_percent_exact. rewrite Z.sub_diag.
      change (inject_Z (Z.abs 0)) with 0%Q. unfold Qdiv. rewrite !Qmult_0_l. reflexivity. }
    rewrite Hzero, Hexact.
    destruct Ht as (mt & et & -> & _).
    split; intros _; [reflexivity |].
    rewrite Qmult_0_l. apply Qlt_le_weak. exact Htpos.
  - destruct (deviation_percent_approximates freq expected Hf He Hne) as (Hn & Hlo & Hhi).
    rewrite (leb_normal _ _ Hn Ht).
    split; intros H.
    + apply Qle_trans with (1 := Hhi). exact H.
    + apply Qle_trans with (2 := H). exact Hlo.
Qed.

Lemma deviation_percent_exact_nonneg (freq expected : Z) :
  0 < expected -> (0 <= Spec.deviation_percent_exact freq expected)%Q.
Proof.
  intros He. unfold Spec.deviation_percent_exact.
  assert (0 <= inject_Z (Z.abs (freq - expected)))%Q as Hd.
  { change 0%Q with (inject_Z 0). rewrite <- Zle_Qle. lia. }
  assert (0 < inject_Z expected)%Q as Hq.
  { change 0%Q with (inject_Z 0). rewrite <- Zlt_Qlt. lia. }
  apply Qmult_le_0_compat; [| discriminate].
  apply Qle_shift_div_l; [exact Hq |]. rewrite Qmult_0_l. exact Hd.
Qed.

(** C6 (amended). The sample is valid exactly when both frequencies are
    non-zero and [|frequency - expected| / expected * 100 <= tolerance] as
    single precision computes it, the quotient and the product each rounded.
    Against the exact percentage this test is right up to the margin of the
    two roundings: a deviation with [deviation * (1 + 2^-23)^2 <= tolerance]
    is valid, a valid deviation has [deviation * (1 - 2^-23)^2 <= tolerance],
    and outside that margin the flag is the exact inequality. The flag of
    every sample a capture call produces is that value; with 50 Hz expected
    and 5% tolerance, 52 Hz (4%) is valid and 54 Hz (8%) is not. *)
Theorem C6_sample_valid_within_rounding_margin :
  (forall (freq expected : Z) (tolerance : F32.float),
      0 <= freq <= 1000000 -> 0 <= expected < 2147483648 ->
      validate_frequency freq expected tolerance
      = Spec.sample_valid freq expected tolerance)
  /\ (forall (freq expected : Z) (tolerance : F32.float),
        0 < freq <= 1000000 -> 0 < expected < 16777216 -> F32.normal tolerance ->
        ((Spec.deviation_percent_exact freq expected * ((1 + F32.eps) * (1 + F32.eps))
          <= F32.value tolerance)%Q ->
         validate_frequency freq expected tolerance = true)
        /\ (validate_frequency freq expected tolerance = true ->
            (Spec.deviation_percent_exact freq expected * ((1 - F32.eps) * (1 - F32.eps))
             <= F32.value tolerance)%Q)
        /\ ((Spec.deviation_percent_exact freq expected * ((1 + F32.eps) * (1 + F32.eps))
             <= F32.value tolerance)%Q
            \/ (F32.value tolerance
                < Spec.deviation_percent_exact freq expected
                  * ((1 - F32.eps) * (1 - F32.eps)))%Q ->
            validate_frequency freq expected tolerance
            = Spec.sample_valid_exact freq expected (F32.value tolerance)))
  /\ (forall (dm : data_model) (h : pc814_handle_t) (hw : port_readings)
             (r : capture_result),
        config_ok h ->
        pc814_process_capture dm h hw = Returns r ->
        status r = PC814_OK -> last_capture_value h <> 0 ->
        valid (data (handle r))
        = Spec.sample_valid (frequency_hz (data (handle r)))
                            (expected_frequency h) (frequency_tolerance h))
  /\ (Spec.deviation_percent_exact 52 50 == 4)%Q
  /\ validate_frequency 52 50 (F32.of_Z 5) = true
  /\ (Spec.deviation_percent_exact 54 50 == 8)%Q
  /\ validate_frequency 54 50 (F32.of_Z 5) = false.
Proof.
  split; [| split; [| split; [| repeat split; reflexivity]]].
  - intros freq expected tolerance Hf He.
    apply validate_frequency_spec; unfold I32.half; lia.
  - intros freq expected tolerance Hf He Ht.
    destruct (validate_frequency_margin freq expected tolerance Hf He Ht) as [Hin Hout].
    split; [exact Hin |]. split; [exact Hout |].
    pose proof (deviation_percent_exact_nonneg freq expected ltac:(lia)) as Hnn.
    unfold Spec.sample_valid_exact.
    destruct (Z.eqb_spec freq 0) as [| _]; [lia |].
    destruct (Z.eqb_spec expected 0) as [| _]; [lia |]. cbn [negb andb].
    unfold F32.eps in *.
    intros [Hinside | Houtside].
    + rewrite (Hin Hinside). symmetry. apply Qle_bool_iff. lra.
    + destruct (validate_frequency freq expected tolerance) eqn:Hv.
      * specialize (Hout eq_refl). lra.
      * symmetry. apply not_true_is_false. intros Hle.
        apply Qle_bool_iff in Hle. lra.
  - intros dm h hw r Hok Hr Hs Hl.
    destruct (process_capture_sample dm h hw r Hr Hs Hl)
      as (Hp & _ & Hfreq & Hvalid & _).
    rewrite Hvalid, Hfreq. apply validate_frequency_spec.
    + unfold I32.half. split.
      * apply Z.div_pos; lia.
      * apply Z.div_lt_upper_bound; lia.
    + destruct Hok as ([He | He] & _); rewrite He; unfold I32.half; lia.
Qed.

Lemma C6_sample_valid_within_rounding_margin_witness :
  validate_frequency 49 50 (F32.of_Z 5) = Spec.sample_valid 49 50 (F32.of_Z 5)
  /\ validate_frequency 52 50 (F32.of_Z 5)
     = Spec.sample_valid_exact 52 50 (F32.value (F32.of_Z 5))
  /\ exists r1 r2 : capture_result,
       pc814_process_capture ILP32 fresh_handle (mains_reading 1) = Returns r1
       /\ pc814_process_capture ILP32 (handle r1) (mains_reading 2) = Returns r2
       /\ valid (data (handle r2))
          = Spec.sample_valid (frequency_hz (data (handle r2)))
                              (expected_frequency (handle r1))
                              (frequency_tolerance (handle r1)).
Proof.
  destruct C6_sample_valid_within_rounding_margin as (Hv & Hm & Hs & _).
  split; [apply Hv; lia |]. split.
  - destruct (Hm 52 50 (F32.of_Z 5)) as (_ & _ & Hagree); [lia | lia | |].
    + exists 10485760%positive, (-21). repeat split; lia.
    + apply Hagree. left. vm_compute. discriminate.
  - eexists. eexists. split; [vm_compute; reflexivity |].
    split; [vm_compute; reflexivity |].
    apply (Hs ILP32 _ (mains_reading 2)).
    + unfold config_ok. cbn. repeat split. left. reflexivity.
    + vm_compute. reflexivity.
    + reflexivity.
    + cbn. discriminate.
Defined.

(** C6 (where the claim fails). 51 Hz against an expected 60 Hz deviates by
    exactly 15%, within a tolerance of 15% as the claim reads; the source
    computes 15.00000095 and marks the sample invalid, also end to end: both
    settings are accepted by the setters and a period of 19600 microseconds
    gives the frequency 51 Hz. *)
Theorem C6_boundary_deviation_marked_invalid :
  (Spec.deviation_percent_exact 51 60 == 15)%Q
  /\ (F32.value (F32.of_Z 15) == 15)%Q
  /\ Spec.sample_valid_exact 51 60 (F32.value (F32.of_Z 15)) = true
  /\ validate_frequency 51 60 (F32.of_Z 15) = false
  /\ exists h : pc814_handle_t,
       run ILP32
           [SetExpectedFrequency 60; SetFrequencyTolerance (F32.of_Z 15);
            ProcessCapture (mk_readings 1000 100000 0);
            ProcessCapture (mk_readings 2960 100000 19600)]
           fresh_handle = Returns h
       /\ expected_frequency h = 60
       /\ frequency_tolerance h = F32.of_Z 15
       /\ period_us (data h) = 19600
       /\ frequency_hz (data h) = 51
       /\ valid (data h) = false.
Proof.
  split; [reflexivity |]. split; [reflexivity |].
  split; [reflexivity |]. split; [reflexivity |].
  eexists. split; [vm_compute; reflexivity |].
  repeat (split; [reflexivity |]). reflexivity.
Qed.

(** * Phase angle and time offset *)

Lemma normalize_phase_in_range (fuel : nat) (phase : F32.float) :
  (0 < fuel)%nat ->
  F32.geb phase (F32.of_Z 360) = false -> F32.ltb phase F32.zero = false ->
  normalize_phase fuel phase = Some phase.
Proof.
  intros Hfuel Hge Hlt. destruct fuel as [| fuel]; [lia |].
  unfold normalize_phase. cbn [reduce_phase]. rewrite Hge.
  cbn [raise_phase]. rewrite Hlt. reflexivity.
Qed.

Lemma reduce_phase_stuck (phase : F32.float) :
  F32.geb phase (F32.of_Z 360) = true -> F32.sub phase (F32.of_Z 360) = phase ->
  forall fuel : nat, reduce_phase fuel phase = None.
Proof.
  intros Hge Hsub fuel. induction fuel as [| fuel IH]; [reflexivity |].
  cbn [reduce_phase]. rewrite Hge, Hsub. exact IH.
Qed.

Lemma negative_below_360 (phase : F32.float) :
  F32.ltb phase F32.zero = true -> F32.geb phase (F32.of_Z 360) = false.
Proof.
  destruct phase as [s | s | | s m e]; try discriminate.
  - destruct s; [reflexivity | discriminate].
  - destruct s; [reflexivity | discriminate].
Qed.

(** [pc814_calc_phase_angle] returns 0 degrees, without dividing, for a
    line frequency of 0 and for every line frequency above 1 MHz, whose
    period in whole microseconds is 0; [pc814_calc_time_for_phase] returns
    0 for a line frequency of 0. *)
Theorem phase_functions_guard_zero_period (fuel : nat) (t line_freq : Z)
    (phase : F32.float) :
  (line_freq = 0 \/ 1000000 < line_freq ->
   pc814_calc_phase_angle fuel t line_freq = Some F32.zero)
  /\ pc814_calc_time_for_phase fuel phase 0 = Some (Some 0).
Proof.
  split; [| reflexivity].
  intros [-> | Hbig]; [reflexivity |].
  unfold pc814_calc_phase_angle.
  destruct (Z.eqb_spec line_freq 0) as [| _]; [reflexivity |].
  rewrite Z.div_small by lia. reflexivity.
Qed.

Lemma phase_functions_guard_zero_period_witness :
  pc814_calc_phase_angle 0 5000 2000000 = Some F32.zero.
Proof.
  apply (phase_functions_guard_zero_period 0 5000 2000000 F32.zero).
  right. lia.
Defined.

(** For every line frequency from 1 Hz to 1 MHz and every time offset
    within one period, [pc814_calc_phase_angle] returns
    [(offset / period) * 360] rounded twice, without entering its loops;
    the angle lies from 0 up to, not including, 360 degrees and within a
    relative error of [(1 + 2^-23)^2] of the exact angle; and
    [pc814_calc_time_for_phase] turns the angle back into the offset or
    into the offset less one microsecond. *)
Theorem phase_round_trip_within_period (fuel : nat) (line_freq t : Z) :
  0 < line_freq <= 1000000 ->
  0 <= t < 1000000 / line_freq ->
  (0 < fuel)%nat ->
  exists angle : F32.float,
    pc814_calc_phase_angle fuel t line_freq = Some angle
    /\ angle = F32.mul (F32.div (F32.of_Z t) (F32.of_Z (1000000 / line_freq)))
                       (F32.of_Z 360)
    /\ F32.geb angle F32.zero = true
    /\ F32.ltb angle (F32.of_Z 360) = true
    /\ (inject_Z (360 * t) / inject_Z (1000000 / line_freq)
        * ((1 - F32.eps) * (1 - F32.eps)) <= F32.value angle)%Q
    /\ (F32.value angle
        <= inject_Z (360 * t) / inject_Z (1000000 / line_freq)
           * ((1 + F32.eps) * (1 + F32.eps)))%Q
    /\ exists back : Z,
         pc814_calc_time_for_phase fuel angle line_freq = Some (Some back)
         /\ t - 1 <= back <= t.
Proof.
  intros Hf Ht Hfuel.
  pose proof (period_bounds line_freq Hf) as Hp.
  set (p := 1000000 / line_freq) in *.
  assert (Hf0 : (line_freq =? 0) = false) by (apply Z.eqb_neq; lia).
  assert (Hp0 : (p =? 0) = false) by (apply Z.eqb_neq; lia).
  destruct (of_Z_normal p ltac:(lia)) as [HnP HvP].
  destruct (of_Z_normal 360 ltac:(lia)) as [HnC HvC].
  change (inject_Z 360) with 360%Q in HvC.
  unfold pc814_calc_phase_angle, pc814_calc_time_for_phase.
  rewrite Hf0. cbv zeta. fold p. rewrite Hp0.
  destruct (Z.eq_dec t 0) as [-> | Ht0].
  - (* offset 0 *)
    destruct HnP as (mp & ep & HP & _). rewrite HP.
    change (F32.mul (F32.div (F32.of_Z 0) (S754_finite false mp ep)) (F32.of_Z 360))
      with F32.zero.
    assert (Hnorm : normalize_phase fuel F32.zero = Some F32.zero)
      by (apply normalize_phase_in_range; [exact Hfuel | reflexivity | reflexivity]).
    rewrite Hnorm.
    exists F32.zero. split; [reflexivity |]. split; [reflexivity |].
    split; [reflexivity |]. split; [reflexivity |].
    change (inject_Z (360 * 0)) with 0%Q. change (F32.value F32.zero) with 0%Q.
    split; [unfold Qdiv; rewrite !Qmult_0_l; apply Qle_refl |].
    split; [unfold Qdiv; rewrite !Qmult_0_l; apply Qle_refl |].
    rewrite Hnorm. exists 0. split; [reflexivity | lia].
  - (* a positive offset *)
    set (a1 := F32.div (F32.of_Z t) (F32.of_Z p)).
    set (a2 := F32.mul a1 (F32.of_Z 360)).
    set (b1 := F32.div a2 (F32.of_Z 360)).
    set (b2 := F32.mul b1 (F32.of_Z p)).
    destruct (round_trip_chain t p a1 a2 b1 b2 ltac:(lia) ltac:(lia)
                eq_refl eq_refl eq_refl eq_refl)
      as (HnA2 & Hlt & Hlo & Hhi & HnB2 & Hb2lo & Hb2hi).
    assert (Hlt' : (F32.value a2 < F32.value (F32.of_Z 360))%Q) by (rewrite HvC; exact Hlt).
    destruct (ltb_normal a2 (F32.of_Z 360) HnA2 HnC Hlt') as [Hltb Hgeb].
    assert (Hsign : F32.geb a2 F32.zero = true /\ F32.ltb a2 F32.zero = false).
    { destruct HnA2 as (m & e & -> & _). split; reflexivity. }
    destruct Hsign as [Hge0 Hlt0].
    assert (Hnorm : normalize_phase fuel a2 = Some a2)
      by (apply normalize_phase_in_range; assumption).
    rewrite Hnorm.
    exists a2. split; [reflexivity |]. split; [reflexivity |].
    split; [exact Hge0 |]. split; [exact Hltb |].
    split; [exact Hlo |]. split; [exact Hhi |].
    rewrite Hnorm. fold b1. fold b2. unfold F32.to_u32. rewrite (truncate_normal b2 HnB2).
    set (back := Qfloor (F32.value b2)).
    assert (Hback : t - 1 <= back <= t).
    { split.
      - replace (t - 1) with (Qfloor (inject_Z t - 1)).
        + apply Qfloor_resp_le. exact Hb2lo.
        + change 1%Q with (inject_Z 1). unfold Qminus. rewrite <- inject_Z_opp.
          rewrite <- inject_Z_plus. apply Qfloor_Z.
      - assert (inject_Z back < inject_Z (t + 1))%Q as H.
        { apply Qle_lt_trans with (F32.value b2); [apply Qfloor_le |].
          rewrite inject_Z_plus. exact Hb2hi. }
        rewrite <- Zlt_Qlt in H. lia. }
    exists back.
    destruct (Z.leb_spec 0 back) as [_ | Hneg]; [| lia].
    destruct (Z.ltb_spec back 4294967296) as [_ | Hbig]; [| lia].
    split; [reflexivity | exact Hback].
Qed.

Lemma phase_round_trip_within_period_witness :
  exists angle : F32.float,
    pc814_calc_phase_angle 1 5000 50 = Some angle
    /\ F32.ltb angle (F32.of_Z 360) = true
    /\ exists back : Z,
         pc814_calc_time_for_phase 1 angle 50 = Some (Some back)
         /\ 5000 - 1 <= back <= 5000.
Proof.
  destruct (phase_round_trip_within_period 1 50 5000)
    as (angle & Hangle & _ & _ & Hlt & _ & _ & Hback).
  - lia.
  - split; [lia | reflexivity].
  - lia.
  - exists angle. split; [exact Hangle |]. split; [exact Hlt | exact Hback].
Defined.

(** The loop [while (phase >= 360.0f) phase -= 360.0f] does not end for a
    phase so large that subtracting 360 leaves it unchanged in single
    precision: for such a phase [pc814_calc_time_for_phase] returns for no
    amount of fuel, and neither does [pc814_calc_phase_angle] for a time
    offset and line frequency that give such a phase. *)
Theorem phase_normalisation_never_ends (phase : F32.float) :
  F32.geb phase (F32.of_Z 360) = true ->
  F32.sub phase (F32.of_Z 360) = phase ->
  (forall (fuel : nat) (line_freq : Z),
      line_freq <> 0 -> pc814_calc_time_for_phase fuel phase line_freq = None)
  /\ (forall (fuel : nat) (t line_freq : Z),
        line_freq <> 0 -> 1000000 / line_freq <> 0 ->
        F32.mul (F32.div (F32.of_Z t) (F32.of_Z (1000000 / line_freq))) (F32.of_Z 360)
        = phase ->
        pc814_calc_phase_angle fuel t line_freq = None).
Proof.
  intros Hge Hsub.
  pose proof (reduce_phase_stuck phase Hge Hsub) as Hstuck.
  split.
  - intros fuel f Hf. unfold pc814_calc_time_for_phase, normalize_phase.
    destruct (Z.eqb_spec f 0) as [| _]; [contradiction |].
    rewrite Hstuck. reflexivity.
  - intros fuel t f Hf Hp Hphase. unfold pc814_calc_phase_angle, normalize_phase.
    destruct (Z.eqb_spec f 0) as [| _]; [contradiction |].
    cbv zeta. destruct (Z.eqb_spec (1000000 / f) 0) as [| _]; [contradiction |].
    rewrite Hphase, Hstuck. reflexivity.
Qed.

Lemma phase_normalisation_never_ends_witness :
  (forall fuel : nat,
      pc814_calc_time_for_phase fuel (F32.of_Z 8640000000) 50 = None)
  /\ (forall fuel : nat, pc814_calc_phase_angle fuel 24000000 1000000 = None).
Proof.
  destruct (phase_normalisation_never_ends (F32.of_Z 8640000000))
    as [Htime Hangle]; [vm_compute; reflexivity | vm_compute; reflexivity |].
  split.
  - intros fuel. apply Htime. lia.
  - intros fuel. apply Hangle; [lia | vm_compute; discriminate | vm_compute; reflexivity].
Defined.

(** A negative phase so small that adding 360 gives exactly 360 in single
    precision is turned by [pc814_calc_time_for_phase] into the whole
    period [1000000 / line_freq], not into an offset within the period. *)
Theorem tiny_negative_phase_gives_whole_period (fuel : nat) (phase : F32.float)
    (line_freq : Z) :
  (2 <= fuel)%nat -> 0 < line_freq < 4294967296 ->
  F32.ltb phase F32.zero = true ->
  F32.add phase (F32.of_Z 360) = F32.of_Z 360 ->
  pc814_calc_time_for_phase fuel phase line_freq = Some (Some (1000000 / line_freq)).
Proof.
  intros Hfuel Hf Hneg Hadd.
  assert (Hnorm : normalize_phase fuel phase = Some (F32.of_Z 360)).
  { destruct fuel as [| [| fuel]]; try lia.
    unfold normalize_phase. cbn [reduce_phase].
    rewrite (negative_below_360 phase Hneg).
    cbn [raise_phase]. rewrite Hneg, Hadd. reflexivity. }
  assert (Hp : 0 <= 1000000 / line_freq <= 1000000).
  { split; [apply Z.div_pos; lia | apply Z.div_le_upper_bound; lia]. }
  unfold pc814_calc_time_for_phase. rewrite Hnorm.
  destruct (Z.eqb_spec line_freq 0) as [| _]; [lia |].
  cbv zeta.
  change (F32.div (F32.of_Z 360) (F32.of_Z 360)) with (S754_finite false 8388608 (-23)).
  destruct (Z.eq_dec (1000000 / line_freq) 0) as [-> | Hnz]; [reflexivity |].
  destruct (of_Z_normal (1000000 / line_freq) ltac:(lia)) as [Hn _].
  rewrite (mul_one_normal _ Hn), to_u32_of_Z by lia. reflexivity.
Qed.

Lemma tiny_negative_phase_gives_whole_period_witness :
  pc814_calc_time_for_phase 2 (F32.div (F32.of_Z (-1)) (F32.of_Z 1000000000)) 50
  = Some (Some (1000000 / 50)).
Proof.
  apply (tiny_negative_phase_gives_whole_period 2
           (F32.div (F32.of_Z (-1)) (F32.of_Z 1000000000)) 50);
    [lia | lia | vm_compute; reflexivity | vm_compute; reflexivity].
Defined.

(** * The range of the three-phase angles *)

(** The angle [(d / p) * 360] of a time difference below the period, as
    both [pc814_calc_phase_angle] and [calculate_phase_angle] compute it. *)
Lemma scaled_angle_in_range (d p : Z) :
  0 <= d < p -> p <= 1000000 ->
  let angle := F32.mul (F32.div (F32.of_Z d) (F32.of_Z p)) (F32.of_Z 360) in
  F32.geb angle (F32.of_Z 360) = false
  /\ F32.ltb angle F32.zero = false
  /\ F32.geb angle F32.zero = true
  /\ F32.ltb angle (F32.of_Z 360) = true
  /\ (inject_Z (360 * d) / inject_Z p * ((1 - F32.eps) * (1 - F32.eps))
      <= F32.value angle)%Q
  /\ (F32.value angle
      <= inject_Z (360 * d) / inject_Z p * ((1 + F32.eps) * (1 + F32.eps)))%Q.
Proof.
  intros Hd Hp angle.
  destruct (Z.eq_dec d 0) as [-> | Hd0].
  - destruct (of_Z_normal p ltac:(lia)) as [(mp & ep & HP & _) _].
    assert (Hz : angle = F32.zero) by (unfold angle; rewrite HP; reflexivity).
    rewrite Hz. repeat (split; [reflexivity |]).
    change (inject_Z (360 * 0)) with 0%Q. change (F32.value F32.zero) with 0%Q.
    split; unfold Qdiv; rewrite !Qmult_0_l; apply Qle_refl.
  - destruct (round_trip_chain d p _ angle _ _ ltac:(lia) Hp eq_refl eq_refl eq_refl eq_refl)
      as (Hn & Hlt & Hlo & Hhi & _).
    destruct (of_Z_normal 360 ltac:(lia)) as [HnC HvC].
    change (inject_Z 360) with 360%Q in HvC.
    assert (Hlt' : (F32.value angle < F32.value (F32.of_Z 360))%Q)
      by (rewrite HvC; exact Hlt).
    destruct (ltb_normal angle (F32.of_Z 360) Hn HnC Hlt') as [Hltb Hgeb].
    split; [exact Hgeb |].
    assert (Hsign : F32.ltb angle F32.zero = false /\ F32.geb angle F32.zero = true).
    { destruct Hn as (m & e & -> & _). split; reflexivity. }
    destruct Hsign as [Hs1 Hs2].
    repeat (split; [assumption |]). exact Hhi.
Qed.

Section ThreePhaseAngles.
Import ThreePhase.

Lemma calculate_phase_angle_in_range (t1 t2 period : Z) :
  0 < period <= 1000000 ->
  calculate_phase_angle t1 t2 period
  = F32.mul (F32.div (F32.of_Z (time_diff_of t1 t2 mod period)) (F32.of_Z period))
            (F32.of_Z 360)
  /\ F32.geb (calculate_phase_angle t1 t2 period) F32.zero = true
  /\ F32.ltb (calculate_phase_angle t1 t2 period) (F32.of_Z 360) = true
  /\ (inject_Z (360 * (time_diff_of t1 t2 mod period)) / inject_Z period
      * ((1 - F32.eps) * (1 - F32.eps))
      <= F32.value (calculate_phase_angle t1 t2 period))%Q
  /\ (F32.value (calculate_phase_angle t1 t2 period)
      <= inject_Z (360 * (time_diff_of t1 t2 mod period)) / inject_Z period
         * ((1 + F32.eps) * (1 + F32.eps)))%Q.
Proof.
  intros Hp.
  destruct (scaled_angle_in_range (time_diff_of t1 t2 mod period) period
              (Z.mod_pos_bound (time_diff_of t1 t2) period ltac:(lia)) ltac:(lia))
    as (H1 & H2 & H3 & H4 & H5 & H6).
  assert (Heq : calculate_phase_angle t1 t2 period
                = F32.mul (F32.div (F32.of_Z (time_diff_of t1 t2 mod period))
                                   (F32.of_Z period)) (F32.of_Z 360)).
  { unfold calculate_phase_angle.
    destruct (Z.eqb_spec period 0) as [| _]; [lia |]. cbv zeta.
    rewrite H1, H2. reflexivity. }
  rewrite Heq. repeat (split; [first [reflexivity | assumption] |]). exact H6.
Qed.

Lemma process_angles_in_range (tp : pc814_threephase_t) (a b c : pc814_handle_t) :
  fst (pc814_threephase_process tp a b c) = PC814_OK ->
  (PC814.valid (data a) = true -> 1 <= period_us (data a) <= 1000000) ->
  (PC814.valid (data b) = true -> 1 <= period_us (data b) <= 1000000) ->
  (PC814.valid (data c) = true -> 1 <= period_us (data c) <= 1000000) ->
  let rel := relationship (snd (pc814_threephase_process tp a b c)) in
  F32.geb (phase_ab_angle rel) F32.zero = true
  /\ F32.ltb (phase_ab_angle rel) (F32.of_Z 360) = true
  /\ F32.geb (phase_bc_angle rel) F32.zero = true
  /\ F32.ltb (phase_bc_angle rel) (F32.of_Z 360) = true
  /\ F32.geb (phase_ca_angle rel) F32.zero = true
  /\ F32.ltb (phase_ca_angle rel) (F32.of_Z 360) = true.
Proof.
  intros Hok Ha Hb Hc. revert Hok.
  unfold pc814_threephase_process, pc814_read_data.
  destruct (initialized tp); cbn [negb]; [| discriminate].
  destruct (PC814.initialized a); cbn [negb]; [| discriminate].
  destruct (PC814.initialized b); cbn [negb]; [| discriminate].
  destruct (PC814.initialized c); cbn [negb]; [| discriminate].
  destruct (PC814.valid (data a)); cbn [negb]; [| discriminate].
  destruct (PC814.valid (data b)); cbn [negb]; [| discriminate].
  destruct (PC814.valid (data c)); cbn [negb]; [| discriminate].
  specialize (Ha eq_refl). specialize (Hb eq_refl). specialize (Hc eq_refl).
  intros _. cbn [snd relationship phase_ab_angle phase_bc_angle phase_ca_angle].
  set (avg := U32.add (U32.add (period_us (data a)) (period_us (data b)))
                      (period_us (data c)) / 3).
  assert (Havg : 0 < avg <= 1000000).
  { unfold avg, U32.add, U32.wrap, U32.modulus.
    rewrite (Z.mod_small (period_us (data a) + period_us (data b))) by lia.
    rewrite Z.mod_small by lia.
    split.
    - apply Z.div_str_pos. lia.
    - apply Z.div_le_upper_bound; lia. }
  destruct (calculate_phase_angle_in_range (timestamp_us (data a)) (timestamp_us (data b))
              avg Havg) as (_ & Hab1 & Hab2 & _).
  destruct (calculate_phase_angle_in_range (timestamp_us (data b)) (timestamp_us (data c))
              avg Havg) as (_ & Hbc1 & Hbc2 & _).
  destruct (calculate_phase_angle_in_range (timestamp_us (data c)) (timestamp_us (data a))
              avg Havg) as (_ & Hca1 & Hca2 & _).
  repeat (split; [assumption |]). assumption.
Qed.

Lemma reachable_sample_ok (dm : data_model) (h : pc814_handle_t) :
  reachable dm h -> sample_ok h.
Proof.
  intros (h0 & p & pull & edge & calls & Hrun).
  apply (run_invariant dm sample_ok (sample_ok_apply_call dm) calls
           (snd (pc814_init h0 (Some p) pull edge)) h); [| exact Hrun].
  split; [reflexivity | cbn; discriminate].
Qed.

(** For every period from 1 microsecond to 1 second and every pair of
    timestamps, [calculate_phase_angle] returns
    [((difference mod period) / period) * 360] rounded twice: an angle from
    0 up to, not including, 360 degrees, so that neither [fmodf] nor the
    addition of 360 is ever applied. After a successful
    [pc814_threephase_process] on channels whose periods lie in that range
    the three stored angles are therefore from 0 up to, not including, 360
    degrees. *)
Theorem threephase_angles_in_range :
  (forall t1 t2 period : Z,
      0 < period <= 1000000 ->
      calculate_phase_angle t1 t2 period
      = F32.mul (F32.div (F32.of_Z (time_diff_of t1 t2 mod period)) (F32.of_Z period))
                (F32.of_Z 360)
      /\ F32.geb (calculate_phase_angle t1 t2 period) F32.zero = true
      /\ F32.ltb (calculate_phase_angle t1 t2 period) (F32.of_Z 360) = true
      /\ (inject_Z (360 * (time_diff_of t1 t2 mod period)) / inject_Z period
          * ((1 - F32.eps) * (1 - F32.eps))
          <= F32.value (calculate_phase_angle t1 t2 period))%Q
      /\ (F32.value (calculate_phase_angle t1 t2 period)
          <= inject_Z (360 * (time_diff_of t1 t2 mod period)) / inject_Z period
             * ((1 + F32.eps) * (1 + F32.eps)))%Q)
  /\ (forall (tp : pc814_threephase_t) (a b c : pc814_handle_t),
        fst (pc814_threephase_process tp a b c) = PC814_OK ->
        1 <= period_us (data a) <= 1000000 ->
        1 <= period_us (data b) <= 1000000 ->
        1 <= period_us (data c) <= 1000000 ->
        let rel := relationship (snd (pc814_threephase_process tp a b c)) in
        F32.geb (phase_ab_angle rel) F32.zero = true
        /\ F32.ltb (phase_ab_angle rel) (F32.of_Z 360) = true
        /\ F32.geb (phase_bc_angle rel) F32.zero = true
        /\ F32.ltb (phase_bc_angle rel) (F32.of_Z 360) = true
        /\ F32.geb (phase_ca_angle rel) F32.zero = true
        /\ F32.ltb (phase_ca_angle rel) (F32.of_Z 360) = true).
Proof.
  split; [exact calculate_phase_angle_in_range |].
  intros tp a b c Hok Ha Hb Hc.
  apply process_angles_in_range; [exact Hok | | |]; intros _; assumption.
Qed.

Lemma threephase_angles_in_range_witness :
  F32.ltb (calculate_phase_angle 0 5461 16384) (F32.of_Z 360) = true
  /\ F32.ltb (phase_ca_angle
                (relationship
                   (snd (pc814_threephase_process (snd pc814_threephase_init)
                           (channel_at 0) (channel_at 5461) (channel_at 10922)))))
             (F32.of_Z 360) = true.
Proof.
  destruct threephase_angles_in_range as [Hangle Hprocess].
  split.
  - destruct (Hangle 0 5461 16384 ltac:(lia)) as (_ & _ & Hlt & _). exact Hlt.
  - destruct (Hprocess (snd pc814_threephase_init)
                (channel_at 0) (channel_at 5461) (channel_at 10922)
                eq_refl ltac:(cbn; lia) ltac:(cbn; lia) ltac:(cbn; lia))
      as (_ & _ & _ & _ & _ & Hlt).
    exact Hlt.
Defined.

(** Whatever calls produced the three channel handles after their
    [pc814_init], a [pc814_threephase_process] that succeeds on them stores
    three angles from 0 up to, not including, 360 degrees. *)
Theorem reachable_channels_give_angles_in_range (dm : data_model)
    (tp : pc814_threephase_t) (a b c : pc814_handle_t) :
  reachable dm a -> reachable dm b -> reachable dm c ->
  fst (pc814_threephase_process tp a b c) = PC814_OK ->
  let rel := relationship (snd (pc814_threephase_process tp a b c)) in
  F32.geb (phase_ab_angle rel) F32.zero = true
  /\ F32.ltb (phase_ab_angle rel) (F32.of_Z 360) = true
  /\ F32.geb (phase_bc_angle rel) F32.zero = true
  /\ F32.ltb (phase_bc_angle rel) (F32.of_Z 360) = true
  /\ F32.geb (phase_ca_angle rel) F32.zero = true
  /\ F32.ltb (phase_ca_angle rel) (F32.of_Z 360) = true.
Proof.
  intros Ha Hb Hc Hok.
  apply reachable_sample_ok in Ha, Hb, Hc.
  apply process_angles_in_range; [exact Hok | | |]; intros Hv.
  - destruct Ha as [_ Ha]. apply (Ha Hv).
  - destruct Hb as [_ Hb]. apply (Hb Hv).
  - destruct Hc as [_ Hc]. apply (Hc Hv).
Qed.

Lemma reachable_channels_give_angles_in_range_witness :
  F32.ltb (phase_ab_angle
             (relationship
                (snd (pc814_threephase_process (snd pc814_threephase_init)
                        (mains_state 3) (mains_state 4) (mains_state 5)))))
          (F32.of_Z 360) = true.
Proof.
  assert (Hreach : forall (k : Z) (readings : list port_readings),
             captures ILP32 readings fresh_handle = Returns (mains_state k) ->
             reachable ILP32 (mains_state k)).
  { intros k readings Hrun.
    exists blank_handle, full_port, PC814_PULL_UP, PC814_EDGE_RISING.
    exists (map ProcessCapture readings). exact Hrun. }
  destruct (reachable_channels_give_angles_in_range ILP32 (snd pc814_threephase_init)
              (mains_state 3) (mains_state 4) (mains_state 5)
              (Hreach 3 (mains_trace 1 3) ltac:(vm_compute; reflexivity))
              (Hreach 4 (mains_trace 1 4) ltac:(vm_compute; reflexivity))
              (Hreach 5 (mains_trace 1 5) ltac:(vm_compute; reflexivity)) eq_refl)
    as (_ & Hlt & _).
  exact Hlt.
Defined.

End ThreePhaseAngles.
